(** * leitor_fatura_elektroneoenergia: invoice line-item extraction

    A shallow embedding of [src/leitor_fatura_elektroneoenergia.py]: the
    text utilities, the regular expressions the extractor uses, the row
    fingerprint and the per-document extractor with its two exception
    handlers, followed by the properties stated about them. *)

From Stdlib Require Import NArith ZArith Lia Bool Ascii String.
From stdpp Require Import gmap strings list fin_maps.

Set Default Proof Using "Type".

(** ** Python text

    A Python [str] is a sequence of Unicode code points.  Row keys are
    only ever compared, so they stay Rocq strings (their UTF-8 bytes). *)

Abbreviation char := N.
Abbreviation pystr := (list N).

(** Code points of a literal written in this file (UTF-8 in the source
    text, as in the Python file). *)
Fixpoint utf8_decode (bs : list N) : pystr :=
  match bs with
  | [] => []
  | b :: r =>
    if (b <? 128)%N then b :: utf8_decode r
    else if (b <? 224)%N then
      match r with
      | c1 :: r1 => ((b - 192) * 64 + (c1 - 128))%N :: utf8_decode r1
      | _ => []
      end
    else if (b <? 240)%N then
      match r with
      | c1 :: c2 :: r2 =>
        ((b - 224) * 4096 + (c1 - 128) * 64 + (c2 - 128))%N :: utf8_decode r2
      | _ => []
      end
    else
      match r with
      | c1 :: c2 :: c3 :: r3 =>
        ((b - 240) * 262144 + (c1 - 128) * 4096 + (c2 - 128) * 64 + (c3 - 128))%N
          :: utf8_decode r3
      | _ => []
      end
  end.

Fixpoint string_bytes (s : string) : list N :=
  match s with
  | EmptyString => []
  | String a t => N_of_ascii a :: string_bytes t
  end.

Definition py (s : string) : pystr := utf8_decode (string_bytes s).

(** The part of the Unicode character database the program consults:
    [str.isspace] (also the class [\s]), [str.isalpha], the classes [\d]
    and [\w], the per-character mapping of [str.upper], and the relation
    "pattern character [c] matches subject character [x] under
    [re.IGNORECASE]". *)
Record unicode_db := UnicodeDb {
  u_isspace : char -> bool;
  u_isalpha : char -> bool;
  u_isdecimal : char -> bool;
  u_isword : char -> bool;
  u_upper : char -> pystr;
  u_ieq : char -> char -> bool
}.

(** The tables of CPython for the Latin-1 block (code points below 256),
    with the case variants those characters have elsewhere; [u_isspace] is
    the complete list of Unicode white space.  The closed examples below
    run on text of this block. *)
Definition in_ranges (rs : list (N * N)) (x : N) : bool :=
  existsb (fun r => (fst r <=? x)%N && (x <=? snd r)%N) rs.

Definition latin_isspace : char -> bool :=
  in_ranges [(9, 13); (28, 32); (133, 133); (160, 160); (5760, 5760);
             (8192, 8202); (8232, 8233); (8239, 8239); (8287, 8287);
             (12288, 12288)]%N.

Definition latin_isalpha : char -> bool :=
  in_ranges [(65, 90); (97, 122); (170, 170); (181, 181); (186, 186);
             (192, 214); (216, 246); (248, 255)]%N.

Definition latin_isdecimal : char -> bool := in_ranges [(48, 57)]%N.

Definition latin_isword : char -> bool :=
  in_ranges [(48, 57); (65, 90); (95, 95); (97, 122); (170, 170);
             (178, 179); (181, 181); (185, 186); (188, 190); (192, 214);
             (216, 246); (248, 255)]%N.

Definition latin_upper (x : char) : pystr :=
  if in_ranges [(97, 122); (224, 246); (248, 254)]%N x then [(x - 32)%N]
  else if (x =? 181)%N then [924%N]
  else if (x =? 223)%N then [83%N; 83%N]
  else if (x =? 255)%N then [376%N]
  else [x].

Definition latin_fold (x : char) : char :=
  if in_ranges [(65, 90); (192, 214); (216, 222)]%N x then (x + 32)%N
  else if (x =? 8490)%N then 107%N
  else if (x =? 383)%N then 115%N
  else if in_ranges [(304, 305)]%N x then 105%N
  else if in_ranges [(924, 924); (956, 956)]%N x then 181%N
  else if (x =? 8491)%N then 229%N
  else if (x =? 376)%N then 255%N
  else if (x =? 7838)%N then 223%N
  else x.

Definition latin_db : unicode_db :=
  {| u_isspace := latin_isspace;
     u_isalpha := latin_isalpha;
     u_isdecimal := latin_isdecimal;
     u_isword := latin_isword;
     u_upper := latin_upper;
     u_ieq := fun c x => (latin_fold c =? latin_fold x)%N |}.

(** ** [str.encode("utf-8")] and [hashlib.sha256]

    Encoding fails ([UnicodeEncodeError], here [None]) on a surrogate code
    point; bytes are numbers below 256. *)
Definition utf8_encode_char (c : char) : option (list N) :=
  if (c <? 128)%N then Some [c]
  else if (c <? 2048)%N then
    Some [192 + N.shiftr c 6; 128 + N.land c 63]%N
  else if (c <? 65536)%N then
    if (55296 <=? c)%N && (c <=? 57343)%N then None
    else Some [224 + N.shiftr c 12; 128 + N.land (N.shiftr c 6) 63;
               128 + N.land c 63]%N
  else if (c <? 1114112)%N then
    Some [240 + N.shiftr c 18; 128 + N.land (N.shiftr c 12) 63;
          128 + N.land (N.shiftr c 6) 63; 128 + N.land c 63]%N
  else None.

Fixpoint utf8_encode (s : pystr) : option (list N) :=
  match s with
  | [] => Some []
  | c :: t =>
    match utf8_encode_char c, utf8_encode t with
    | Some b, Some bs => Some (b ++ bs)
    | _, _ => None
    end
  end.

Module Sha256.

Definition w32 (x : N) : N := N.land x 0xFFFFFFFF.
Definition add32 (a b : N) : N := w32 (a + b).
Definition rotr (n x : N) : N := N.lor (N.shiftr x n) (w32 (N.shiftl x (32 - n))).
Definition not32 (x : N) : N := N.lxor x 0xFFFFFFFF.
Definition Ch (x y z : N) : N := N.lxor (N.land x y) (N.land (not32 x) z).
Definition Maj (x y z : N) : N :=
  N.lxor (N.land x y) (N.lxor (N.land x z) (N.land y z)).
Definition bsig0 (x : N) : N := N.lxor (rotr 2 x) (N.lxor (rotr 13 x) (rotr 22 x)).
Definition bsig1 (x : N) : N := N.lxor (rotr 6 x) (N.lxor (rotr 11 x) (rotr 25 x)).
Definition ssig0 (x : N) : N := N.lxor (rotr 7 x) (N.lxor (rotr 18 x) (N.shiftr x 3)).
Definition ssig1 (x : N) : N := N.lxor (rotr 17 x) (N.lxor (rotr 19 x) (N.shiftr x 10)).

(** The constants of the standard: the first 32 bits of the fractional
    parts of the cube roots of the first 64 primes, and of the square
    roots of the first 8. *)
Definition is_prime (n : nat) : bool :=
  forallb (fun d => negb (n mod d =? 0)) (seq 2 (n - 2)).

Definition primes64 : list N :=
  map N.of_nat (take 64 (filter (fun n => is_prime n = true) (seq 2 310))).

Fixpoint cube_root_bits (n : N) (k : nat) (r : N) : N :=
  match k with
  | O => r
  | S k' =>
    let r' := (r + N.shiftl 1 (N.of_nat k'))%N in
    cube_root_bits n k' (if (r' * r' * r' <=? n)%N then r' else r)
  end.

Definition frac_cube_root (p : N) : N :=
  w32 (cube_root_bits (N.shiftl p 96) 36 0).

Definition frac_square_root (p : N) : N := w32 (N.sqrt (N.shiftl p 64)).

Definition K : list N := Eval vm_compute in map frac_cube_root primes64.

Definition H0 : list N :=
  Eval vm_compute in map frac_square_root (take 8 primes64).

(** Padding: a 1 bit, zeros, and the bit length on 64 bits, big-endian. *)
Definition be_bytes (n : nat) (x : N) : list N :=
  map (fun i => N.land (N.shiftr x (8 * N.of_nat i)) 255) (rev (seq 0 n)).

Definition pad (msg : list N) : list N :=
  let len := length msg in
  msg ++ [128%N] ++ repeat 0%N ((119 - len mod 64) mod 64)
      ++ be_bytes 8 (8 * N.of_nat len).

Fixpoint be_words (bs : list N) : list N :=
  match bs with
  | a :: b :: c :: d :: t =>
    (N.shiftl a 24 + N.shiftl b 16 + N.shiftl c 8 + d)%N :: be_words t
  | _ => []
  end.

(** The message schedule, most recent word first. *)
Fixpoint extend (n : nat) (wrev : list N) : list N :=
  match n with
  | O => wrev
  | S n' =>
    let w := add32 (add32 (ssig1 (nth 1 wrev 0%N)) (nth 6 wrev 0%N))
                   (add32 (ssig0 (nth 14 wrev 0%N)) (nth 15 wrev 0%N)) in
    extend n' (w :: wrev)
  end.

Definition schedule (block : list N) : list N := rev (extend 48 (rev block)).

Definition round (st : list N) (kw : N * N) : list N :=
  match st with
  | [a; b; c; d; e; f; g; h] =>
    let t1 := add32 (add32 (add32 h (bsig1 e)) (add32 (Ch e f g) (fst kw))) (snd kw) in
    let t2 := add32 (bsig0 a) (Maj a b c) in
    [add32 t1 t2; a; b; c; add32 d t1; e; f; g]
  | _ => st
  end.

Definition compress (h : list N) (block : list N) : list N :=
  zip_with add32 h (fold_left round (zip K (schedule block)) h).

Fixpoint blocks (fuel : nat) (ws : list N) : list (list N) :=
  match fuel, ws with
  | S fuel', _ :: _ => take 16 ws :: blocks fuel' (drop 16 ws)
  | _, _ => []
  end.

Definition digest (msg : list N) : list N :=
  let ws := be_words (pad msg) in
  flat_map (be_bytes 4) (fold_left compress (blocks (length ws) ws) H0).

Definition hex_digit (x : N) : char :=
  if (x <? 10)%N then (48 + x)%N else (87 + x)%N.

(** [hashlib.sha256(b).hexdigest()] *)
Definition hexdigest (msg : list N) : pystr :=
  flat_map (fun b => [hex_digit (N.shiftr b 4); hex_digit (N.land b 15)])
           (digest msg).

End Sha256.

(** ** Control flow

    The extractor appends to one list, [itens_lista], inside a [try] whose
    handler prints the exception and falls through to [return itens_lista];
    the rows of energy items are built inside a second [try] whose handler
    is [continue].  A computation takes the list so far and gives back
    either a value or an exception, together with the list as it then is.

    An exception is what the printing handler reads of it, its text
    [str(e)].  The exceptions are those of class [Exception], which both
    handlers catch. *)
Inductive outcome (A : Type) : Type :=
| Done (a : A)
| Raised (e : pystr).
Arguments Done {A} a.
Arguments Raised {A} e.

Definition prog (A : Type) : Type :=
  list (gmap string pystr) -> outcome A * list (gmap string pystr).

#[global] Instance prog_ret : MRet prog := fun A a itens => (Done a, itens).

#[global] Instance prog_bind : MBind prog := fun A B f m itens =>
  match m itens with
  | (Done a, itens') => f a itens'
  | (Raised e, itens') => (Raised e, itens')
  end.

Definition raise_ {A : Type} (e : pystr) : prog A :=
  fun itens => (Raised e, itens).

Definition get_itens : prog (list (gmap string pystr)) :=
  fun itens => (Done itens, itens).

(** [itens_lista.append(row)] *)
Definition append (row : gmap string pystr) : prog unit :=
  fun itens => (Done tt, itens ++ [row]).

(** A failing index, [IndexError]: the exception leaves what was
    appended. *)
Definition lift_opt {A : Type} (o : option A) : prog A :=
  match o with
  | Some a => mret a
  | None => raise_ (py "list index out of range")
  end.

(** [try: body / except ... as e: handler] *)
Definition try_except (body : prog unit) (handler : pystr -> prog unit)
  : prog unit := fun itens =>
  match body itens with
  | (Done a, itens') => (Done a, itens')
  | (Raised e, itens') => handler e itens'
  end.

(** What [pdfplumber] makes of the bytes: [open] raises, or gives pages
    whose [extract_text()] returns a text, returns [None], or raises. *)
Inductive page : Type :=
| PageText (t : pystr)
| PageNone
| PageError (e : pystr).

Inductive pdf_view : Type :=
| PdfUnreadable (e : pystr)
| PdfPages (pages : list page).

(** Besides the failures the text determines, the interpreter and the
    libraries can raise while a line is being worked on for reasons it
    does not determine (memory, recursion depth).  [region] names the
    three parts of the loop body by the handler that is in force:
    lines 274-287 and 335-337, the inner [try] of lines 288-331, and lines
    338-360. *)
Inductive region : Type :=
| InLine
| InEnergyRow
| InFeeRow.

(** The run in which nothing raises besides what the text determines. *)
Definition no_raise : region -> nat -> option pystr := fun _ _ => None.

(** ** The standard output

    [print(s)] writes the text and a line end to [sys.stdout], and raises
    when the stream does not take them: it is closed or broken, or its
    encoding has no bytes for a character of the text.  A stream is given
    by what [print] does with each text: [None] when it is written,
    [Some e] when [e] is raised. *)
Definition is_surrogate (c : char) : bool :=
  (55296 <=? c)%N && (c <=? 57343)%N.

(** [str(n)] *)
Fixpoint decimal_aux (fuel : nat) (n : N) (acc : pystr) : pystr :=
  match fuel with
  | O => acc
  | S fuel' =>
    let acc' := (48 + n mod 10)%N :: acc in
    if (n <? 10)%N then acc' else decimal_aux fuel' (n / 10) acc'
  end.

Definition decimal (n : nat) : pystr := decimal_aux (S n) (N.of_nat n) [].

(** The number of surrogates a text starts with. *)
Fixpoint surrogate_run (s : pystr) : nat :=
  match s with
  | c :: t => if is_surrogate c then S (surrogate_run t) else 0
  | [] => 0
  end.

(** The text of the [UnicodeEncodeError] of the strict UTF-8 codec, which
    names the first run of surrogates of the text; [None] when there is
    none. *)
Fixpoint encode_error (pos : nat) (s : pystr) : option pystr :=
  match s with
  | [] => None
  | c :: t =>
    if is_surrogate c then
      Some (match surrogate_run t with
            | O =>
              py "'utf-8' codec can't encode character '\u" ++
              [Sha256.hex_digit (N.shiftr c 12);
               Sha256.hex_digit (N.land (N.shiftr c 8) 15);
               Sha256.hex_digit (N.land (N.shiftr c 4) 15);
               Sha256.hex_digit (N.land c 15)] ++
              py "' in position " ++ decimal pos ++
              py ": surrogates not allowed"
            | S k =>
              py "'utf-8' codec can't encode characters in position " ++
              decimal pos ++ py "-" ++ decimal (pos + S k) ++
              py ": surrogates not allowed"
            end)
    else encode_error (S pos) t
  end.

(** An open stream that encodes to UTF-8, as [sys.stdout] is on a UTF-8
    terminal: [print] raises on a text with a surrogate and on no other. *)
Definition utf8_stdout : pystr -> option pystr := encode_error 0.

(** A stream that takes every text (one opened with
    [errors='backslashreplace'], say). *)
Definition lenient_stdout : pystr -> option pystr := fun _ => None.

Section Text.

Variable U : unicode_db.

(** [s.upper()] *)
Definition upper (s : pystr) : pystr := flat_map (u_upper U) s.

(** [a.startswith(b)] and [sub in s] *)
Fixpoint starts_with (sub s : pystr) : bool :=
  match sub, s with
  | [], _ => true
  | _ :: _, [] => false
  | a :: sub', b :: s' => (a =? b)%N && starts_with sub' s'
  end.

Fixpoint contains (sub s : pystr) : bool :=
  starts_with sub s ||
  match s with
  | [] => false
  | _ :: s' => contains sub s'
  end.

(** [any(x in s for x in subs)] *)
Definition any_in (subs : list pystr) (s : pystr) : bool :=
  existsb (fun x => contains x s) subs.

(** [s.strip()] *)
Fixpoint lstrip (s : pystr) : pystr :=
  match s with
  | c :: t => if u_isspace U c then lstrip t else s
  | [] => []
  end.

Definition rstrip (s : pystr) : pystr := reverse (lstrip (reverse s)).

Definition strip (s : pystr) : pystr := rstrip (lstrip s).

(** [s.split()]: the maximal runs of non-whitespace characters.  [cur] is
    the run being read, reversed. *)
Fixpoint split_ws_aux (cur : pystr) (s : pystr) : list pystr :=
  match s with
  | [] => match cur with [] => [] | _ => [reverse cur] end
  | c :: t =>
    if u_isspace U c
    then match cur with
         | [] => split_ws_aux [] t
         | _ => reverse cur :: split_ws_aux [] t
         end
    else split_ws_aux (c :: cur) t
  end.

Definition split_ws (s : pystr) : list pystr := split_ws_aux [] s.

(** [sep.join(parts)] *)
Fixpoint join (sep : pystr) (parts : list pystr) : pystr :=
  match parts with
  | [] => []
  | [p] => p
  | p :: ps => p ++ sep ++ join sep ps
  end.

(** [s.split(c)] for a one-character separator: empty pieces are kept. *)
Fixpoint split_char_aux (c : char) (cur : pystr) (s : pystr) : list pystr :=
  match s with
  | [] => [reverse cur]
  | x :: t =>
    if (x =? c)%N then reverse cur :: split_char_aux c [] t
    else split_char_aux c (x :: cur) t
  end.

Definition split_char (c : char) (s : pystr) : list pystr := split_char_aux c [] s.

(** [s[i:j]] for [0 <= i], [0 <= j] *)
Definition slice (i j : nat) (s : pystr) : pystr := take (j - i) (drop i s).

(** ** Regular expressions

    The patterns of the program use literals, classes, sequencing,
    alternation, bounded and unbounded greedy or lazy repetition, one
    capture group, [^], [\b] and a lookahead.  [rmatch] is a backtracking
    matcher in continuation-passing style with the priorities of Python's
    [re]: the left alternative first, greedy repetition longest first,
    lazy repetition shortest first. *)

Inductive re : Type :=
| Eps
| Cls (p : char -> bool)
| Cat (a b : re)
| Alt (a b : re)
| Rep (greedy : bool) (lo : nat) (hi : option nat) (a : re)
| Grp (n : nat) (a : re)
| Bol
| Wordb
| Ahead (a : re).

(** A position in the subject: the index, the character before it, the
    text from it on, and the spans of the groups closed so far. *)
Record mstate := MState {
  ms_pos : nat;
  ms_prev : option char;
  ms_rest : pystr;
  ms_caps : list (nat * (nat * nat))
}.

Definition is_word_at (c : option char) : bool :=
  match c with
  | Some x => u_isword U x
  | None => false
  end.

Definition below (n : nat) (hi : option nat) : bool :=
  match hi with
  | Some h => n <? h
  | None => true
  end.

(** Repetition of [body] between [lo] and [hi] times, [cnt] iterations
    being done.  Every repeated sub-pattern of the program consumes at
    least one character; an iteration that consumes nothing is not taken,
    so the length of the remaining text bounds the number of iterations. *)
Fixpoint rep_loop (body : (mstate -> option mstate) -> mstate -> option mstate)
  (g : bool) (lo : nat) (hi : option nat) (k : mstate -> option mstate)
  (fuel cnt : nat) (st : mstate) : option mstate :=
  match fuel with
  | O => None
  | S fuel' =>
    let again (_ : unit) :=
      if below cnt hi
      then body (fun st' => if ms_pos st <? ms_pos st'
                            then rep_loop body g lo hi k fuel' (S cnt) st'
                            else None) st
      else None in
    let leave (_ : unit) := if lo <=? cnt then k st else None in
    if g
    then match again tt with Some e => Some e | None => leave tt end
    else match leave tt with Some e => Some e | None => again tt end
  end.

Fixpoint rmatch (r : re) (k : mstate -> option mstate) (st : mstate)
  : option mstate :=
  match r with
  | Eps => k st
  | Cls p =>
    match ms_rest st with
    | c :: t =>
      if p c then k (MState (S (ms_pos st)) (Some c) t (ms_caps st)) else None
    | [] => None
    end
  | Cat a b => rmatch a (rmatch b k) st
  | Alt a b =>
    match rmatch a k st with
    | Some e => Some e
    | None => rmatch b k st
    end
  | Rep g lo hi a =>
    rep_loop (rmatch a) g lo hi k (S (length (ms_rest st))) 0 st
  | Grp n a =>
    rmatch a (fun st' =>
      k (MState (ms_pos st') (ms_prev st') (ms_rest st')
                ((n, (ms_pos st, ms_pos st')) :: ms_caps st'))) st
  | Bol => if ms_pos st =? 0 then k st else None
  | Wordb =>
    if xorb (is_word_at (ms_prev st)) (is_word_at (head (ms_rest st)))
    then k st else None
  | Ahead a =>
    match rmatch a Some st with
    | Some _ => k st
    | None => None
    end
  end.

(** A match object: [m.start()], [m.end()] and the group spans. *)
Record rmatch_obj := MatchObj {
  m_start : nat;
  m_end : nat;
  m_caps : list (nat * (nat * nat));
  m_after : mstate
}.

Definition match_at (r : re) (st : mstate) : option rmatch_obj :=
  match rmatch r Some st with
  | Some e => Some (MatchObj (ms_pos st) (ms_pos e) (ms_caps e) e)
  | None => None
  end.

(** The leftmost match starting at or after a position. *)
Fixpoint scan (r : re) (pos : nat) (prev : option char) (rest : pystr)
  : option rmatch_obj :=
  match match_at r (MState pos prev rest []) with
  | Some m => Some m
  | None =>
    match rest with
    | c :: t => scan r (S pos) (Some c) t
    | [] => None
    end
  end.

(** [re.search(r, s)] *)
Definition search (r : re) (s : pystr) : option rmatch_obj := scan r 0 None s.

(** [m.group(0)] and [m.group(n)] on the subject [s] *)
Definition group0 (s : pystr) (m : rmatch_obj) : pystr :=
  slice (m_start m) (m_end m) s.

Fixpoint cap_lookup (n : nat) (caps : list (nat * (nat * nat)))
  : option (nat * nat) :=
  match caps with
  | [] => None
  | (n', sp) :: t => if n =? n' then Some sp else cap_lookup n t
  end.

Definition group (n : nat) (s : pystr) (m : rmatch_obj) : pystr :=
  match cap_lookup n (m_caps m) with
  | Some (i, j) => slice i j s
  | None => []
  end.

(** [r.finditer(s)]: successive non-overlapping leftmost matches.  None of
    the patterns iterated over matches the empty string; after an empty
    match the scan moves one character on. *)
Fixpoint finditer_from (fuel : nat) (r : re) (pos : nat) (prev : option char)
  (rest : pystr) : list rmatch_obj :=
  match fuel with
  | O => []
  | S fuel' =>
    match scan r pos prev rest with
    | None => []
    | Some m =>
      let e := m_after m in
      m :: (if m_start m <? m_end m
            then finditer_from fuel' r (ms_pos e) (ms_prev e) (ms_rest e)
            else match ms_rest e with
                 | c :: t => finditer_from fuel' r (S (ms_pos e)) (Some c) t
                 | [] => []
                 end)
    end
  end.

Definition finditer (r : re) (s : pystr) : list rmatch_obj :=
  finditer_from (S (length s)) r 0 None s.

(** [re.findall(r, s)] for a pattern with exactly one group *)
Definition findall1 (r : re) (s : pystr) : list pystr :=
  map (group 1 s) (finditer r s).

(** [re.sub(r, repl, s)] for a literal replacement *)
Fixpoint sub_spans (repl : pystr) (s : pystr) (from : nat)
  (ms : list rmatch_obj) : pystr :=
  match ms with
  | [] => drop from s
  | m :: ms' => slice from (m_start m) s ++ repl ++ sub_spans repl s (m_end m) ms'
  end.

Definition re_sub (r : re) (repl : pystr) (s : pystr) : pystr :=
  sub_spans repl s 0 (finditer r s).

(** [re.split(r, s)[0]] *)
Definition re_split_head (r : re) (s : pystr) : pystr :=
  match search r s with
  | Some m => take (m_start m) s
  | None => s
  end.

(** *** Pattern atoms *)

(** The character written [s] *)
Definition ch (s : string) : char := default 0%N (head (py s)).

Definition lit (c : char) : re := Cls (N.eqb c).
Definition ilit (c : char) : re := Cls (u_ieq U c).
Definition digit : re := Cls (u_isdecimal U).
Definition space : re := Cls (u_isspace U).
Definition dot : re := Cls (fun x => negb (x =? 10)%N).

Definition star (a : re) : re := Rep true 0 None a.
Definition plus (a : re) : re := Rep true 1 None a.
Definition opt (a : re) : re := Rep true 0 (Some 1) a.
Definition times (lo hi : nat) (a : re) : re := Rep true lo (Some hi) a.

Fixpoint cats (rs : list re) : re :=
  match rs with
  | [] => Eps
  | [r] => r
  | r :: rs' => Cat r (cats rs')
  end.

(** A literal word under [re.IGNORECASE] *)
Definition iword (s : pystr) : re := cats (map ilit s).

(** ** Regex / Utils *)

(** [-?\d{1,3}(?:\.\d{3})*(?:,\d{2,6})?|-?\d+(?:,\d{2,6})?] *)
Definition NUM_RE : re :=
  Alt (cats [opt (lit (ch "-")); times 1 3 digit;
             star (cats [lit (ch "."); times 3 3 digit]);
             opt (cats [lit (ch ","); times 2 6 digit])])
      (cats [opt (lit (ch "-")); plus digit;
             opt (cats [lit (ch ","); times 2 6 digit])]).

Definition is_letter (c : option char) : bool :=
  match c with
  | Some x => u_isalpha U x
  | None => false
  end.

(** [\b\d{1,2}/\d{1,2}/\d{4}\b] *)
Definition DATE_DMY_RE : re :=
  cats [Wordb; times 1 2 digit; lit (ch "/"); times 1 2 digit; lit (ch "/");
        times 4 4 digit; Wordb].

(** [\b\d{1,2}/\d{4}\b] *)
Definition DATE_MY_RE : re :=
  cats [Wordb; times 1 2 digit; lit (ch "/"); times 4 4 digit; Wordb].

(** [\b\d{1,2}/\d{1,2}\s*-\s*\d{1,2}/\d{1,2}\b] *)
Definition DATE_RANGE_RE : re :=
  cats [Wordb; times 1 2 digit; lit (ch "/"); times 1 2 digit; star space;
        lit (ch "-"); star space; times 1 2 digit; lit (ch "/");
        times 1 2 digit; Wordb].

(** [\b\d{1,2}/\d{1,2}\b] *)
Definition DATE_DM_RE : re :=
  cats [Wordb; times 1 2 digit; lit (ch "/"); times 1 2 digit; Wordb].

Definition sanitize_line_for_numbers (line : pystr) : pystr :=
  let s := line in
  let s := re_sub DATE_DMY_RE (py " ") s in
  let s := re_sub DATE_MY_RE (py " ") s in
  let s := re_sub DATE_RANGE_RE (py " ") s in
  let s := re_sub DATE_DM_RE (py " ") s in
  let s := join (py " ") (split_ws s) in
  s.

(** [while j < len(line) and line[j].isspace(): j += 1], on the text from
    [j] on *)
Fixpoint skip_space (rest : pystr) (j : nat) : nat :=
  match rest with
  | c :: t => if u_isspace U c then skip_space t (S j) else j
  | [] => j
  end.

(** The two [continue] tests of the loop body for one match [m]. *)
Definition is_percent (line : pystr) (m : rmatch_obj) : bool :=
  let j := skip_space (drop (m_end m) line) (m_end m) in
  match line !! j with
  | Some c => (c =? ch "%")%N
  | None => false
  end.

Definition glued_to_letter (line : pystr) (m : rmatch_obj) : bool :=
  let i := m_start m in
  let prev_ch := match i with O => None | S p => line !! p end in
  let next_ch := line !! m_end m in
  is_letter prev_ch || is_letter next_ch.

Definition kept_numbers (line : pystr) : list rmatch_obj :=
  filter (fun m => negb (is_percent line m) && negb (glued_to_letter line m))
         (finditer NUM_RE line).

Definition extract_numbers_ignoring_percent_and_codes (line : pystr)
  : list pystr :=
  map (group0 line) (kept_numbers line).

(** [\b(VERMELHA|AMARELA|VERDE)\b] with [re.IGNORECASE] *)
Definition BANDEIRA_NAME_RE : re :=
  cats [Wordb;
        Grp 1 (Alt (iword (py "VERMELHA"))
                   (Alt (iword (py "AMARELA")) (iword (py "VERDE"))));
        Wordb].

Fixpoint bandeira_parts (s : pystr) (matches : list rmatch_obj) : list pystr :=
  match matches with
  | [] => []
  | m :: rest =>
    let start_ := m_start m in
    let end_ := match rest with
                | m' :: _ => m_start m'
                | [] => length s
                end in
    let chunk := strip (slice start_ end_ s) in
    match chunk with
    | [] => bandeira_parts s rest
    | _ => chunk :: bandeira_parts s rest
    end
  end.

Definition split_bandeira_descricao (bandeira_raw : pystr) : pystr * pystr :=
  match bandeira_raw with
  | [] => ([], [])
  | _ =>
    let s := join (py " ") (split_ws bandeira_raw) in
    let matches := finditer BANDEIRA_NAME_RE s in
    match matches with
    | [] => (strip s, [])
    | _ =>
      let parts := bandeira_parts s matches in
      (default [] (parts !! 0), default [] (parts !! 1))
    end
  end.

Definition infer_bandeira_raw_from_text (texto_completo : pystr) : pystr :=
  let t := upper texto_completo in
  let has_verm := contains (py "VERM") t in
  let has_amar := contains (py "AMAR") t in
  let has_verde := contains (py "VERDE") t in
  if has_verm && has_amar then py "Vermelha Amarela"
  else if has_verm then py "Vermelha"
  else if has_amar then py "Amarela"
  else if has_verde then py "Verde"
  else py "Verde".

(** ** Rows and their fingerprint

    A row is the dictionary built at lines 309-330 and 338-359: textual
    values under a fixed set of keys. *)

Definition dict_get (d : gmap string pystr) (k : string) (dflt : pystr) : pystr :=
  default dflt (d !! k).

(** [make_row_hash]; [None] is the [UnicodeEncodeError] of [encode]. *)
Definition make_row_hash (d : gmap string pystr) : option pystr :=
  let key_fields :=
    [dict_get d "Mês Ref" [];
     dict_get d "Cliente" [];
     dict_get d "Cód Cliente" [];
     dict_get d "Vencimento" [];
     dict_get d "Itens da fatura" [];
     dict_get d "Unid" [];
     dict_get d "Quantidade" [];
     dict_get d "Preço Unit com Trib(RS)" [];
     dict_get d "Valor R$" [];
     dict_get d "TARIFA UNIT.(R$)" []] in
  let raw := join (py "|") (map strip key_fields) in
  Sha256.hexdigest <$> utf8_encode raw.

(** ** Extractor: document-level fields *)

(** [\d{2}/\d{2}/\d{4}] and [\d{1,3}(?:\.\d{3})*,\d{2}]; [re.findall] is
    given each of them inside one group. *)
Definition HDR_DATE_RE : re :=
  cats [times 2 2 digit; lit (ch "/"); times 2 2 digit; lit (ch "/");
        times 4 4 digit].

Definition HDR_VALUE_RE : re :=
  cats [times 1 3 digit; star (cats [lit (ch "."); times 3 3 digit]);
        lit (ch ","); times 2 2 digit].

(** Line 241 *)
Definition is_header_line (linha : pystr) : bool :=
  bool_decide (is_Some (search HDR_DATE_RE linha)) && contains (py ",") linha.

(** Lines 240-248: the loop over [linhas[:25]] with its [break]. *)
Fixpoint header_scan (linhas : list pystr) (vencimento total : pystr)
  : pystr * pystr :=
  match linhas with
  | [] => (vencimento, total)
  | linha :: rest =>
    if is_header_line linha
    then
      let datas := findall1 (Grp 1 HDR_DATE_RE) linha in
      let valores := findall1 (Grp 1 HDR_VALUE_RE) linha in
      (default vencimento (last datas), default total (last valores))
    else header_scan rest vencimento total
  end.

Definition header_fields (linhas : list pystr) : pystr * pystr :=
  header_scan (take 25 linhas) (py "N/A") (py "0,00").

Definition chars_between (lo hi : N) : list char :=
  map (fun i => (lo + N.of_nat i)%N) (seq 0 (S (N.to_nat (hi - lo)))).

(** A bracketed set under [re.IGNORECASE] *)
Definition iset (cs : list char) (x : char) : bool :=
  existsb (fun c => u_ieq U c x) cs.

(** [Bandeira\s*Tarif[a-z]+ria\s+([^(\n\r]+)] with [re.IGNORECASE] *)
Definition BANDEIRA_RE : re :=
  cats [iword (py "Bandeira"); star space; iword (py "Tarif");
        plus (Cls (iset (chars_between (ch "a") (ch "z"))));
        iword (py "ria"); plus space;
        Grp 1 (plus (Cls (fun x => negb (iset [ch "("; 10; 13]%N x))))].

Definition bandeira_raw_of (texto_completo : pystr) : pystr :=
  match search BANDEIRA_RE texto_completo with
  | Some band_match => strip (group 1 texto_completo band_match)
  | None => infer_bandeira_raw_from_text texto_completo
  end.

(** [<label>\s+\(TP\)\s+[\w\s]+\s+(\d+)] with [re.IGNORECASE], the label
    being words separated by [\s+] *)
Definition saldo_re (label : list pystr) : re :=
  cats (flat_map (fun w => [iword w; plus space]) label ++
        [ilit (ch "("); iword (py "TP"); ilit (ch ")"); plus space;
         plus (Cls (fun x => u_isword U x || u_isspace U x)); plus space;
         Grp 1 (plus digit)]).

Definition SALDO_MES_RE : re := saldo_re [py "Saldo"; py "Mes"; py "no"].
Definition SALDO_ACUM_RE : re := saldo_re [py "Saldo"; py "Acumulado"; py "no"].
Definition SALDO_EXP_RE : re :=
  saldo_re [py "Saldo"; py "a"; py "Expirar"; py "Proximo"; py "Mes"; py "no"].

Definition saldo_of (r : re) (texto_completo : pystr) : pystr :=
  match search r texto_completo with
  | Some m => group 1 texto_completo m
  | None => py "0"
  end.

(** The values that are fixed once the loop over the lines starts. *)
Record doc_fields := DocFields {
  mes_ano : pystr;
  nome_cliente : pystr;
  cod_cliente_pasta : pystr;
  vencimento : pystr;
  total_fatura_pdf : pystr;
  bandeira_desc_1 : pystr;
  bandeira_desc_2 : pystr;
  saldo_mes : pystr;
  saldo_acumulado : pystr;
  saldo_expirar : pystr
}.

Definition document_fields (mes nome cod texto_completo : pystr)
  (linhas : list pystr) : doc_fields :=
  let hdr := header_fields linhas in
  let bandeira_raw := bandeira_raw_of texto_completo in
  let descs := split_bandeira_descricao bandeira_raw in
  {| mes_ano := mes; nome_cliente := nome; cod_cliente_pasta := cod;
     vencimento := fst hdr; total_fatura_pdf := snd hdr;
     bandeira_desc_1 := fst descs; bandeira_desc_2 := snd descs;
     saldo_mes := saldo_of SALDO_MES_RE texto_completo;
     saldo_acumulado := saldo_of SALDO_ACUM_RE texto_completo;
     saldo_expirar := saldo_of SALDO_EXP_RE texto_completo |}.

(** ** Extractor: the lines *)

(** [^(.*?)(?:\s+k?Wh)] with [re.IGNORECASE], and [^(.*?)(?=\s+-?\d)] *)
Definition DESC_UNIT_RE : re :=
  cats [Bol; Grp 1 (Rep false 0 None dot); plus space; opt (ilit (ch "k"));
        ilit (ch "W"); ilit (ch "h")].

Definition DESC_NUM_RE : re :=
  cats [Bol; Grp 1 (Rep false 0 None dot);
        Ahead (cats [plus space; opt (lit (ch "-")); digit])].

(** [\bPIS\b|\bCOFINS\b|\bCONFINS\b] with [re.IGNORECASE] *)
Definition PIS_RE : re :=
  Alt (cats [Wordb; iword (py "PIS"); Wordb])
      (Alt (cats [Wordb; iword (py "COFINS"); Wordb])
           (cats [Wordb; iword (py "CONFINS"); Wordb])).

(** [(\d+)%] *)
Definition ALIQ_RE : re := cats [Grp 1 (plus digit); lit (ch "%")].

Definition is_energy_line (linha_up : pystr) : bool :=
  any_in [py "KWH"; py "WH "; py "ENERGIA"] linha_up.

Definition is_fee_line (linha_up : pystr) : bool :=
  any_in [py "ILUMINAÇÃO"; py "ILUM P"; py "MULTA"; py "JUROS"; py "DEVOL";
          py "ILUM PUBLICA"; py "COBRANCA ILUM"] linha_up.

(** Lines 277-280 *)
Definition energy_desc (linha : pystr) : pystr :=
  let desc_match :=
    match search DESC_UNIT_RE linha with
    | Some m => Some m
    | None => search DESC_NUM_RE linha
    end in
  match desc_match with
  | Some m => strip (group 1 linha m)
  | None =>
    match split_ws linha with
    | w :: _ => w
    | [] => py "Item"
    end
  end.

(** Lines 283-285 *)
Definition energy_values (linha : pystr) : list pystr :=
  let linha_numeros := re_split_head PIS_RE linha in
  let linha_numeros := sanitize_line_for_numbers linha_numeros in
  extract_numbers_ignoring_percent_and_codes linha_numeros.

(** Lines 303-307 *)
Definition tarifa_override (desc_up tarifa_unit : pystr) : pystr :=
  if contains (py "AD.B.VERM1") desc_up then py "0,044630"
  else if contains (py "AD.B.AMAR") desc_up then py "0,018850"
  else tarifa_unit.

(** Lines 289-330, the body of the inner [try].  Indexing a list out of
    range raises [IndexError]: [None].  [adjust] is what lines 303-307 do
    to [tarifa_unit]. *)
Definition energy_row_with (adjust : pystr -> pystr -> pystr)
  (doc : doc_fields) (linha linha_up desc desc_up : pystr)
  (valores_linha : list pystr) : option (gmap string pystr) :=
  let unid_item :=
    if contains (py "KWH") linha_up then py "kWh"
    else if contains (py "WH") linha_up then py "Wh" else py "-" in
  qtd ← valores_linha !! 0;
  preco_unit_com_trib ← valores_linha !! 1;
  valor_rs ← valores_linha !! 2;
  pis_confins ← valores_linha !! 3;
  base_calc_icms ← valores_linha !! 4;
  let aliq :=
    match search ALIQ_RE linha with
    | Some aliq_match => group0 linha aliq_match
    | None => py "0%"
    end in
  icms_valor ← (if 5 <? length valores_linha then valores_linha !! 5
                else Some (py "0,00"));
  tarifa_unit ← (if 6 <? length valores_linha then valores_linha !! 6
                 else Some preco_unit_com_trib);
  let tarifa_unit := adjust desc_up tarifa_unit in
  Some (list_to_map
    [("Mês Ref", mes_ano doc);
     ("Cliente", nome_cliente doc);
     ("Cód Cliente", cod_cliente_pasta doc);
     ("Vencimento", vencimento doc);
     ("Total a Pagar (R$)", total_fatura_pdf doc);
     ("Itens da fatura", desc);
     ("Unid", unid_item);
     ("Quantidade", qtd);
     ("Preço Unit com Trib(RS)", preco_unit_com_trib);
     ("Valor R$", valor_rs);
     ("PIS/CONFINS(R$)", pis_confins);
     ("BASE CALC ICMS(R$)", base_calc_icms);
     ("Alíquota ICMS(%)", aliq);
     ("ICMS (R$)", icms_valor);
     ("TARIFA UNIT.(R$)", tarifa_unit);
     ("Bandeira Tarifária 1 (descrição)", bandeira_desc_1 doc);
     ("Bandeira Tarifária 2 (descrição)", bandeira_desc_2 doc);
     ("Saldo Mes (kWh)", saldo_mes doc);
     ("Saldo Acumulado (kWh)", saldo_acumulado doc);
     ("Saldo a Expirar (kWh)", saldo_expirar doc)]).

Definition energy_row := energy_row_with tarifa_override.

(** The same row with lines 303-307 left out. *)
Definition energy_row_no_override := energy_row_with (fun _ t => t).

(** Line 336 *)
Definition fee_values (linha : pystr) : list pystr :=
  extract_numbers_ignoring_percent_and_codes (sanitize_line_for_numbers linha).

(** Lines 338-359; [v_taxa[-1]] raises on an empty list. *)
Definition fee_row (doc : doc_fields) (linha : pystr) (v_taxa : list pystr)
  : option (gmap string pystr) :=
  valor ← last v_taxa;
  Some (list_to_map
    [("Mês Ref", mes_ano doc);
     ("Cliente", nome_cliente doc);
     ("Cód Cliente", cod_cliente_pasta doc);
     ("Vencimento", vencimento doc);
     ("Total a Pagar (R$)", total_fatura_pdf doc);
     ("Itens da fatura",
      strip (default [] (head (split_char (ch ",") (take 60 linha)))));
     ("Unid", py "-");
     ("Quantidade", py "-");
     ("Preço Unit com Trib(RS)", py "-");
     ("Valor R$", valor);
     ("PIS/CONFINS(R$)", py "0,00");
     ("BASE CALC ICMS(R$)", py "0,00");
     ("Alíquota ICMS(%)", py "0%");
     ("ICMS (R$)", py "0,00");
     ("TARIFA UNIT.(R$)", py "-");
     ("Bandeira Tarifária 1 (descrição)", bandeira_desc_1 doc);
     ("Bandeira Tarifária 2 (descrição)", bandeira_desc_2 doc);
     ("Saldo Mes (kWh)", saldo_mes doc);
     ("Saldo Acumulado (kWh)", saldo_acumulado doc);
     ("Saldo a Expirar (kWh)", saldo_expirar doc)]).

(** ** Extractor: the loop and the function

    [raises s i] is [Some e] when [e] is raised while line number [i] is
    in region [s]. *)
Variable raises : region -> nat -> option pystr.

Definition may_raise (s : region) (i : nat) : prog unit := fun itens =>
  match raises s i with
  | Some e => (Raised e, itens)
  | None => (Done tt, itens)
  end.

(** Lines 274-360, the body of [for linha in linhas], for line number [i] *)
Definition item_step (doc : doc_fields) (i : nat) (linha : pystr) : prog unit :=
  may_raise InLine i;;
  let linha_up := upper linha in
  if is_energy_line linha_up then
    let desc := energy_desc linha in
    let desc_up := upper desc in
    let valores_linha := energy_values linha in
    if 5 <=? length valores_linha then
      try_except
        (may_raise InEnergyRow i;;
         row ← lift_opt (energy_row doc linha linha_up desc desc_up valores_linha);
         append row)
        (fun _ => mret tt)
    else mret tt
  else if is_fee_line linha_up then
    let v_taxa := fee_values linha in
    match v_taxa with
    | [] => mret tt
    | _ =>
      may_raise InFeeRow i;;
      row ← lift_opt (fee_row doc linha v_taxa);
      append row
    end
  else mret tt.

Fixpoint for_lines (doc : doc_fields) (i : nat) (linhas : list pystr)
  : prog unit :=
  match linhas with
  | [] => mret tt
  | linha :: rest => item_step doc i linha;; for_lines doc (S i) rest
  end.

(** Lines 232-235 *)
Fixpoint read_pages (pages : list page) (texto_completo : pystr)
  : outcome pystr :=
  match pages with
  | [] => Done texto_completo
  | PageText t :: rest => read_pages rest (texto_completo ++ t ++ [10%N])
  | PageNone :: rest => read_pages rest (texto_completo ++ [] ++ [10%N])
  | PageError e :: _ => Raised e
  end.

(** Lines 231-360, the body of the outer [try] *)
Definition try_block (pdf : pdf_view) (mes nome cod : pystr) : prog unit :=
  match pdf with
  | PdfUnreadable e => raise_ e
  | PdfPages pages =>
    match read_pages pages [] with
    | Raised e => raise_ e
    | Done texto_completo =>
      let linhas := split_char 10%N texto_completo in
      let doc := document_fields mes nome cod texto_completo linhas in
      for_lines doc 0 linhas
    end
  end.

(** [sys.stdout], by what [print] does with each text. *)
Variable stdout : pystr -> option pystr.

Definition print_ (s : pystr) : prog unit := fun itens =>
  match stdout s with
  | Some e => (Raised e, itens)
  | None => (Done tt, itens)
  end.

(** The text of line 363 *)
Definition erro_message (nome cod e : pystr) : pystr :=
  py "[ERRO] Falha ao ler PDF bytes (cliente=" ++ nome ++ py ", cod=" ++
  cod ++ py "): " ++ e.

(** Lines 218, 230 and 362-365 around a [try] body: [itens_lista = []],
    the [try] with its printing handler, [return itens_lista].  What the
    handler's [print] raises is not caught: it leaves the function. *)
Definition returned (nome cod : pystr) (body : prog unit)
  : outcome (list (gmap string pystr)) :=
  fst ((try_except body (fun e => print_ (erro_message nome cod e));;
        get_itens) []).

(** [extrair_dados_fatura_bytes] *)
Definition extrair_dados_fatura_bytes (pdf : pdf_view) (mes nome cod : pystr)
  : outcome (list (gmap string pystr)) :=
  returned nome cod (try_block pdf mes nome cod).


(** ** Vocabulary of the statements *)

(** The keys read by [make_row_hash], in the order of its list. *)
Definition key_field_names : list string :=
  ["Mês Ref"; "Cliente"; "Cód Cliente"; "Vencimento"; "Itens da fatura";
   "Unid"; "Quantidade"; "Preço Unit com Trib(RS)"; "Valor R$";
   "TARIFA UNIT.(R$)"].

(** A text made of white space only. *)
Definition all_space (ws : pystr) : Prop :=
  Forall (fun c => u_isspace U c = true) ws.

(** After position [e] there is white space (possibly none) and then [%]. *)
Definition followed_by_percent (line : pystr) (e : nat) : Prop :=
  ∃ n, (∀ k, k < n → ∃ c, line !! (e + k) = Some c ∧ u_isspace U c = true) ∧
       line !! (e + n) = Some (ch "%").

(** There is an alphabetic character at index [i]. *)
Definition letter_at (line : pystr) (i : nat) : Prop :=
  ∃ c, line !! i = Some c ∧ u_isalpha U c = true.

(** What one turn of the loop can do to the list: leave it and go on,
    leave it and raise, or append one row and go on. *)
Inductive step_outcome (doc : doc_fields) (i : nat) (linha : pystr)
  (itens : list (gmap string pystr))
  : outcome unit * list (gmap string pystr) → Prop :=
| StepNothing : step_outcome doc i linha itens (Done tt, itens)
| StepRaised e : step_outcome doc i linha itens (Raised e, itens)
| StepEnergy row :
    energy_row doc linha (upper linha) (energy_desc linha)
               (upper (energy_desc linha)) (energy_values linha) = Some row →
    step_outcome doc i linha itens (Done tt, itens ++ [row])
| StepFee row :
    fee_row doc linha (fee_values linha) = Some row →
    step_outcome doc i linha itens (Done tt, itens ++ [row]).

(** The exception that reaches the handler of the function, if any. *)
Definition caught (pdf : pdf_view) (mes nome cod : pystr) : option pystr :=
  match fst (try_block pdf mes nome cod []) with
  | Raised e => Some e
  | Done _ => None
  end.

(** The document-level keys of a row, and a row that has under them the
    values of [doc]. *)
Definition doc_level_keys : list string :=
  ["Vencimento"; "Total a Pagar (R$)"; "Bandeira Tarifária 1 (descrição)";
   "Bandeira Tarifária 2 (descrição)"; "Saldo Mes (kWh)";
   "Saldo Acumulado (kWh)"; "Saldo a Expirar (kWh)"].

Definition doc_level_values (doc : doc_fields) : list pystr :=
  [vencimento doc; total_fatura_pdf doc; bandeira_desc_1 doc;
   bandeira_desc_2 doc; saldo_mes doc; saldo_acumulado doc;
   saldo_expirar doc].

Definition carries (doc : doc_fields) (row : gmap string pystr) : Prop :=
  map (fun k => row !! k) doc_level_keys = map Some (doc_level_values doc).

(** The tokens of the example of section 8 of the specification. *)
Definition five_tokens : list pystr :=
  [py "100"; py "0,75"; py "75,00"; py "1,20"; py "50,00"].

(** Two positions in the same place of the subject, whatever groups each
    has recorded. *)
Definition same_place (a b : mstate) : Prop :=
  ms_pos a = ms_pos b ∧ ms_prev a = ms_prev b ∧ ms_rest a = ms_rest b.

Definition same_success (o1 o2 : option mstate) : Prop :=
  is_Some o1 ↔ is_Some o2.

Definition agree (k1 k2 : mstate → option mstate) : Prop :=
  ∀ a b, same_place a b → same_success (k1 a) (k2 b).

(** The lines of the header scan that do not stop it. *)
Definition no_header (linhas : list pystr) : Prop :=
  Forall (fun l => is_header_line l = false) linhas.

(** * Properties *)

(** ** The fingerprint *)

Lemma make_row_hash_unfold (d : gmap string pystr) :
  make_row_hash d =
  Sha256.hexdigest <$>
    utf8_encode (join (py "|")
      (map (fun k => strip (dict_get d k [])) key_field_names)).
Proof. reflexivity. Qed.

Lemma key_fields_ext (f g : string -> pystr) :
  (∀ k, k ∈ key_field_names → f k = g k) →
  map f key_field_names = map g key_field_names.
Proof.
  intros H. apply map_ext_in. intros k Hk. apply H.
  by apply list_elem_of_In.
Qed.

Lemma make_row_hash_trimmed (d d' : gmap string pystr) :
  (∀ k, k ∈ key_field_names →
        strip (dict_get d k []) = strip (dict_get d' k [])) →
  make_row_hash d = make_row_hash d'.
Proof.
  intros H. rewrite !make_row_hash_unfold.
  by rewrite (key_fields_ext _ _ H).
Qed.

(** C2: the fingerprint is the digest of the ten trimmed key fields joined
    in their fixed order; rows that agree on those ten keys have the same
    fingerprint, and setting or removing any other key of a row leaves
    its fingerprint unchanged. *)
Theorem make_row_hash_key_fields_only :
  (∀ d : gmap string pystr,
     make_row_hash d =
     Sha256.hexdigest <$>
       utf8_encode (join (py "|")
         (map (fun k => strip (dict_get d k [])) key_field_names))) ∧
  (∀ d d' : gmap string pystr,
     (∀ k, k ∈ key_field_names → d !! k = d' !! k) →
     make_row_hash d = make_row_hash d') ∧
  (∀ (d : gmap string pystr) (k : string) (v : pystr),
     k ∉ key_field_names →
     make_row_hash (<[k := v]> d) = make_row_hash d ∧
     make_row_hash (delete k d) = make_row_hash d).
Proof.
  split; [exact make_row_hash_unfold|]. split.
  - intros d d' H. apply make_row_hash_trimmed. intros k Hk.
    unfold dict_get. by rewrite (H k Hk).
  - intros d k v Hk. split; apply make_row_hash_trimmed; intros k' Hk';
      unfold dict_get.
    + rewrite lookup_insert_ne; [done|]. intros ->. contradiction.
    + rewrite lookup_delete_ne; [done|]. intros ->. contradiction.
Qed.

Lemma lstrip_spaces (ws s : pystr) : all_space ws → lstrip (ws ++ s) = lstrip s.
Proof.
  induction 1 as [|c ws Hc _ IH]; [done|]. simpl. by rewrite Hc.
Qed.

Lemma lstrip_app_keep (s t : pystr) :
  lstrip s ≠ [] → lstrip (s ++ t) = lstrip s ++ t.
Proof.
  induction s as [|c s IH]; [done|]. simpl.
  destruct (u_isspace U c); [exact IH|done].
Qed.

Lemma lstrip_all_space (ws : pystr) : all_space ws → lstrip ws = [].
Proof.
  intros H. rewrite <- (app_nil_r ws). by rewrite lstrip_spaces.
Qed.

Lemma lstrip_nil_all_space (s : pystr) : lstrip s = [] → all_space s.
Proof.
  induction s as [|c s IH]; [constructor|]. simpl.
  destruct (u_isspace U c) eqn:Hc; [|done].
  intros H. constructor; [done|by apply IH].
Qed.

Lemma rstrip_spaces (s ws : pystr) : all_space ws → rstrip (s ++ ws) = rstrip s.
Proof.
  intros H. unfold rstrip. rewrite reverse_app.
  rewrite lstrip_spaces; [done|]. by apply Forall_reverse.
Qed.

Lemma strip_spaces_l (ws s : pystr) : all_space ws → strip (ws ++ s) = strip s.
Proof. intros H. unfold strip. by rewrite lstrip_spaces. Qed.

Lemma strip_spaces_r (s ws : pystr) : all_space ws → strip (s ++ ws) = strip s.
Proof.
  intros H. unfold strip. destruct (lstrip s) as [|x r] eqn:Hs.
  - apply lstrip_nil_all_space in Hs. rewrite lstrip_spaces by done.
    by rewrite lstrip_all_space.
  - rewrite lstrip_app_keep by by rewrite Hs. rewrite Hs.
    by apply rstrip_spaces.
Qed.

(** Spaces around a text are gone once it is stripped. *)
Lemma strip_padding (ws1 s ws2 : pystr) :
  all_space ws1 → all_space ws2 → strip (ws1 ++ s ++ ws2) = strip s.
Proof.
  intros H1 H2. rewrite strip_spaces_l by done. by apply strip_spaces_r.
Qed.

(** C10: putting white space before or after the value of a key field
    does not change the fingerprint; a key field that is absent gives the
    fingerprint of the same row with the empty string there; and two rows
    whose key fields agree once trimmed (an absent one read as empty) have
    the same fingerprint. *)
Theorem make_row_hash_trim_invariant :
  (∀ (d : gmap string pystr) (k : string) (v ws1 ws2 : pystr),
     d !! k = Some v → all_space ws1 → all_space ws2 →
     make_row_hash (<[k := ws1 ++ v ++ ws2]> d) = make_row_hash d) ∧
  (∀ (d : gmap string pystr) (k : string),
     d !! k = None → make_row_hash (<[k := []]> d) = make_row_hash d) ∧
  (∀ d d' : gmap string pystr,
     (∀ k, k ∈ key_field_names →
           strip (dict_get d k []) = strip (dict_get d' k [])) →
     make_row_hash d = make_row_hash d').
Proof.
  split; [|split].
  - intros d k v ws1 ws2 Hk H1 H2. apply make_row_hash_trimmed.
    intros k' _. unfold dict_get. destruct (decide (k = k')) as [<-|Hne].
    + rewrite lookup_insert_eq, Hk. simpl. by apply strip_padding.
    + by rewrite lookup_insert_ne.
  - intros d k Hk. apply make_row_hash_trimmed.
    intros k' _. unfold dict_get. destruct (decide (k = k')) as [<-|Hne].
    + by rewrite lookup_insert_eq, Hk.
    + by rewrite lookup_insert_ne.
  - exact make_row_hash_trimmed.
Qed.

(** ** The tokenizer *)

Lemma skip_space_stops (line : pystr) (n e : nat) (c : char) :
  (∀ k, k < n → ∃ x, line !! (e + k) = Some x ∧ u_isspace U x = true) →
  line !! (e + n) = Some c → u_isspace U c = false →
  skip_space (drop e line) e = e + n.
Proof.
  revert e. induction n as [|n IH]; intros e Hsp Hc Hns.
  - rewrite Nat.add_0_r in Hc. rewrite (drop_S _ _ _ Hc). simpl.
    rewrite Hns. lia.
  - destruct (Hsp 0) as (x & Hx & Hxs); [lia|].
    rewrite Nat.add_0_r in Hx. rewrite (drop_S _ _ _ Hx). simpl.
    rewrite Hxs. rewrite (IH (S e)); [lia| | |done].
    + intros k Hk. destruct (Hsp (S k)) as (y & Hy & Hys); [lia|].
      exists y. split; [|done]. rewrite <- Hy. f_equal. lia.
    + rewrite <- Hc. f_equal. lia.
Qed.

Lemma is_percent_complete (line : pystr) (m : rmatch_obj) :
  u_isspace U (ch "%") = false →
  followed_by_percent line (m_end m) → is_percent line m = true.
Proof.
  intros Hpc (n & Hsp & Hc). unfold is_percent. cbv zeta.
  rewrite (skip_space_stops line n (m_end m) (ch "%") Hsp Hc Hpc).
  rewrite Hc. apply N.eqb_refl.
Qed.

Lemma glued_to_letter_complete (line : pystr) (m : rmatch_obj) :
  letter_at line (m_end m) ∨ (∃ p, m_start m = S p ∧ letter_at line p) →
  glued_to_letter line m = true.
Proof.
  unfold glued_to_letter, letter_at. cbv zeta.
  intros [(c & Hc & Ha)|(p & Hp & c & Hc & Ha)].
  - rewrite Hc. simpl. rewrite Ha. apply orb_true_r.
  - rewrite Hp, Hc. simpl. by rewrite Ha.
Qed.

(** C7: every token the tokenizer returns is the text of a match of
    [NUM_RE] in the line that is not followed, across white space, by [%]
    and that has no alphabetic character directly before or after it. *)
Theorem tokenizer_drops_percent_and_glued (line tok : pystr) :
  u_isspace U (ch "%") = false →
  tok ∈ extract_numbers_ignoring_percent_and_codes line →
  ∃ m, m ∈ finditer NUM_RE line ∧
       tok = slice (m_start m) (m_end m) line ∧
       ¬ followed_by_percent line (m_end m) ∧
       ¬ letter_at line (m_end m) ∧
       (∀ p, m_start m = S p → ¬ letter_at line p).
Proof.
  intros Hpc Htok. unfold extract_numbers_ignoring_percent_and_codes in Htok.
  apply list_elem_of_fmap in Htok as (m & -> & Hm).
  unfold kept_numbers in Hm. apply list_elem_of_filter in Hm as [Hkeep Hm].
  apply andb_prop_elim in Hkeep as [Hp Hg].
  apply negb_prop_elim in Hp. apply negb_prop_elim in Hg.
  exists m. split; [done|]. split; [done|].
  split; [|split].
  - intros H. apply Hp. by rewrite is_percent_complete.
  - intros H. apply Hg. rewrite glued_to_letter_complete; [done|by left].
  - intros p Hs H. apply Hg. rewrite glued_to_letter_complete; [done|].
    right. by exists p.
Qed.

(** ** The loop over the lines *)

Lemma bind_may_raise {A : Type} (s : region) (i : nat) (k : prog A)
  (itens : list (gmap string pystr)) :
  (may_raise s i;; k) itens =
  match raises s i with
  | Some e => (Raised e, itens)
  | None => k itens
  end.
Proof.
  unfold mbind, prog_bind, may_raise. by destruct (raises s i).
Qed.

Lemma bind_lift_append (o : option (gmap string pystr))
  (itens : list (gmap string pystr)) :
  (row ← lift_opt o; append row) itens =
  match o with
  | Some row => (Done tt, itens ++ [row])
  | None => (Raised (py "list index out of range"), itens)
  end.
Proof. by destruct o. Qed.

Lemma item_step_outcome (doc : doc_fields) (i : nat) (linha : pystr)
  (itens : list (gmap string pystr)) :
  step_outcome doc i linha itens (item_step doc i linha itens).
Proof.
  unfold item_step. rewrite bind_may_raise.
  destruct (raises InLine i); [constructor|].
  destruct (is_energy_line (upper linha)).
  - destruct (5 <=? length (energy_values linha)); [|constructor].
    unfold try_except. rewrite bind_may_raise.
    destruct (raises InEnergyRow i); [constructor|].
    rewrite bind_lift_append.
    destruct (energy_row _ _ _ _ _ _) eqn:Hrow; [|constructor].
    by apply StepEnergy.
  - destruct (is_fee_line (upper linha)); [|constructor].
    destruct (fee_values linha) as [|v vs] eqn:Hv; [constructor|].
    rewrite bind_may_raise.
    destruct (raises InFeeRow i); [constructor|].
    rewrite bind_lift_append.
    destruct (fee_row _ _ _) eqn:Hrow; [|constructor].
    apply StepFee. by rewrite Hv.
Qed.

Lemma for_lines_cons (doc : doc_fields) (i : nat) (linha : pystr)
  (rest : list pystr) (itens : list (gmap string pystr)) :
  for_lines doc i (linha :: rest) itens =
  match item_step doc i linha itens with
  | (Done _, itens') => for_lines doc (S i) rest itens'
  | (Raised e, itens') => (Raised e, itens')
  end.
Proof. reflexivity. Qed.

Lemma energy_row_carries adjust doc linha linha_up desc desc_up valores row :
  energy_row_with adjust doc linha linha_up desc desc_up valores = Some row →
  carries doc row.
Proof.
  unfold energy_row_with. intros H.
  repeat (apply bind_Some in H as (? & _ & H)).
  apply (inj Some) in H. rewrite <- H. reflexivity.
Qed.

Lemma fee_row_carries doc linha v_taxa row :
  fee_row doc linha v_taxa = Some row → carries doc row.
Proof.
  unfold fee_row. intros H. apply bind_Some in H as (? & _ & H).
  apply (inj Some) in H. rewrite <- H. reflexivity.
Qed.

Lemma item_step_carries doc i linha itens :
  Forall (carries doc) itens →
  Forall (carries doc) (snd (item_step doc i linha itens)).
Proof.
  intros H.
  destruct (item_step_outcome doc i linha itens) as [| |row Hrow|row Hrow];
    simpl; [exact H|exact H| |].
  - apply Forall_app. split; [exact H|]. apply Forall_singleton.
    exact (energy_row_carries _ _ _ _ _ _ _ _ Hrow).
  - apply Forall_app. split; [exact H|]. apply Forall_singleton.
    exact (fee_row_carries _ _ _ _ Hrow).
Qed.

Lemma for_lines_carries doc linhas : ∀ i itens,
  Forall (carries doc) itens →
  Forall (carries doc) (snd (for_lines doc i linhas itens)).
Proof.
  induction linhas as [|linha rest IH]; intros i itens H; [done|].
  rewrite for_lines_cons.
  pose proof (item_step_carries doc i linha itens H) as Hs.
  destruct (item_step doc i linha itens) as [[[]|e] itens']; simpl in *.
  - by apply IH.
  - done.
Qed.

(** What the function does once the [try] body has run: a body that
    completes is followed by the [return]; one that raises is followed by
    the [print] of the handler, and by the [return] when that completes. *)
Lemma returned_completes (nome cod : pystr) (body : prog unit)
  (itens : list (gmap string pystr)) :
  body [] = (Done tt, itens) → returned nome cod body = Done itens.
Proof.
  intros H. unfold returned, try_except, mbind, prog_bind, get_itens.
  by rewrite H.
Qed.

Lemma returned_raised (nome cod : pystr) (body : prog unit) (e : pystr)
  (itens : list (gmap string pystr)) :
  body [] = (Raised e, itens) →
  returned nome cod body =
  match stdout (erro_message nome cod e) with
  | Some e' => Raised e'
  | None => Done itens
  end.
Proof.
  intros H.
  unfold returned, try_except, mbind, prog_bind, get_itens, print_.
  rewrite H. by destruct (stdout (erro_message nome cod e)).
Qed.

(** A list that is returned is the list as the [try] body left it. *)
Lemma returned_done (nome cod : pystr) (body : prog unit)
  (rows : list (gmap string pystr)) :
  returned nome cod body = Done rows → rows = snd (body []).
Proof.
  destruct (body []) as [[[]|e] itens] eqn:E.
  - rewrite (returned_completes _ _ _ _ E). by intros [= <-].
  - rewrite (returned_raised _ _ _ _ _ E).
    destruct (stdout (erro_message nome cod e)); [done|]. by intros [= <-].
Qed.

Lemma returned_ext (nome cod : pystr) (body body' : prog unit) :
  body [] = body' [] → returned nome cod body = returned nome cod body'.
Proof.
  intros H. unfold returned, try_except, mbind, prog_bind. by rewrite H.
Qed.

Lemma try_block_texto (pages : list page) (mes nome cod texto : pystr) :
  read_pages pages [] = Done texto →
  try_block (PdfPages pages) mes nome cod =
  for_lines (document_fields mes nome cod texto (split_char 10%N texto)) 0
            (split_char 10%N texto).
Proof. intros H. unfold try_block. by rewrite H. Qed.

Lemma try_block_unread (pdf : pdf_view) (mes nome cod : pystr)
  (itens : list (gmap string pystr)) :
  (∀ pages texto, pdf = PdfPages pages → read_pages pages [] ≠ Done texto) →
  snd (try_block pdf mes nome cod itens) = itens.
Proof.
  intros H. destruct pdf as [e|pages]; [done|]. unfold try_block.
  destruct (read_pages pages []) as [texto|e] eqn:Hr; [|done].
  by destruct (H pages texto).
Qed.

Lemma rows_carry_document_fields pdf mes nome cod rows :
  extrair_dados_fatura_bytes pdf mes nome cod = Done rows →
  ∃ doc, Forall (carries doc) rows.
Proof.
  intros ->%returned_done.
  destruct pdf as [e|pages].
  - exists (DocFields [] [] [] [] [] [] [] [] [] []). constructor.
  - destruct (read_pages pages []) as [texto|e] eqn:Hr.
    + rewrite (try_block_texto _ _ _ _ _ Hr).
      eexists. by apply for_lines_carries.
    + exists (DocFields [] [] [] [] [] [] [] [] [] []).
      unfold try_block. rewrite Hr. constructor.
Qed.

Lemma map_all_Some {A B : Type} (f : A → option B) (ks : list A)
  (vs : list B) :
  map f ks = map Some vs → ∀ k, k ∈ ks → is_Some (f k).
Proof.
  revert vs. induction ks as [|k0 ks IH]; intros vs H k Hk.
  - by apply elem_of_nil in Hk.
  - destruct vs as [|v vs]; [done|]. injection H as H0 H.
    apply elem_of_cons in Hk as [->|Hk]; [by rewrite H0|by eapply IH].
Qed.

(** C3: any two rows returned for one document have the same due date,
    total, tariff-flag descriptions and balances (and each row has all of
    them). *)
Theorem document_fields_broadcast pdf mes nome cod rows r1 r2 k :
  extrair_dados_fatura_bytes pdf mes nome cod = Done rows →
  r1 ∈ rows → r2 ∈ rows → k ∈ doc_level_keys →
  r1 !! k = r2 !! k ∧ is_Some (r1 !! k).
Proof.
  intros Hrows H1 H2 Hk.
  destruct (rows_carry_document_fields _ _ _ _ _ Hrows) as [doc Hdoc].
  rewrite Forall_forall in Hdoc.
  pose proof (Hdoc r1 H1) as C1. pose proof (Hdoc r2 H2) as C2.
  unfold carries in C1, C2. rewrite <- C2 in C1. clear C2.
  assert (r1 !! k = r2 !! k) as Heq.
  { revert k Hk. apply Forall_forall. apply Forall_fmap_ext. exact C1. }
  split; [done|]. rewrite Heq.
  by apply (map_all_Some _ _ _ (Hdoc r2 H2)).
Qed.

(** ** What a turn of the loop appends *)

(** The positional mapping of lines 291-301 and the rest of the row. *)
Lemma energy_row_fields adjust doc linha linha_up desc desc_up valores row :
  energy_row_with adjust doc linha linha_up desc desc_up valores = Some row →
  row !! "Quantidade" = valores !! 0 ∧
  row !! "Preço Unit com Trib(RS)" = valores !! 1 ∧
  row !! "Valor R$" = valores !! 2 ∧
  row !! "PIS/CONFINS(R$)" = valores !! 3 ∧
  row !! "BASE CALC ICMS(R$)" = valores !! 4 ∧
  row !! "ICMS (R$)" =
    (if 5 <? length valores then valores !! 5 else Some (py "0,00")) ∧
  row !! "TARIFA UNIT.(R$)" =
    adjust desc_up <$>
      (if 6 <? length valores then valores !! 6 else valores !! 1) ∧
  row !! "Itens da fatura" = Some desc.
Proof.
  unfold energy_row_with. intros H.
  apply bind_Some in H as (qtd & E0 & H).
  apply bind_Some in H as (preco & E1 & H).
  apply bind_Some in H as (valor & E2 & H).
  apply bind_Some in H as (pis & E3 & H).
  apply bind_Some in H as (base & E4 & H).
  apply bind_Some in H as (icms & E5 & H).
  apply bind_Some in H as (t0 & E6 & H).
  apply (inj Some) in H. rewrite <- H, E0, E1, E2, E3, E4, E5.
  repeat (split; [reflexivity|]). split; [|reflexivity].
  destruct (6 <? length valores); rewrite E6; reflexivity.
Qed.

Lemma energy_row_total adjust doc linha linha_up desc desc_up valores :
  5 ≤ length valores →
  is_Some (energy_row_with adjust doc linha linha_up desc desc_up valores).
Proof.
  intros H. unfold energy_row_with.
  destruct valores as [|v0 [|v1 [|v2 [|v3 [|v4 rest]]]]]; simpl in H; try lia.
  destruct rest as [|v5 [|v6 rest]]; cbn [lookup list_lookup mbind option_bind];
    eauto.
Qed.

Lemma item_step_energy doc i linha itens :
  is_energy_line (upper linha) = true →
  5 ≤ length (energy_values linha) →
  raises InLine i = None → raises InEnergyRow i = None →
  ∃ row,
    energy_row doc linha (upper linha) (energy_desc linha)
      (upper (energy_desc linha)) (energy_values linha) = Some row ∧
    item_step doc i linha itens = (Done tt, itens ++ [row]).
Proof.
  intros He Hlen Hl Hr.
  destruct (energy_row_total tarifa_override doc linha (upper linha)
              (energy_desc linha) (upper (energy_desc linha))
              (energy_values linha) Hlen) as [row Hrow].
  exists row. split; [exact Hrow|]. unfold item_step.
  rewrite bind_may_raise, Hl, He.
  apply Nat.leb_le in Hlen. rewrite Hlen.
  unfold try_except. rewrite bind_may_raise, Hr, bind_lift_append.
  fold energy_row in Hrow. by rewrite Hrow.
Qed.

Lemma fee_row_fields doc linha v_taxa row :
  fee_row doc linha v_taxa = Some row →
  row !! "Valor R$" = last v_taxa ∧
  row !! "Quantidade" = Some (py "-") ∧
  row !! "Preço Unit com Trib(RS)" = Some (py "-") ∧
  row !! "TARIFA UNIT.(R$)" = Some (py "-") ∧
  row !! "Itens da fatura" =
    Some (strip (default [] (head (split_char (ch ",") (take 60 linha))))).
Proof.
  unfold fee_row. intros H. apply bind_Some in H as (valor & E & H).
  apply (inj Some) in H. rewrite <- H, E. repeat split; reflexivity.
Qed.

Lemma item_step_fee doc i linha itens :
  is_energy_line (upper linha) = false →
  is_fee_line (upper linha) = true →
  fee_values linha ≠ [] →
  raises InLine i = None → raises InFeeRow i = None →
  ∃ row,
    fee_row doc linha (fee_values linha) = Some row ∧
    item_step doc i linha itens = (Done tt, itens ++ [row]).
Proof.
  intros He Hf Hv Hl Hr.
  assert (is_Some (fee_row doc linha (fee_values linha))) as [row Hrow].
  { unfold fee_row. destruct (last (fee_values linha)) eqn:E; [by eauto|].
    apply last_None in E. done. }
  exists row. split; [exact Hrow|]. unfold item_step.
  rewrite bind_may_raise, Hl, He, Hf.
  destruct (fee_values linha) as [|v vs] eqn:Ev; [done|].
  by rewrite bind_may_raise, Hr, bind_lift_append, Hrow.
Qed.

Lemma item_step_fee_raised doc i linha itens e :
  is_energy_line (upper linha) = false →
  is_fee_line (upper linha) = true →
  fee_values linha ≠ [] →
  raises InLine i = None → raises InFeeRow i = Some e →
  item_step doc i linha itens = (Raised e, itens).
Proof.
  intros He Hf Hv Hl Hr. unfold item_step.
  rewrite bind_may_raise, Hl, He, Hf.
  destruct (fee_values linha); [done|].
  by rewrite bind_may_raise, Hr.
Qed.

Lemma item_step_other doc i linha itens :
  is_energy_line (upper linha) = false →
  is_fee_line (upper linha) = false →
  raises InLine i = None →
  item_step doc i linha itens = (Done tt, itens).
Proof.
  intros He Hf Hl. unfold item_step. by rewrite bind_may_raise, Hl, He, Hf.
Qed.

(** ** Rows of energy items *)

(** C1 (amended): an energy-item line whose sanitized, truncated text gives
    exactly the tokens 100, 0,75, 75,00, 1,20 and 50,00 appends one row
    with quantity 100, unit price 0,75, value 75,00, withholding-tax
    amount 1,20, tax base 50,00 and tax amount 0,00; its unit tariff rate
    is 0,75 when the uppercased description contains neither
    surcharge-program code, and the code's fixed literal otherwise. *)
Theorem five_token_energy_row doc i linha itens :
  is_energy_line (upper linha) = true →
  energy_values linha = five_tokens →
  raises InLine i = None → raises InEnergyRow i = None →
  ∃ row,
    item_step doc i linha itens = (Done tt, itens ++ [row]) ∧
    row !! "Quantidade" = Some (py "100") ∧
    row !! "Preço Unit com Trib(RS)" = Some (py "0,75") ∧
    row !! "Valor R$" = Some (py "75,00") ∧
    row !! "PIS/CONFINS(R$)" = Some (py "1,20") ∧
    row !! "BASE CALC ICMS(R$)" = Some (py "50,00") ∧
    row !! "ICMS (R$)" = Some (py "0,00") ∧
    row !! "TARIFA UNIT.(R$)" =
      Some (tarifa_override (upper (energy_desc linha)) (py "0,75")) ∧
    (contains (py "AD.B.VERM1") (upper (energy_desc linha)) = false →
     contains (py "AD.B.AMAR") (upper (energy_desc linha)) = false →
     row !! "TARIFA UNIT.(R$)" = Some (py "0,75")).
Proof.
  intros He Hv Hl Hr. unfold item_step.
  rewrite bind_may_raise, Hl, He, Hv.
  change (5 <=? length five_tokens) with true. cbv iota.
  unfold try_except. rewrite bind_may_raise, Hr, bind_lift_append.
  eexists. split; [reflexivity|].
  repeat (split; [reflexivity|]).
  intros H1 H2. unfold tarifa_override. rewrite H1, H2. reflexivity.
Qed.

Lemma energy_row_adjust adjust doc linha linha_up desc desc_up valores row :
  energy_row_with adjust doc linha linha_up desc desc_up valores = Some row →
  ∃ row0 t0,
    energy_row_no_override doc linha linha_up desc desc_up valores = Some row0 ∧
    row0 !! "TARIFA UNIT.(R$)" = Some t0 ∧
    row = <["TARIFA UNIT.(R$)" := adjust desc_up t0]> row0.
Proof.
  unfold energy_row_no_override, energy_row_with. intros H.
  do 6 (apply bind_Some in H as (? & -> & H); cbn [mbind option_bind]).
  apply bind_Some in H as (t0 & -> & H); cbn [mbind option_bind].
  apply (inj Some) in H. rewrite <- H.
  eexists. exists t0. split; [reflexivity|]. split; [reflexivity|].
  apply map_eq. intros k.
  destruct (decide (k = "TARIFA UNIT.(R$)")) as [->|Hk].
  - rewrite lookup_insert_eq. reflexivity.
  - rewrite lookup_insert_ne by done. cbn [list_to_map foldr uncurry fst snd].
    repeat match goal with
    | |- (<[?a := _]> _) !! k = (<[?a := _]> _) !! k =>
      destruct (decide (a = k)) as [<-|?];
        [first [done | by rewrite !lookup_insert_eq]
        |rewrite !(lookup_insert_ne _ a k) by done]
    end.
    done.
Qed.

(** C8 (amended): when the uppercased description of an energy-item line
    contains the first surcharge-program code the unit tariff rate of its
    row is 0,044630; when it contains the second code and not the first
    it is 0,018850; and the row is the one built without lines 303-307
    with only the unit tariff rate replaced. *)
Theorem override_touches_only_tarifa doc linha row :
  energy_row doc linha (upper linha) (energy_desc linha)
             (upper (energy_desc linha)) (energy_values linha) = Some row →
  (contains (py "AD.B.VERM1") (upper (energy_desc linha)) = true →
   row !! "TARIFA UNIT.(R$)" = Some (py "0,044630")) ∧
  (contains (py "AD.B.VERM1") (upper (energy_desc linha)) = false →
   contains (py "AD.B.AMAR") (upper (energy_desc linha)) = true →
   row !! "TARIFA UNIT.(R$)" = Some (py "0,018850")) ∧
  ∃ row0,
    energy_row_no_override doc linha (upper linha) (energy_desc linha)
      (upper (energy_desc linha)) (energy_values linha) = Some row0 ∧
    ∀ k, k ≠ "TARIFA UNIT.(R$)" → row !! k = row0 !! k.
Proof.
  intros H. apply energy_row_adjust in H as (row0 & t0 & H0 & Ht & ->).
  split; [|split].
  - intros H1. rewrite lookup_insert_eq. unfold tarifa_override. by rewrite H1.
  - intros H1 H2. rewrite lookup_insert_eq. unfold tarifa_override.
    by rewrite H1, H2.
  - exists row0. split; [exact H0|]. intros k Hk. by rewrite lookup_insert_ne.
Qed.

Lemma for_lines_app doc l1 l2 : ∀ i itens,
  for_lines doc i (l1 ++ l2) itens =
  (for_lines doc i l1;; for_lines doc (i + length l1) l2) itens.
Proof.
  induction l1 as [|linha l1 IH]; intros i itens.
  - simpl. by rewrite Nat.add_0_r.
  - simpl app. rewrite for_lines_cons. unfold mbind, prog_bind.
    rewrite for_lines_cons.
    destruct (item_step doc i linha itens) as [[[]|e] itens']; [|done].
    rewrite IH. unfold mbind, prog_bind. simpl length.
    by replace (S i + length l1) with (i + S (length l1)) by lia.
Qed.

Lemma item_step_short_energy doc i linha itens :
  is_energy_line (upper linha) = true →
  length (energy_values linha) < 5 →
  raises InLine i = None →
  item_step doc i linha itens = (Done tt, itens).
Proof.
  intros He Hlen Hl. unfold item_step. rewrite bind_may_raise, Hl, He.
  destruct (5 <=? length (energy_values linha)) eqn:E; [|done].
  apply Nat.leb_le in E. lia.
Qed.

(** C4: an energy-item line with fewer than five numeric tokens appends
    no row and raises nothing, and the function does what it does with the
    other lines under the document-level fields extracted from the whole
    text: it returns what they append when they raise nothing. *)
Theorem short_energy_line_dropped mes nome cod pages texto l1 linha l2 :
  read_pages pages [] = Done texto →
  split_char 10%N texto = l1 ++ linha :: l2 →
  is_energy_line (upper linha) = true →
  length (energy_values linha) < 5 →
  raises InLine (length l1) = None →
  let doc := document_fields mes nome cod texto (split_char 10%N texto) in
  (∀ itens, item_step doc (length l1) linha itens = (Done tt, itens)) ∧
  extrair_dados_fatura_bytes (PdfPages pages) mes nome cod =
    returned nome cod (for_lines doc 0 l1;; for_lines doc (S (length l1)) l2) ∧
  (∀ rows,
     (for_lines doc 0 l1;; for_lines doc (S (length l1)) l2) [] =
       (Done tt, rows) →
     extrair_dados_fatura_bytes (PdfPages pages) mes nome cod = Done rows).
Proof.
  intros Hr Hs He Hlen Hl doc.
  assert (∀ itens, item_step doc (length l1) linha itens = (Done tt, itens))
    as Hstep by (intros; by apply item_step_short_energy).
  split; [exact Hstep|].
  assert (for_lines doc 0 (split_char 10%N texto) [] =
          (for_lines doc 0 l1;; for_lines doc (S (length l1)) l2) []) as Hsame.
  { rewrite Hs, for_lines_app. unfold mbind, prog_bind.
    destruct (for_lines doc 0 l1 []) as [[[]|e] itens']; [|done].
    rewrite for_lines_cons. simpl. by rewrite Hstep. }
  unfold extrair_dados_fatura_bytes.
  rewrite (try_block_texto _ _ _ _ _ Hr). fold doc. split.
  - by apply returned_ext.
  - intros rows Hrows. apply returned_completes. by rewrite Hsame.
Qed.

(** ** The two handlers *)

Lemma item_step_energy_caught doc i linha itens :
  raises InLine i = None →
  is_energy_line (upper linha) = true →
  raises InEnergyRow i ≠ None ∨
  energy_row doc linha (upper linha) (energy_desc linha)
    (upper (energy_desc linha)) (energy_values linha) = None →
  item_step doc i linha itens = (Done tt, itens).
Proof.
  intros Hl He Hfail. unfold item_step.
  rewrite bind_may_raise, Hl, He.
  destruct (5 <=? length (energy_values linha)); [|done].
  unfold try_except. rewrite bind_may_raise.
  destruct (raises InEnergyRow i); [done|].
  destruct Hfail as [?|Hnone]; [done|].
  by rewrite bind_lift_append, Hnone.
Qed.

Lemma item_step_raised doc i linha itens e itens' :
  item_step doc i linha itens = (Raised e, itens') → itens' = itens.
Proof.
  intros H. destruct (item_step_outcome doc i linha itens); congruence.
Qed.

(** C9 (amended): the function returns a list unless the [try] body
    raised and the [print] of the handler raises in turn, and then what
    [print] raised leaves the function; when the loop raises at some line
    and the message is printed, the list returned is the one the lines
    before it had built. *)
Theorem extrair_returns_unless_print_raises pdf mes nome cod :
  ((∀ e, caught pdf mes nome cod = Some e →
         stdout (erro_message nome cod e) = None) →
   ∃ rows, extrair_dados_fatura_bytes pdf mes nome cod = Done rows) ∧
  (∀ e e', caught pdf mes nome cod = Some e →
           stdout (erro_message nome cod e) = Some e' →
           extrair_dados_fatura_bytes pdf mes nome cod = Raised e') ∧
  (∀ pages texto l1 linha l2 acc e,
     pdf = PdfPages pages →
     read_pages pages [] = Done texto →
     split_char 10%N texto = l1 ++ linha :: l2 →
     let doc := document_fields mes nome cod texto (split_char 10%N texto) in
     for_lines doc 0 l1 [] = (Done tt, acc) →
     fst (item_step doc (length l1) linha acc) = Raised e →
     stdout (erro_message nome cod e) = None →
     extrair_dados_fatura_bytes pdf mes nome cod = Done acc).
Proof.
  unfold caught, extrair_dados_fatura_bytes. split; [|split].
  - intros Hp.
    destruct (try_block pdf mes nome cod []) as [[[]|e] itens] eqn:E.
    + exists itens. by apply returned_completes.
    + exists itens. rewrite (returned_raised _ _ _ _ _ E).
      by rewrite (Hp e eq_refl).
  - intros e e' Hc Hp.
    destruct (try_block pdf mes nome cod []) as [[[]|e0] itens] eqn:E;
      [done|].
    injection Hc as ->. rewrite (returned_raised _ _ _ _ _ E). by rewrite Hp.
  - intros pages texto l1 linha l2 acc e -> Hr Hs Hacc Hraise Hp.
    rewrite (try_block_texto _ _ _ _ _ Hr).
    set (doc := document_fields mes nome cod texto _) in *.
    assert (for_lines doc 0 (split_char 10%N texto) [] = (Raised e, acc))
      as E.
    { rewrite Hs, for_lines_app. unfold mbind, prog_bind. rewrite Hacc.
      rewrite for_lines_cons. simpl.
      destruct (item_step doc (length l1) linha acc) as [[[]|e0] itens']
        eqn:E; [done|].
      simpl in Hraise. injection Hraise as ->.
      by rewrite (item_step_raised _ _ _ _ _ _ E). }
    rewrite (returned_raised _ _ _ _ _ E). by rewrite Hp.
Qed.

(** ** The header *)

Lemma same_success_orelse (x1 x2 y1 y2 : option mstate) :
  same_success x1 x2 → same_success y1 y2 →
  same_success (match x1 with Some e => Some e | None => y1 end)
               (match x2 with Some e => Some e | None => y2 end).
Proof.
  unfold same_success. intros Hx Hy.
  destruct x1, x2; try done.
  - destruct Hx as [Hx _]. destruct Hx as [? Hx]; [eauto|done].
  - destruct Hx as [_ Hx]. destruct Hx as [? Hx]; [eauto|done].
Qed.

Lemma rep_loop_groups_irrelevant body g lo hi :
  (∀ k1 k2 st1 st2, agree k1 k2 → same_place st1 st2 →
     same_success (body k1 st1) (body k2 st2)) →
  ∀ fuel cnt k1 k2 st1 st2, agree k1 k2 → same_place st1 st2 →
    same_success (rep_loop body g lo hi k1 fuel cnt st1)
                 (rep_loop body g lo hi k2 fuel cnt st2).
Proof.
  intros Hbody. induction fuel as [|fuel IH]; intros cnt k1 k2 st1 st2 Hk Hst.
  - done.
  - simpl.
    assert (same_success
      (if below cnt hi
       then body (fun st' => if ms_pos st1 <? ms_pos st'
                             then rep_loop body g lo hi k1 fuel (S cnt) st'
                             else None) st1
       else None)
      (if below cnt hi
       then body (fun st' => if ms_pos st2 <? ms_pos st'
                             then rep_loop body g lo hi k2 fuel (S cnt) st'
                             else None) st2
       else None)) as Hagain.
    { destruct (below cnt hi); [|done]. apply Hbody; [|done].
      intros a b Hab. destruct Hst as (Hp & _ & _), Hab as (Hp' & Hab).
      rewrite Hp, Hp'. destruct (ms_pos st2 <? ms_pos b); [|done].
      apply IH; [done|]. by split. }
    assert (same_success (if lo <=? cnt then k1 st1 else None)
                         (if lo <=? cnt then k2 st2 else None)) as Hleave.
    { destruct (lo <=? cnt); [by apply Hk|done]. }
    destruct g; by apply same_success_orelse.
Qed.

(** Whether a pattern matches from a position does not depend on the
    groups recorded before or inside it. *)
Lemma rmatch_groups_irrelevant r : ∀ k1 k2 st1 st2,
  agree k1 k2 → same_place st1 st2 →
  same_success (rmatch r k1 st1) (rmatch r k2 st2).
Proof.
  induction r as [|p|a IHa b IHb|a IHa b IHb|g lo hi a IHa|n a IHa| | |a IHa];
    intros k1 k2 st1 st2 Hk Hst; cbn [rmatch].
  - by apply Hk.
  - destruct Hst as (Hp & Hv & Hr). rewrite Hr.
    destruct (ms_rest st2) as [|c t]; [done|].
    destruct (p c); [|done]. apply Hk. by rewrite Hp.
  - apply IHa; [|done]. intros x y Hxy. by apply IHb.
  - apply same_success_orelse; [by apply IHa|by apply IHb].
  - destruct Hst as (Hp & Hv & Hr). rewrite Hr.
    apply rep_loop_groups_irrelevant; [exact IHa|done|by repeat split].
  - apply IHa; [|done]. intros x y (Hp & Hv & Hr). apply Hk. by split.
  - destruct Hst as (Hp & Hv & Hr). rewrite Hp.
    destruct (ms_pos st2 =? 0); [|done]. by apply Hk.
  - destruct Hst as (Hp & Hv & Hr). rewrite Hv, Hr.
    destruct (xorb _ _); [|done]. by apply Hk.
  - assert (same_success (rmatch a Some st1) (rmatch a Some st2)) as Ha.
    { apply IHa; [|done]. intros x y _. split; eauto. }
    destruct (rmatch a Some st1), (rmatch a Some st2).
    + by apply Hk.
    + destruct Ha as [Ha _]. destruct Ha; [eauto|done].
    + destruct Ha as [_ Ha]. destruct Ha; [eauto|done].
    + done.
Qed.

Lemma match_at_group_success n r st :
  is_Some (match_at r st) → is_Some (match_at (Grp n r) st).
Proof.
  unfold match_at. cbn [rmatch].
  set (k2 := fun st' : mstate => Some _).
  destruct (rmatch_groups_irrelevant r Some k2 st st) as [Hg _].
  { intros x y _. unfold k2. split; eauto. }
  { done. }
  destruct (rmatch r Some st); [|by intros [? ?]].
  intros _. destruct Hg as [e ->]; eauto.
Qed.

Lemma scan_group_success n r rest : ∀ pos prev,
  is_Some (scan r pos prev rest) → is_Some (scan (Grp n r) pos prev rest).
Proof.
  induction rest as [|c t IH]; intros pos prev; cbn [scan].
  - pose proof (match_at_group_success n r (MState pos prev [] [])) as Hg.
    destruct (match_at r _); [|by intros [? ?]].
    intros _. destruct Hg as [m ->]; eauto.
  - pose proof (match_at_group_success n r (MState pos prev (c :: t) [])) as Hg.
    destruct (match_at r _).
    + intros _. destruct Hg as [m ->]; eauto.
    + destruct (match_at (Grp n r) _); [eauto|]. apply IH.
Qed.

Lemma finditer_nonempty r s : is_Some (search r s) → finditer r s ≠ [].
Proof.
  unfold finditer, search. simpl. intros [m ->]. done.
Qed.

Lemma header_scan_skip pre rest v t :
  no_header pre → header_scan (pre ++ rest) v t = header_scan rest v t.
Proof.
  induction 1 as [|l pre Hl _ IH]; [done|]. simpl. by rewrite Hl.
Qed.

Lemma header_line_has_date linha :
  is_header_line linha = true →
  ∃ d, last (findall1 (Grp 1 HDR_DATE_RE) linha) = Some d.
Proof.
  intros H. apply andb_true_iff in H as [H _].
  apply bool_decide_eq_true in H.
  apply (scan_group_success 1) in H. apply finditer_nonempty in H.
  unfold findall1.
  destruct (finditer (Grp 1 HDR_DATE_RE) linha) as [|m ms] eqn:E using rev_ind;
    [done|].
  rewrite map_app. simpl. rewrite last_snoc. eauto.
Qed.

(** C6: the header scan reads only the first 25 lines; at the first of
    them that has a date [dd/mm/yyyy] and a comma it stops, the due date
    being the last such date of that line and the total the last
    thousand-grouped two-decimal value of that line (0,00 if the line has
    none); when no such line is among the first 25 the due date is N/A and
    the total 0,00. *)
Theorem header_first_match linhas :
  (∀ linhas', take 25 linhas' = take 25 linhas →
     header_fields linhas' = header_fields linhas) ∧
  (∀ pre linha post,
     take 25 linhas = pre ++ linha :: post →
     no_header pre → is_header_line linha = true →
     ∃ d, last (findall1 (Grp 1 HDR_DATE_RE) linha) = Some d ∧
          header_fields linhas =
          (d, default (py "0,00") (last (findall1 (Grp 1 HDR_VALUE_RE) linha)))) ∧
  (no_header (take 25 linhas) →
   header_fields linhas = (py "N/A", py "0,00")).
Proof.
  unfold header_fields. split; [|split].
  - by intros linhas' ->.
  - intros pre linha post -> Hpre Hl.
    destruct (header_line_has_date linha Hl) as [d Hd]. exists d.
    split; [done|]. rewrite header_scan_skip by done. simpl.
    by rewrite Hl, Hd.
  - intros H. rewrite <- (app_nil_r (take 25 linhas)).
    by rewrite header_scan_skip.
Qed.

End Text.


(** * Worked examples

    The statements above at concrete documents, under the Latin-1 tables
    and, unless said otherwise, with nothing raising. *)

(** The embedding on inputs whose results under CPython 3.11 are known. *)
Example sha256_abc :
  Sha256.hexdigest (string_bytes "abc") =
  py "ba7816bf8f01cfea414140de5dae2223b00361a396177a9cb410ff61f20015ad".
Proof. vm_compute. reflexivity. Qed.

Example tokenizer_example :
  extract_numbers_ignoring_percent_and_codes latin_db
    (py "Consumo 1.234,56 -12 18% 25 % P1 3x 12345% 1.2345 01/02/2024") =
  [py "1.234,56"; py "-12"; py "123"; py "1.234"; py "5"; py "01"; py "02";
   py "202"; py "4"].
Proof. vm_compute. reflexivity. Qed.

Example sanitize_example :
  sanitize_line_for_numbers latin_db
    (py "Consumo  01/02/2024 a 12/2024   10/01 - 09/02 x 3/4 100,00") =
  py "Consumo a x 100,00".
Proof. vm_compute. reflexivity. Qed.

Example split_bandeira_example :
  split_bandeira_descricao latin_db (py "Vermelha Patamar 1 Amarela Patamar 2") =
  (py "Vermelha Patamar 1", py "Amarela Patamar 2").
Proof. vm_compute. reflexivity. Qed.

Example bandeira_raw_example :
  bandeira_raw_of latin_db
    (py "x BANDEIRA TARIFARIA Vermelha Patamar 1 Amarela (ref)" ++ [10%N] ++
     py "Saldo Mes no (TP) kWh 120" ++ [10%N] ++ py "fim.") =
  py "Vermelha Patamar 1 Amarela".
Proof. vm_compute. reflexivity. Qed.

Example saldo_example :
  saldo_of latin_db (SALDO_MES_RE latin_db)
    (py "Saldo Mes no (TP) kWh 120" ++ [10%N] ++ py "fim.") = py "120" ∧
  saldo_of latin_db (SALDO_ACUM_RE latin_db)
    (py "Saldo Mes no (TP) kWh 120" ++ [10%N] ++ py "fim.") = py "0".
Proof. split; vm_compute; reflexivity. Qed.

Example energy_desc_example :
  energy_desc latin_db (py "Energia Injetada 12 3") = py "Energia Injetada" ∧
  energy_desc latin_db (py "Consumo Ativo kWh 100 0,75") = py "Consumo Ativo" ∧
  energy_values latin_db (py "Uso kWh 10 1,00 10,00 0,50 9,00 18% 1,62 PIS 3,3") =
    [py "10"; py "1,00"; py "10,00"; py "0,50"; py "9,00"; py "1,62"].
Proof. repeat split; vm_compute; reflexivity. Qed.

Definition sample_doc : doc_fields :=
  {| mes_ano := py "2025-12"; nome_cliente := py "ACME";
     cod_cliente_pasta := py "123"; vencimento := py "10/01/2026";
     total_fatura_pdf := py "1.234,56"; bandeira_desc_1 := py "Verde";
     bandeira_desc_2 := []; saldo_mes := py "0"; saldo_acumulado := py "0";
     saldo_expirar := py "0" |}.

Definition linha_consumo : pystr :=
  py "Consumo Ativo kWh 100 0,75 75,00 1,20 50,00".

Definition linha_verm : pystr :=
  py "AD.B.VERM1 kWh 100 0,75 75,00 1,20 50,00".

Definition linha_amar_verm : pystr :=
  py "AD.B.AMAR AD.B.VERM1 kWh 100 0,75 75,00 1,20 50,00".

Lemma five_token_energy_row_witness :
  is_energy_line (upper latin_db linha_consumo) = true ∧
  energy_values latin_db linha_consumo = five_tokens ∧
  ∃ row,
    item_step latin_db no_raise sample_doc 0 linha_consumo [] =
      (Done tt, [] ++ [row]) ∧
    row !! "Quantidade" = Some (py "100") ∧
    row !! "ICMS (R$)" = Some (py "0,00") ∧
    row !! "TARIFA UNIT.(R$)" = Some (py "0,75").
Proof.
  assert (is_energy_line (upper latin_db linha_consumo) = true) as H1
    by (vm_compute; reflexivity).
  assert (energy_values latin_db linha_consumo = five_tokens) as H2
    by (vm_compute; reflexivity).
  split; [exact H1|]. split; [exact H2|].
  destruct (five_token_energy_row latin_db no_raise sample_doc 0
              linha_consumo [] H1 H2 eq_refl eq_refl)
    as (row & Hstep & Hq & _ & _ & _ & _ & Hi & _ & Ht).
  exists row. repeat split; [exact Hstep|exact Hq|exact Hi|].
  apply Ht; vm_compute; reflexivity.
Defined.

(** The line of a first-code surcharge item gives the same five tokens,
    and its row has the fixed literal, not 0,75, as unit tariff rate. *)
Lemma five_tokens_with_override :
  is_energy_line (upper latin_db linha_verm) = true ∧
  energy_values latin_db linha_verm = five_tokens ∧
  ∃ row,
    item_step latin_db no_raise sample_doc 0 linha_verm [] = (Done tt, [row]) ∧
    row !! "Quantidade" = Some (py "100") ∧
    row !! "TARIFA UNIT.(R$)" = Some (py "0,044630") ∧
    row !! "TARIFA UNIT.(R$)" ≠ Some (py "0,75").
Proof.
  assert (is_energy_line (upper latin_db linha_verm) = true) as H1
    by (vm_compute; reflexivity).
  assert (energy_values latin_db linha_verm = five_tokens) as H2
    by (vm_compute; reflexivity).
  split; [exact H1|]. split; [exact H2|].
  destruct (item_step_energy latin_db no_raise sample_doc 0 linha_verm [] H1)
    as (row & Hrow & Hstep); [by rewrite H2|done|done|].
  unfold energy_row in Hrow.
  apply energy_row_fields in Hrow as (Hq & _ & _ & _ & _ & _ & Ht & _).
  rewrite H2 in Hq, Ht.
  assert (row !! "TARIFA UNIT.(R$)" = Some (py "0,044630")) as Ht'.
  { rewrite Ht. vm_compute. reflexivity. }
  exists row. split; [exact Hstep|]. split; [exact Hq|].
  split; [exact Ht'|]. rewrite Ht'. vm_compute. discriminate.
Qed.

Lemma override_touches_only_tarifa_witness :
  ∃ row,
    energy_row latin_db sample_doc linha_verm (upper latin_db linha_verm)
      (energy_desc latin_db linha_verm)
      (upper latin_db (energy_desc latin_db linha_verm))
      (energy_values latin_db linha_verm) = Some row ∧
    contains (py "AD.B.VERM1")
      (upper latin_db (energy_desc latin_db linha_verm)) = true ∧
    row !! "TARIFA UNIT.(R$)" = Some (py "0,044630") ∧
    ∃ row0,
      energy_row_no_override latin_db sample_doc linha_verm
        (upper latin_db linha_verm) (energy_desc latin_db linha_verm)
        (upper latin_db (energy_desc latin_db linha_verm))
        (energy_values latin_db linha_verm) = Some row0 ∧
      row0 !! "TARIFA UNIT.(R$)" = Some (py "0,75") ∧
      row !! "Quantidade" = row0 !! "Quantidade".
Proof.
  destruct (energy_row_total latin_db tarifa_override sample_doc linha_verm
              (upper latin_db linha_verm) (energy_desc latin_db linha_verm)
              (upper latin_db (energy_desc latin_db linha_verm))
              (energy_values latin_db linha_verm)) as [row Hrow];
    [vm_compute; lia|].
  fold (energy_row latin_db) in Hrow.
  assert (contains (py "AD.B.VERM1")
            (upper latin_db (energy_desc latin_db linha_verm)) = true) as Hc
    by (vm_compute; reflexivity).
  destruct (override_touches_only_tarifa latin_db sample_doc linha_verm row
              Hrow) as (Hv & _ & row0 & Hrow0 & Hsame).
  exists row. split; [exact Hrow|]. split; [exact Hc|].
  split; [exact (Hv Hc)|].
  exists row0. split; [exact Hrow0|]. split.
  - unfold energy_row_no_override in Hrow0.
    apply energy_row_fields in Hrow0 as (_ & _ & _ & _ & _ & _ & Ht & _).
    rewrite Ht. vm_compute. reflexivity.
  - apply Hsame. discriminate.
Defined.

(** A description with both codes: the second code is there, and the unit
    tariff rate is the literal of the first. *)
Lemma second_code_not_forced :
  contains (py "AD.B.AMAR")
    (upper latin_db (energy_desc latin_db linha_amar_verm)) = true ∧
  ∃ row,
    energy_row latin_db sample_doc linha_amar_verm
      (upper latin_db linha_amar_verm) (energy_desc latin_db linha_amar_verm)
      (upper latin_db (energy_desc latin_db linha_amar_verm))
      (energy_values latin_db linha_amar_verm) = Some row ∧
    item_step latin_db no_raise sample_doc 0 linha_amar_verm [] =
      (Done tt, [row]) ∧
    row !! "TARIFA UNIT.(R$)" = Some (py "0,044630") ∧
    row !! "TARIFA UNIT.(R$)" ≠ Some (py "0,018850").
Proof.
  split; [vm_compute; reflexivity|].
  destruct (item_step_energy latin_db no_raise sample_doc 0 linha_amar_verm [])
    as (row & Hrow & Hstep);
    [vm_compute; reflexivity|vm_compute; lia|done|done|].
  exists row. split; [exact Hrow|]. split; [exact Hstep|].
  unfold energy_row in Hrow.
  apply energy_row_fields in Hrow as (_ & _ & _ & _ & _ & _ & Ht & _).
  assert (row !! "TARIFA UNIT.(R$)" = Some (py "0,044630")) as Ht'.
  { rewrite Ht. vm_compute. reflexivity. }
  split; [exact Ht'|]. rewrite Ht'. vm_compute. discriminate.
Qed.

(** The key fields of a row with and without surrounding white space, and
    a row that lacks one of them. *)
Definition row_plain : gmap string pystr :=
  list_to_map [("Cliente", py "ACME"); ("Quantidade", py "100");
               ("Unid", []); ("ICMS (R$)", py "9,00")].

Definition row_padded : gmap string pystr :=
  list_to_map [("Cliente", py "  ACME "); ("Quantidade", py "100 ");
               ("ICMS (R$)", py "0,00")].

Lemma icms_not_key_field : "ICMS (R$)" ∉ key_field_names.
Proof.
  unfold key_field_names. rewrite !not_elem_of_cons.
  repeat split; try discriminate. apply not_elem_of_nil.
Qed.

Lemma make_row_hash_key_fields_only_witness :
  (∀ k, k ∈ key_field_names →
        row_plain !! k = (<["ICMS (R$)" := py "0,00"]> row_plain) !! k) ∧
  ("ICMS (R$)" ∉ key_field_names) ∧
  make_row_hash latin_db row_plain =
    make_row_hash latin_db (<["ICMS (R$)" := py "0,00"]> row_plain) ∧
  make_row_hash latin_db (delete "ICMS (R$)" row_plain) =
    make_row_hash latin_db row_plain ∧
  make_row_hash latin_db row_plain =
    Some (py "d2f2650b86b37e4d0faa920134b246512b61bd93af927113755107e0d2253cbb").
Proof.
  assert (∀ k, k ∈ key_field_names →
            row_plain !! k = (<["ICMS (R$)" := py "0,00"]> row_plain) !! k)
    as Hsame.
  { intros k Hin. rewrite lookup_insert_ne; [reflexivity|].
    intros <-. exact (icms_not_key_field Hin). }
  destruct (make_row_hash_key_fields_only latin_db) as (Hraw & Heq & Hother).
  split; [exact Hsame|]. split; [exact icms_not_key_field|].
  split; [exact (Heq _ _ Hsame)|].
  split; [exact (proj2 (Hother row_plain _ [] icms_not_key_field))|].
  rewrite Hraw. vm_compute. reflexivity.
Defined.

Lemma make_row_hash_trim_invariant_witness :
  all_space latin_db (py "  ") ∧ all_space latin_db (py " ") ∧
  row_plain !! "Cliente" = Some (py "ACME") ∧
  make_row_hash latin_db
    (<["Cliente" := (py "  " ++ py "ACME" ++ py " ")]> row_plain) =
    make_row_hash latin_db row_plain ∧
  row_padded !! "Unid" = None ∧
  make_row_hash latin_db (<["Unid" := []]> row_padded) =
    make_row_hash latin_db row_padded ∧
  (∀ k, k ∈ key_field_names →
        strip latin_db (dict_get row_plain k []) =
        strip latin_db (dict_get row_padded k [])) ∧
  make_row_hash latin_db row_plain = make_row_hash latin_db row_padded.
Proof.
  assert (all_space latin_db (py "  ")) as H1
    by (repeat constructor).
  assert (all_space latin_db (py " ")) as H2
    by (repeat constructor).
  assert (row_plain !! "Cliente" = Some (py "ACME")) as H3
    by (vm_compute; reflexivity).
  assert (row_padded !! "Unid" = None) as H4 by (vm_compute; reflexivity).
  assert (∀ k, k ∈ key_field_names →
            strip latin_db (dict_get row_plain k []) =
            strip latin_db (dict_get row_padded k [])) as H5.
  { intros k Hin. unfold key_field_names in Hin.
    repeat (apply elem_of_cons in Hin as [->|Hin]; [vm_compute; reflexivity|]).
    by apply elem_of_nil in Hin. }
  destruct (make_row_hash_trim_invariant latin_db) as (Hpad & Habs & Htrim).
  split; [exact H1|]. split; [exact H2|]. split; [exact H3|].
  split; [exact (Hpad _ _ _ _ _ H3 H1 H2)|]. split; [exact H4|].
  split; [exact (Habs _ _ H4)|]. split; [exact H5|].
  exact (Htrim _ _ H5).
Defined.

Definition linha_tokens : pystr := py "Consumo 100 18% P1".

Lemma tokenizer_drops_percent_and_glued_witness :
  u_isspace latin_db (ch "%") = false ∧
  extract_numbers_ignoring_percent_and_codes latin_db linha_tokens = [py "100"] ∧
  py "100" ∈ extract_numbers_ignoring_percent_and_codes latin_db linha_tokens ∧
  ∃ m, m ∈ finditer latin_db (NUM_RE latin_db) linha_tokens ∧
       py "100" = slice (m_start m) (m_end m) linha_tokens ∧
       ¬ followed_by_percent latin_db linha_tokens (m_end m) ∧
       ¬ letter_at latin_db linha_tokens (m_end m) ∧
       (∀ p, m_start m = S p → ¬ letter_at latin_db linha_tokens p).
Proof.
  assert (u_isspace latin_db (ch "%") = false) as H1 by (vm_compute; reflexivity).
  assert (extract_numbers_ignoring_percent_and_codes latin_db linha_tokens =
          [py "100"]) as H2 by (vm_compute; reflexivity).
  assert (py "100" ∈
          extract_numbers_ignoring_percent_and_codes latin_db linha_tokens) as H3.
  { rewrite H2. by apply list_elem_of_singleton. }
  split; [exact H1|]. split; [exact H2|]. split; [exact H3|].
  exact (tokenizer_drops_percent_and_glued latin_db linha_tokens (py "100") H1 H3).
Defined.

Definition linha_h0 : pystr := py "ELEKTRO REDES S.A.".
Definition linha_h1 : pystr :=
  py "Emissao 05/01/2026 Vencimento 10/01/2026 Total 99,00 1.234,56".
Definition linha_h2 : pystr := py "Outra 11/11/2011 linha 1,00".
Definition linhas_header : list pystr := [linha_h0; linha_h1; linha_h2].
Definition linhas_no_header : list pystr :=
  [py "ELEKTRO"; py "10/01/2026"; py "1,00"].

Lemma header_first_match_witness :
  take 25 linhas_header = [linha_h0] ++ linha_h1 :: [linha_h2] ∧
  no_header latin_db [linha_h0] ∧
  is_header_line latin_db linha_h1 = true ∧
  header_fields latin_db linhas_header = (py "10/01/2026", py "1.234,56") ∧
  no_header latin_db (take 25 linhas_no_header) ∧
  header_fields latin_db linhas_no_header = (py "N/A", py "0,00").
Proof.
  assert (no_header latin_db [linha_h0]) as H1.
  { constructor; [vm_compute; reflexivity|constructor]. }
  assert (is_header_line latin_db linha_h1 = true) as H2
    by (vm_compute; reflexivity).
  assert (no_header latin_db (take 25 linhas_no_header)) as H3.
  { repeat (constructor; [vm_compute; reflexivity|]). constructor. }
  split; [reflexivity|]. split; [exact H1|]. split; [exact H2|].
  split; [|split; [exact H3|]].
  - destruct (header_first_match latin_db linhas_header) as (_ & Hfirst & _).
    destruct (Hfirst [linha_h0] linha_h1 [linha_h2] eq_refl H1 H2)
      as (d & Hd & ->).
    assert (Some d = Some (py "10/01/2026")) as Hd'.
    { rewrite <- Hd. vm_compute. reflexivity. }
    apply (inj Some) in Hd'. rewrite Hd'. vm_compute. reflexivity.
  - destruct (header_first_match latin_db linhas_no_header) as (_ & _ & Hnone).
    exact (Hnone H3).
Defined.

(** Two small documents, one page per line. *)
Definition linha_venc : pystr := py "Vencimento 10/01/2026 Total 1.234,56".
Definition linha_multa : pystr := py "MULTA 10,50".
Definition linha_curta : pystr := py "Energia Injetada 12 3".

Definition pages_energy_fee : list page :=
  [PageText linha_venc; PageText linha_consumo; PageText linha_multa].
Definition pages_short : list page :=
  [PageText linha_curta; PageText linha_multa].

Definition texto_of (pages : list page) : pystr :=
  match read_pages pages [] with
  | Done texto => texto
  | Raised _ => []
  end.

Definition doc_of (pages : list page) : doc_fields :=
  document_fields latin_db (py "2025-12") (py "ACME") (py "123")
    (texto_of pages) (split_char 10%N (texto_of pages)).

(** A [MemoryError], whose text is empty, is raised while the row of line
    [n] is built, for an energy item and for a surcharge/fee item. *)
Definition raise_energy_row_at (n : nat) : region → nat → option pystr :=
  fun s i =>
    match s with
    | InEnergyRow => if i =? n then Some [] else None
    | _ => None
    end.

Definition raise_fee_row_at (n : nat) : region → nat → option pystr :=
  fun s i =>
    match s with
    | InFeeRow => if i =? n then Some [] else None
    | _ => None
    end.

Lemma extrair_lines (R : region → nat → option pystr)
  (out : pystr → option pystr) (pages : list page) (linhas : list pystr) :
  read_pages pages [] = Done (texto_of pages) →
  split_char 10%N (texto_of pages) = linhas →
  extrair_dados_fatura_bytes latin_db R out (PdfPages pages)
    (py "2025-12") (py "ACME") (py "123") =
  returned out (py "ACME") (py "123")
    (for_lines latin_db R (doc_of pages) 0 linhas).
Proof.
  intros Hr Hs. unfold extrair_dados_fatura_bytes.
  rewrite (try_block_texto _ _ _ _ _ _ _ Hr). unfold doc_of. by rewrite Hs.
Qed.

Lemma energy_fee_rows (out : pystr → option pystr) :
  ∃ r1 r2,
    for_lines latin_db no_raise (doc_of pages_energy_fee) 0 [linha_venc] [] =
      (Done tt, []) ∧
    item_step latin_db no_raise (doc_of pages_energy_fee) 1 linha_consumo [] =
      (Done tt, [r1]) ∧
    energy_row latin_db (doc_of pages_energy_fee) linha_consumo
      (upper latin_db linha_consumo) (energy_desc latin_db linha_consumo)
      (upper latin_db (energy_desc latin_db linha_consumo))
      (energy_values latin_db linha_consumo) = Some r1 ∧
    fee_row latin_db (doc_of pages_energy_fee) linha_multa
      (fee_values latin_db linha_multa) = Some r2 ∧
    extrair_dados_fatura_bytes latin_db no_raise out
      (PdfPages pages_energy_fee) (py "2025-12") (py "ACME") (py "123") =
      Done [r1; r2].
Proof.
  set (doc := doc_of pages_energy_fee).
  assert (item_step latin_db no_raise doc 0 linha_venc [] = (Done tt, [])) as H0
    by (apply item_step_other; vm_compute; reflexivity).
  destruct (item_step_energy latin_db no_raise doc 1 linha_consumo [])
    as (r1 & Hr1 & Hs1);
    [vm_compute; reflexivity|vm_compute; lia|reflexivity|reflexivity|].
  destruct (item_step_fee latin_db no_raise doc 2 linha_multa ([] ++ [r1]))
    as (r2 & Hr2 & Hs2);
    [vm_compute; reflexivity|vm_compute; reflexivity|vm_compute; discriminate
    |reflexivity|reflexivity|].
  exists r1, r2. split; [by rewrite for_lines_cons, H0|].
  split; [exact Hs1|]. split; [exact Hr1|]. split; [exact Hr2|].
  rewrite (extrair_lines no_raise out pages_energy_fee
             [linha_venc; linha_consumo; linha_multa; []]);
    [|vm_compute; reflexivity|vm_compute; reflexivity].
  fold doc. apply returned_completes.
  rewrite for_lines_cons, H0, for_lines_cons, Hs1, for_lines_cons, Hs2.
  rewrite for_lines_cons, item_step_other by (vm_compute; reflexivity).
  reflexivity.
Qed.

Lemma document_fields_broadcast_witness :
  ∃ rows r1 r2,
    extrair_dados_fatura_bytes latin_db no_raise utf8_stdout
      (PdfPages pages_energy_fee) (py "2025-12") (py "ACME") (py "123") =
      Done rows ∧
    r1 ∈ rows ∧ r2 ∈ rows ∧ "Vencimento" ∈ doc_level_keys ∧
    r1 !! "Itens da fatura" = Some (py "Consumo Ativo") ∧
    r2 !! "Itens da fatura" = Some (py "MULTA 10") ∧
    r1 !! "Vencimento" = r2 !! "Vencimento" ∧ is_Some (r1 !! "Vencimento").
Proof.
  destruct (energy_fee_rows utf8_stdout)
    as (r1 & r2 & _ & _ & Hr1 & Hr2 & Hrows).
  assert (r1 ∈ [r1; r2]) as H1 by (apply elem_of_cons; by left).
  assert (r2 ∈ [r1; r2]) as H2
    by (apply elem_of_cons; right; apply elem_of_cons; by left).
  assert ("Vencimento" ∈ doc_level_keys) as Hk by (apply elem_of_cons; by left).
  exists [r1; r2], r1, r2. split; [exact Hrows|].
  split; [exact H1|]. split; [exact H2|]. split; [exact Hk|].
  split; [|split].
  - unfold energy_row in Hr1.
    apply energy_row_fields in Hr1 as (_ & _ & _ & _ & _ & _ & _ & ->).
    vm_compute. reflexivity.
  - apply fee_row_fields in Hr2 as (_ & _ & _ & _ & ->).
    vm_compute. reflexivity.
  - exact (document_fields_broadcast latin_db no_raise utf8_stdout
             _ _ _ _ _ r1 r2 _ Hrows H1 H2 Hk).
Defined.

Lemma short_energy_line_dropped_witness :
  read_pages pages_short [] = Done (texto_of pages_short) ∧
  split_char 10%N (texto_of pages_short) = [] ++ linha_curta :: [linha_multa; []] ∧
  is_energy_line (upper latin_db linha_curta) = true ∧
  length (energy_values latin_db linha_curta) < 5 ∧
  (∀ itens,
     item_step latin_db no_raise (doc_of pages_short) 0 linha_curta itens =
       (Done tt, itens)) ∧
  extrair_dados_fatura_bytes latin_db no_raise utf8_stdout (PdfPages pages_short)
    (py "2025-12") (py "ACME") (py "123") =
    returned utf8_stdout (py "ACME") (py "123")
      (for_lines latin_db no_raise (doc_of pages_short) 0 [];;
       for_lines latin_db no_raise (doc_of pages_short) 1 [linha_multa; []]) ∧
  ∃ r,
    r !! "Itens da fatura" = Some (py "MULTA 10") ∧
    extrair_dados_fatura_bytes latin_db no_raise utf8_stdout
      (PdfPages pages_short) (py "2025-12") (py "ACME") (py "123") = Done [r].
Proof.
  assert (read_pages pages_short [] = Done (texto_of pages_short)) as H1
    by (vm_compute; reflexivity).
  assert (split_char 10%N (texto_of pages_short) =
          [] ++ linha_curta :: [linha_multa; []]) as H2
    by (vm_compute; reflexivity).
  assert (is_energy_line (upper latin_db linha_curta) = true) as H3
    by (vm_compute; reflexivity).
  assert (length (energy_values latin_db linha_curta) < 5) as H4
    by (vm_compute; lia).
  split; [exact H1|]. split; [exact H2|]. split; [exact H3|].
  split; [exact H4|].
  destruct (short_energy_line_dropped latin_db no_raise utf8_stdout
              (py "2025-12") (py "ACME") (py "123") pages_short
              (texto_of pages_short) [] linha_curta [linha_multa; []]
              H1 H2 H3 H4 eq_refl) as (Hstep & Hsame & Hrows).
  split; [exact Hstep|]. split; [exact Hsame|].
  destruct (item_step_fee latin_db no_raise (doc_of pages_short) 1
              linha_multa [])
    as (r & Hr & Hs);
    [vm_compute; reflexivity|vm_compute; reflexivity|vm_compute; discriminate
    |reflexivity|reflexivity|].
  exists r. split.
  - apply fee_row_fields in Hr as (_ & _ & _ & _ & ->).
    vm_compute. reflexivity.
  - apply Hrows.
    transitivity (for_lines latin_db no_raise (doc_of pages_short) 1
                    [linha_multa; []] []); [reflexivity|].
    rewrite for_lines_cons, Hs.
    rewrite for_lines_cons, item_step_other by (vm_compute; reflexivity).
    reflexivity.
Defined.

Definition erro_pdf : pystr := py "No /Root object! - Is this really a PDF?".

(** A customer name whose only character is a surrogate: the bytes are
    not a PDF, the handler prints the name, and the [UnicodeEncodeError]
    of [print] leaves the function. *)
Lemma unprintable_name_propagates :
  extrair_dados_fatura_bytes latin_db no_raise utf8_stdout
    (PdfUnreadable erro_pdf) (py "2025-12") [55296%N] (py "123") =
  Raised (py "'utf-8' codec can't encode character '\ud800' in position 39: surrogates not allowed").
Proof. vm_compute. reflexivity. Qed.

Lemma extrair_returns_unless_print_raises_witness :
  (∃ acc e,
     read_pages pages_energy_fee [] = Done (texto_of pages_energy_fee) ∧
     split_char 10%N (texto_of pages_energy_fee) =
       [linha_venc; linha_consumo] ++ linha_multa :: [[]] ∧
     for_lines latin_db (raise_fee_row_at 2) (doc_of pages_energy_fee) 0
       [linha_venc; linha_consumo] [] = (Done tt, acc) ∧
     length acc = 1 ∧
     fst (item_step latin_db (raise_fee_row_at 2) (doc_of pages_energy_fee)
            (length [linha_venc; linha_consumo]) linha_multa acc) = Raised e ∧
     utf8_stdout (erro_message (py "ACME") (py "123") e) = None ∧
     extrair_dados_fatura_bytes latin_db (raise_fee_row_at 2) utf8_stdout
       (PdfPages pages_energy_fee) (py "2025-12") (py "ACME") (py "123") =
       Done acc) ∧
  (∃ rows,
     extrair_dados_fatura_bytes latin_db no_raise utf8_stdout
       (PdfUnreadable erro_pdf) (py "2025-12") (py "ACME") (py "123") =
       Done rows) ∧
  (∃ e',
     caught latin_db no_raise (PdfUnreadable erro_pdf)
       (py "2025-12") [55296%N] (py "123") = Some erro_pdf ∧
     utf8_stdout (erro_message [55296%N] (py "123") erro_pdf) = Some e' ∧
     extrair_dados_fatura_bytes latin_db no_raise utf8_stdout
       (PdfUnreadable erro_pdf) (py "2025-12") [55296%N] (py "123") =
       Raised e').
Proof.
  split; [|split].
  - set (doc := doc_of pages_energy_fee). set (R := raise_fee_row_at 2).
    assert (item_step latin_db R doc 0 linha_venc [] = (Done tt, [])) as H0
      by (apply item_step_other; vm_compute; reflexivity).
    destruct (item_step_energy latin_db R doc 1 linha_consumo [])
      as (r1 & _ & Hs1);
      [vm_compute; reflexivity|vm_compute; lia|reflexivity|reflexivity|].
    assert (read_pages pages_energy_fee [] = Done (texto_of pages_energy_fee))
      as Hr by (vm_compute; reflexivity).
    assert (split_char 10%N (texto_of pages_energy_fee) =
            [linha_venc; linha_consumo] ++ linha_multa :: [[]]) as Hs
      by (vm_compute; reflexivity).
    assert (for_lines latin_db R doc 0 [linha_venc; linha_consumo] [] =
            (Done tt, [r1])) as Hacc.
    { rewrite for_lines_cons, H0, for_lines_cons, Hs1. reflexivity. }
    assert (fst (item_step latin_db R doc (length [linha_venc; linha_consumo])
                   linha_multa [r1]) = Raised []) as Hraise.
    { rewrite (item_step_fee_raised latin_db R doc _ linha_multa [r1] []);
        [reflexivity|vm_compute; reflexivity|vm_compute; reflexivity
        |vm_compute; discriminate|reflexivity|reflexivity]. }
    assert (utf8_stdout (erro_message (py "ACME") (py "123") []) = None)
      as Hp by (vm_compute; reflexivity).
    exists [r1], []. split; [exact Hr|]. split; [exact Hs|].
    split; [exact Hacc|]. split; [reflexivity|]. split; [exact Hraise|].
    split; [exact Hp|].
    exact (proj2 (proj2 (extrair_returns_unless_print_raises latin_db R
                           utf8_stdout (PdfPages pages_energy_fee)
                           (py "2025-12") (py "ACME") (py "123")))
             pages_energy_fee (texto_of pages_energy_fee)
             [linha_venc; linha_consumo] linha_multa [[]] [r1] []
             eq_refl Hr Hs Hacc Hraise Hp).
  - apply (proj1 (extrair_returns_unless_print_raises latin_db no_raise
                    utf8_stdout (PdfUnreadable erro_pdf)
                    (py "2025-12") (py "ACME") (py "123"))).
    intros e He. vm_compute in He. apply (inj Some) in He. subst e.
    vm_compute. reflexivity.
  - assert (∃ e', utf8_stdout (erro_message [55296%N] (py "123") erro_pdf) =
                  Some e') as [e' Hp] by (vm_compute; eauto).
    exists e'. split; [reflexivity|]. split; [exact Hp|].
    exact (proj1 (proj2 (extrair_returns_unless_print_raises latin_db no_raise
                           utf8_stdout (PdfUnreadable erro_pdf)
                           (py "2025-12") [55296%N] (py "123")))
             erro_pdf e' eq_refl Hp).
Defined.

(** * The rows of a document

    Further properties of the extractor: what every returned row looks
    like, which lines give a row, and what a failing page does. *)

(** The keys of the dictionaries of lines 309-330 and 338-359. *)
Definition row_key_names : list string :=
  ["Mês Ref"; "Cliente"; "Cód Cliente"; "Vencimento"; "Total a Pagar (R$)";
   "Itens da fatura"; "Unid"; "Quantidade"; "Preço Unit com Trib(RS)";
   "Valor R$"; "PIS/CONFINS(R$)"; "BASE CALC ICMS(R$)"; "Alíquota ICMS(%)";
   "ICMS (R$)"; "TARIFA UNIT.(R$)"; "Bandeira Tarifária 1 (descrição)";
   "Bandeira Tarifária 2 (descrição)"; "Saldo Mes (kWh)";
   "Saldo Acumulado (kWh)"; "Saldo a Expirar (kWh)"].

(** What one line contributes when nothing raises: the row of an energy
    item with at least five tokens, the row of a surcharge/fee item with
    at least one, nothing otherwise. *)
Definition line_row (U : unicode_db) (doc : doc_fields) (linha : pystr)
  : option (gmap string pystr) :=
  if is_energy_line (upper U linha) then
    if 5 <=? length (energy_values U linha)
    then energy_row U doc linha (upper U linha) (energy_desc U linha)
           (upper U (energy_desc U linha)) (energy_values U linha)
    else None
  else if is_fee_line (upper U linha) then
    fee_row U doc linha (fee_values U linha)
  else None.

(** A text without white space at either end. *)
Definition trimmed (U : unicode_db) (s : pystr) : Prop := strip U s = s.

Section Rows.

Variable U : unicode_db.
Variable raises : region → nat → option pystr.
Variable stdout : pystr → option pystr.

Lemma energy_row_keys adjust doc linha linha_up desc desc_up valores row :
  energy_row_with U adjust doc linha linha_up desc desc_up valores = Some row →
  dom row = list_to_set row_key_names.
Proof.
  unfold energy_row_with. intros H.
  repeat (apply bind_Some in H as (? & _ & H)).
  apply (inj Some) in H. rewrite <- H. by rewrite dom_list_to_map_L.
Qed.

Lemma fee_row_keys doc linha v_taxa row :
  fee_row U doc linha v_taxa = Some row →
  dom row = list_to_set row_key_names.
Proof.
  unfold fee_row. intros H. apply bind_Some in H as (? & _ & H).
  apply (inj Some) in H. rewrite <- H. by rewrite dom_list_to_map_L.
Qed.

Lemma energy_row_identity adjust doc linha linha_up desc desc_up valores row :
  energy_row_with U adjust doc linha linha_up desc desc_up valores = Some row →
  row !! "Mês Ref" = Some (mes_ano doc) ∧
  row !! "Cliente" = Some (nome_cliente doc) ∧
  row !! "Cód Cliente" = Some (cod_cliente_pasta doc).
Proof.
  unfold energy_row_with. intros H.
  repeat (apply bind_Some in H as (? & _ & H)).
  apply (inj Some) in H. rewrite <- H. repeat split; reflexivity.
Qed.

Lemma fee_row_identity doc linha v_taxa row :
  fee_row U doc linha v_taxa = Some row →
  row !! "Mês Ref" = Some (mes_ano doc) ∧
  row !! "Cliente" = Some (nome_cliente doc) ∧
  row !! "Cód Cliente" = Some (cod_cliente_pasta doc).
Proof.
  unfold fee_row. intros H. apply bind_Some in H as (? & _ & H).
  apply (inj Some) in H. rewrite <- H. repeat split; reflexivity.
Qed.

(** A property of rows that both builders establish holds of every row
    the loop appends. *)
Lemma for_lines_rows (P : gmap string pystr → Prop) doc :
  (∀ linha linha_up desc desc_up valores row,
     energy_row U doc linha linha_up desc desc_up valores = Some row → P row) →
  (∀ linha v_taxa row, fee_row U doc linha v_taxa = Some row → P row) →
  ∀ linhas i itens,
    Forall P itens → Forall P (snd (for_lines U raises doc i linhas itens)).
Proof.
  intros He Hf. induction linhas as [|linha rest IH]; intros i itens H; [done|].
  rewrite for_lines_cons.
  destruct (item_step_outcome U raises doc i linha itens)
    as [| |row Hrow|row Hrow]; simpl.
  - by apply IH.
  - done.
  - apply IH. apply Forall_app. split; [done|]. apply Forall_singleton.
    exact (He _ _ _ _ _ _ Hrow).
  - apply IH. apply Forall_app. split; [done|]. apply Forall_singleton.
    exact (Hf _ _ _ Hrow).
Qed.

Lemma extrair_rows (P : doc_fields → gmap string pystr → Prop)
  pdf mes nome cod rows :
  (∀ doc linha linha_up desc desc_up valores row,
     energy_row U doc linha linha_up desc desc_up valores = Some row →
     P doc row) →
  (∀ doc linha v_taxa row, fee_row U doc linha v_taxa = Some row → P doc row) →
  extrair_dados_fatura_bytes U raises stdout pdf mes nome cod = Done rows →
  rows = [] ∨
  ∃ pages texto,
    pdf = PdfPages pages ∧ read_pages pages [] = Done texto ∧
    Forall (P (document_fields U mes nome cod texto (split_char 10%N texto)))
           rows.
Proof.
  intros He Hf. unfold extrair_dados_fatura_bytes. intros ->%returned_done.
  destruct pdf as [e|pages]; [by left|].
  destruct (read_pages pages []) as [texto|e] eqn:Hr.
  - right. exists pages, texto. split; [done|]. split; [done|].
    rewrite (try_block_texto _ _ _ _ _ _ _ Hr).
    apply for_lines_rows; [apply He|apply Hf|constructor].
  - left. unfold try_block. by rewrite Hr.
Qed.

(** X1: every row the function returns has exactly the twenty keys of the
    row dictionaries, whatever the document and whatever raises. *)
Theorem rows_have_all_keys pdf mes nome cod rows row :
  extrair_dados_fatura_bytes U raises stdout pdf mes nome cod = Done rows →
  row ∈ rows →
  dom row = list_to_set row_key_names.
Proof.
  intros Hrows Hin.
  destruct (extrair_rows (fun _ r => dom r = list_to_set row_key_names)
              pdf mes nome cod rows) as [->|(pages & texto & _ & _ & HF)];
    [intros; by eapply energy_row_keys|intros; by eapply fee_row_keys|done| |].
  - by apply elem_of_nil in Hin.
  - rewrite Forall_forall in HF. by apply HF.
Qed.

(** X2: every row the function returns carries the reference month, the
    customer name and the customer code it was called with. *)
Theorem rows_carry_arguments pdf mes nome cod rows row :
  extrair_dados_fatura_bytes U raises stdout pdf mes nome cod = Done rows →
  row ∈ rows →
  row !! "Mês Ref" = Some mes ∧ row !! "Cliente" = Some nome ∧
  row !! "Cód Cliente" = Some cod.
Proof.
  intros Hrows Hin.
  destruct (extrair_rows
              (fun doc r => r !! "Mês Ref" = Some (mes_ano doc) ∧
                            r !! "Cliente" = Some (nome_cliente doc) ∧
                            r !! "Cód Cliente" = Some (cod_cliente_pasta doc))
              pdf mes nome cod rows) as [->|(pages & texto & _ & _ & HF)];
    [intros; by eapply energy_row_identity|intros; by eapply fee_row_identity
    |done| |].
  - by apply elem_of_nil in Hin.
  - rewrite Forall_forall in HF. by apply HF.
Qed.

Lemma energy_row_labels adjust doc linha linha_up desc desc_up valores row :
  energy_row_with U adjust doc linha linha_up desc desc_up valores = Some row →
  row !! "Unid" =
    Some (if contains (py "KWH") linha_up then py "kWh"
          else if contains (py "WH") linha_up then py "Wh" else py "-") ∧
  row !! "Alíquota ICMS(%)" =
    Some (match search U (ALIQ_RE U) linha with
          | Some aliq_match => group0 linha aliq_match
          | None => py "0%"
          end).
Proof.
  unfold energy_row_with. intros H.
  repeat (apply bind_Some in H as (? & _ & H)).
  apply (inj Some) in H. rewrite <- H. split; reflexivity.
Qed.

Lemma lookup_or_default (l : list pystr) (n : nat) (d : pystr) :
  (if n <? length l then l !! n else Some d) = Some (default d (l !! n)).
Proof.
  destruct (n <? length l) eqn:E.
  - apply Nat.ltb_lt in E. apply lookup_lt_is_Some in E as [x ->]. done.
  - apply Nat.ltb_ge in E. by rewrite (lookup_ge_None_2 l n).
Qed.

(** X3: an energy-item line with at least five tokens appends one row
    whose quantity, unit price, value, withholding-tax amount and tax base
    are tokens 0 to 4; whose tax amount is token 5, or 0,00 when there are
    only five tokens; whose unit tariff rate is token 6, or token 1 when
    there are fewer than seven, after the override of lines 303-307; whose
    tax rate label is the first [digits%] of the line, or 0%; and whose
    unit label is kWh, Wh or -. *)
Theorem energy_row_positional doc i linha itens :
  is_energy_line (upper U linha) = true →
  5 ≤ length (energy_values U linha) →
  raises InLine i = None → raises InEnergyRow i = None →
  ∃ row,
    item_step U raises doc i linha itens = (Done tt, itens ++ [row]) ∧
    row !! "Itens da fatura" = Some (energy_desc U linha) ∧
    row !! "Quantidade" = energy_values U linha !! 0 ∧
    row !! "Preço Unit com Trib(RS)" = energy_values U linha !! 1 ∧
    row !! "Valor R$" = energy_values U linha !! 2 ∧
    row !! "PIS/CONFINS(R$)" = energy_values U linha !! 3 ∧
    row !! "BASE CALC ICMS(R$)" = energy_values U linha !! 4 ∧
    row !! "ICMS (R$)" =
      Some (default (py "0,00") (energy_values U linha !! 5)) ∧
    (∀ preco, energy_values U linha !! 1 = Some preco →
       row !! "TARIFA UNIT.(R$)" =
         Some (tarifa_override (upper U (energy_desc U linha))
                 (default preco (energy_values U linha !! 6)))) ∧
    row !! "Alíquota ICMS(%)" =
      Some (match search U (ALIQ_RE U) linha with
            | Some m => group0 linha m
            | None => py "0%"
            end) ∧
    row !! "Unid" =
      Some (if contains (py "KWH") (upper U linha) then py "kWh"
            else if contains (py "WH") (upper U linha) then py "Wh"
            else py "-").
Proof.
  intros He Hlen Hl Hr.
  destruct (item_step_energy U raises doc i linha itens He Hlen Hl Hr)
    as (row & Hrow & Hstep).
  unfold energy_row in Hrow.
  destruct (energy_row_fields _ _ _ _ _ _ _ _ _ Hrow)
    as (H0 & H1 & H2 & H3 & H4 & H5 & H6 & Hd).
  destruct (energy_row_labels _ _ _ _ _ _ _ _ Hrow) as (Hu & Ha).
  exists row. repeat (split; [assumption|]).
  split; [by rewrite H5, lookup_or_default|].
  split; [|by split].
  intros preco Hp. rewrite H6.
  destruct (6 <? length (energy_values U linha)) eqn:E.
  - apply Nat.ltb_lt in E. apply lookup_lt_is_Some in E as [x ->]. done.
  - apply Nat.ltb_ge in E.
    by rewrite (lookup_ge_None_2 (energy_values U linha) 6), Hp.
Qed.

(** ** Lines that give a row *)

Lemma item_step_line_row doc i linha itens :
  (∀ s j, raises s j = None) →
  item_step U raises doc i linha itens =
  (Done tt, itens ++ option_list (line_row U doc linha)).
Proof.
  intros Hno. unfold line_row.
  destruct (is_energy_line (upper U linha)) eqn:He.
  - destruct (5 <=? length (energy_values U linha)) eqn:E.
    + apply Nat.leb_le in E.
      destruct (item_step_energy U raises doc i linha itens He E)
        as (row & -> & ->); by rewrite ?Hno.
    + apply Nat.leb_gt in E. rewrite app_nil_r.
      by apply item_step_short_energy.
  - destruct (is_fee_line (upper U linha)) eqn:Hf.
    + destruct (fee_values U linha) as [|v vs] eqn:Hv.
      * unfold item_step. rewrite bind_may_raise, Hno, He, Hf, Hv.
        by rewrite app_nil_r.
      * destruct (item_step_fee U raises doc i linha itens He Hf)
          as (row & Hrow & ->); rewrite ?Hno, ?Hv; try done.
        rewrite Hv in Hrow. by rewrite Hrow.
    + rewrite app_nil_r. by apply item_step_other.
Qed.

Lemma for_lines_line_rows doc linhas : ∀ i itens,
  (∀ s j, raises s j = None) →
  for_lines U raises doc i linhas itens =
  (Done tt, itens ++ omap (line_row U doc) linhas).
Proof.
  induction linhas as [|linha rest IH]; intros i itens Hno.
  - simpl. by rewrite app_nil_r.
  - rewrite for_lines_cons, item_step_line_row by done.
    rewrite IH by done. simpl omap.
    destruct (line_row U doc linha); simpl; by rewrite <- ?app_assoc, ?app_nil_r.
Qed.

(** X4: when nothing raises and every page gives its text, the function
    returns, in the order of the lines, one row for each energy-item line
    with at least five tokens and one for each surcharge/fee line with at
    least one token, and nothing for any other line; on such lines the
    construction of the row does not fail. *)
Theorem rows_in_line_order pages mes nome cod texto :
  (∀ s j, raises s j = None) →
  read_pages pages [] = Done texto →
  let linhas := split_char 10%N texto in
  let doc := document_fields U mes nome cod texto linhas in
  extrair_dados_fatura_bytes U raises stdout (PdfPages pages) mes nome cod =
    Done (omap (line_row U doc) linhas) ∧
  ∀ linha,
    is_Some (line_row U doc linha) ↔
    (is_energy_line (upper U linha) = true ∧
     5 ≤ length (energy_values U linha)) ∨
    (is_energy_line (upper U linha) = false ∧
     is_fee_line (upper U linha) = true ∧ fee_values U linha ≠ []).
Proof.
  intros Hno Hr linhas doc. split.
  - unfold extrair_dados_fatura_bytes.
    rewrite (try_block_texto _ _ _ _ _ _ _ Hr). fold linhas doc.
    apply returned_completes. by rewrite for_lines_line_rows.
  - intros linha. unfold line_row.
    destruct (is_energy_line (upper U linha)).
    + destruct (5 <=? length (energy_values U linha)) eqn:E.
      * apply Nat.leb_le in E. split; [by left|]. intros _.
        unfold energy_row.
        exact (energy_row_total U tarifa_override _ _ _ _ _ _ E).
      * apply Nat.leb_gt in E. split; [by intros [? ?]|].
        intros [[_ ?]|[? _]]; [lia|done].
    + destruct (is_fee_line (upper U linha)).
      * unfold fee_row.
        destruct (last (fee_values U linha)) eqn:El; cbn [mbind option_bind].
        -- split; [|by eauto]. intros _. right.
           repeat split. intros Hv. by rewrite Hv in El.
        -- apply last_None in El. split; [by intros [? ?]|].
           intros [[? _]|(_ & _ & ?)]; done.
      * split; [by intros [? ?]|]. intros [[? _]|(_ & ? & _)]; done.
Qed.

(** ** Pages that fail *)

Lemma read_pages_error pages : ∀ texto e0,
  PageError e0 ∈ pages →
  ∃ e, PageError e ∈ pages ∧ read_pages pages texto = Raised e.
Proof.
  induction pages as [|p pages IH]; intros texto e0 Hin.
  - by apply elem_of_nil in Hin.
  - destruct p as [t| |e].
    + apply elem_of_cons in Hin as [?|Hin]; [done|].
      destruct (IH (texto ++ t ++ [10%N]) e0 Hin) as (e & He & Hr).
      exists e. split; [by apply elem_of_cons; right|exact Hr].
    + apply elem_of_cons in Hin as [?|Hin]; [done|].
      destruct (IH (texto ++ [] ++ [10%N]) e0 Hin) as (e & He & Hr).
      exists e. split; [by apply elem_of_cons; right|exact Hr].
    + exists e. split; [by apply elem_of_cons; left|done].
Qed.

(** X5: when the document cannot be opened, or the text of any one of its
    pages cannot be extracted, the handler prints the exception of the
    opening or of a failing page; the function then returns the empty
    list, so that items on the pages that could be read are not returned,
    unless the [print] raises, and then it returns no list at all. *)
Theorem unreadable_page_voids_document pdf mes nome cod :
  (∃ e, pdf = PdfUnreadable e) ∨
  (∃ pages e, pdf = PdfPages pages ∧ PageError e ∈ pages) →
  ∃ e,
    (pdf = PdfUnreadable e ∨
     ∃ pages, pdf = PdfPages pages ∧ PageError e ∈ pages) ∧
    extrair_dados_fatura_bytes U raises stdout pdf mes nome cod =
    match stdout (erro_message nome cod e) with
    | Some e' => Raised e'
    | None => Done []
    end.
Proof.
  unfold extrair_dados_fatura_bytes. intros [[e ->]|(pages & e0 & -> & Hin)].
  - exists e. split; [by left|]. by apply returned_raised.
  - destruct (read_pages_error pages [] e0 Hin) as (e & He & Hr).
    exists e. split; [right; by exists pages|].
    apply returned_raised. unfold try_block. by rewrite Hr.
Qed.

(** ** The handler of the energy rows *)

(** X15: a failure while the row of an energy-item line is built, be it
    an exception raised inside the inner [try] or an index out of range,
    is caught there: the line appends nothing and the loop goes on with
    the next line. *)
Theorem energy_row_failure_skips_line doc i linha rest itens :
  raises InLine i = None →
  is_energy_line (upper U linha) = true →
  raises InEnergyRow i ≠ None ∨
  energy_row U doc linha (upper U linha) (energy_desc U linha)
    (upper U (energy_desc U linha)) (energy_values U linha) = None →
  for_lines U raises doc i (linha :: rest) itens =
  for_lines U raises doc (S i) rest itens.
Proof.
  intros Hl He Hfail.
  by rewrite for_lines_cons, item_step_energy_caught.
Qed.

End Rows.

(** * Texts

    What [strip] and the one-character [split] return, as used for the
    description of a surcharge/fee row and for the fingerprint. *)

(** A code point that is neither a surrogate nor beyond U+10FFFF. *)
Definition encodable (c : char) : bool :=
  (c <? 55296)%N || ((57343 <? c) && (c <? 1114112))%N.

(** One of [0-9a-f] *)
Definition is_hex_char (c : char) : Prop :=
  (48 ≤ c ≤ 57)%N ∨ (97 ≤ c ≤ 102)%N.

Section Shapes.

Variable U : unicode_db.
Variable raises : region → nat → option pystr.

Lemma lstrip_decompose (s : pystr) :
  ∃ ws, s = ws ++ lstrip U s ∧ all_space U ws.
Proof.
  induction s as [|c s (ws & IH & Hws)];
    [exists []; split; [done|constructor]|]. simpl.
  destruct (u_isspace U c) eqn:Hc.
  - exists (c :: ws). split; [by rewrite IH at 1|by constructor].
  - exists []. split; [done|constructor].
Qed.

Lemma lstrip_head (s : pystr) (c : char) (t : pystr) :
  lstrip U s = c :: t → u_isspace U c = false.
Proof.
  induction s as [|x s IH]; [done|]. simpl.
  destruct (u_isspace U x) eqn:Hx; [exact IH|]. by intros [= <- _].
Qed.

Lemma lstrip_fixed (c : char) (t : pystr) :
  u_isspace U c = false → lstrip U (c :: t) = c :: t.
Proof. intros H. simpl. by rewrite H. Qed.

Lemma lstrip_idemp (s : pystr) : lstrip U (lstrip U s) = lstrip U s.
Proof.
  destruct (lstrip U s) as [|c t] eqn:E; [done|].
  apply lstrip_fixed. by eapply lstrip_head.
Qed.

Lemma lstrip_snoc (l : pystr) (c : char) :
  u_isspace U c = false → ∃ y, lstrip U (l ++ [c]) = y ++ [c].
Proof.
  intros Hc. induction l as [|a l IH]; simpl.
  - rewrite Hc. by exists [].
  - destruct (u_isspace U a); [exact IH|]. by exists (a :: l).
Qed.

Lemma rstrip_decompose (s : pystr) : ∃ ws, s = rstrip U s ++ ws.
Proof.
  unfold rstrip. destruct (lstrip_decompose (reverse s)) as (ws & E & _).
  exists (reverse ws). rewrite <- reverse_app, <- E. by rewrite reverse_involutive.
Qed.

Lemma rstrip_idemp (s : pystr) : rstrip U (rstrip U s) = rstrip U s.
Proof. unfold rstrip. by rewrite reverse_involutive, lstrip_idemp. Qed.

Lemma rstrip_keeps_head (c : char) (t : pystr) :
  u_isspace U c = false → ∃ t', rstrip U (c :: t) = c :: t'.
Proof.
  intros Hc. unfold rstrip. rewrite reverse_cons.
  destruct (lstrip_snoc (reverse t) c Hc) as [y ->].
  exists (reverse y). by rewrite reverse_app.
Qed.

(** [strip] takes a middle part of the text *)
Lemma strip_decompose (s : pystr) : ∃ a b, s = a ++ strip U s ++ b.
Proof.
  unfold strip. destruct (lstrip_decompose s) as (a & Ea & _).
  destruct (rstrip_decompose (lstrip U s)) as (b & Eb).
  exists a, b. by rewrite <- Eb.
Qed.

(** and what it returns has no white space left at either end. *)
Lemma strip_trimmed (s : pystr) : trimmed U (strip U s).
Proof.
  unfold trimmed, strip at 1.
  assert (lstrip U (strip U s) = strip U s) as ->.
  { unfold strip. destruct (lstrip U s) as [|c t] eqn:E; [done|].
    destruct (rstrip_keeps_head c t) as [t' ->]; [by eapply lstrip_head|].
    apply lstrip_fixed. by eapply lstrip_head. }
  unfold strip. apply rstrip_idemp.
Qed.

Lemma strip_length (s : pystr) : length (strip U s) ≤ length s.
Proof.
  destruct (strip_decompose s) as (a & b & E). rewrite E at 2.
  rewrite !length_app. lia.
Qed.

Lemma strip_elem_of (s : pystr) (c : char) : c ∈ strip U s → c ∈ s.
Proof.
  destruct (strip_decompose s) as (a & b & E). rewrite E at 2.
  rewrite !elem_of_app. auto.
Qed.

(** The first piece of [s.split(c)] is the text before the first [c]. *)
Lemma split_char_head_aux (c : char) (s : pystr) : ∀ cur,
  ∃ p rest, s = p ++ rest ∧ (c ∉ p) ∧
            head (split_char_aux c cur s) = Some (reverse cur ++ p).
Proof.
  induction s as [|x s IH]; intros cur.
  - exists [], []. simpl. rewrite app_nil_r. repeat split.
    apply not_elem_of_nil.
  - simpl. destruct (x =? c)%N eqn:E.
    + exists [], (x :: s). simpl. rewrite app_nil_r. repeat split.
      apply not_elem_of_nil.
    + destruct (IH (x :: cur)) as (p & rest & -> & Hp & Hh).
      exists (x :: p), rest. split; [done|]. split.
      * apply not_elem_of_cons. split; [|done].
        apply N.eqb_neq in E. congruence.
      * rewrite Hh, reverse_cons. by rewrite <- app_assoc.
Qed.

Lemma split_char_head (c : char) (s : pystr) :
  ∃ p rest, s = p ++ rest ∧ (c ∉ p) ∧ head (split_char c s) = Some p.
Proof.
  destruct (split_char_head_aux c s []) as (p & rest & H1 & H2 & H3).
  by exists p, rest.
Qed.

Lemma fee_row_defaults doc linha v_taxa row :
  fee_row U doc linha v_taxa = Some row →
  row !! "Unid" = Some (py "-") ∧
  row !! "PIS/CONFINS(R$)" = Some (py "0,00") ∧
  row !! "BASE CALC ICMS(R$)" = Some (py "0,00") ∧
  row !! "Alíquota ICMS(%)" = Some (py "0%") ∧
  row !! "ICMS (R$)" = Some (py "0,00").
Proof.
  unfold fee_row. intros H. apply bind_Some in H as (? & _ & H).
  apply (inj Some) in H. rewrite <- H. repeat split; reflexivity.
Qed.

(** X6: a surcharge/fee line with at least one token appends one row whose
    value is the last token of the line; whose quantity, unit price, unit
    tariff rate and unit label are the placeholder [-]; whose tax fields
    are 0,00 and 0%; and whose description has at most 60 characters, no
    comma and no white space at either end. *)
Theorem fee_row_shape doc i linha itens :
  is_energy_line (upper U linha) = false →
  is_fee_line (upper U linha) = true →
  fee_values U linha ≠ [] →
  raises InLine i = None → raises InFeeRow i = None →
  ∃ row desc,
    item_step U raises doc i linha itens = (Done tt, itens ++ [row]) ∧
    row !! "Valor R$" = last (fee_values U linha) ∧
    row !! "Quantidade" = Some (py "-") ∧
    row !! "Preço Unit com Trib(RS)" = Some (py "-") ∧
    row !! "TARIFA UNIT.(R$)" = Some (py "-") ∧
    row !! "Unid" = Some (py "-") ∧
    row !! "PIS/CONFINS(R$)" = Some (py "0,00") ∧
    row !! "BASE CALC ICMS(R$)" = Some (py "0,00") ∧
    row !! "Alíquota ICMS(%)" = Some (py "0%") ∧
    row !! "ICMS (R$)" = Some (py "0,00") ∧
    row !! "Itens da fatura" = Some desc ∧
    length desc ≤ 60 ∧ (ch "," ∉ desc) ∧ trimmed U desc.
Proof.
  intros He Hf Hv Hl Hr.
  destruct (item_step_fee U raises doc i linha itens He Hf Hv Hl Hr)
    as (row & Hrow & Hstep).
  destruct (fee_row_fields _ _ _ _ _ Hrow) as (H1 & H2 & H3 & H4 & H5).
  destruct (fee_row_defaults _ _ _ _ Hrow) as (D1 & D2 & D3 & D4 & D5).
  destruct (split_char_head (ch ",") (take 60 linha))
    as (p & rest & Ep & Hp & Hh).
  rewrite Hh in H5. simpl in H5.
  exists row, (strip U p). repeat (split; [assumption|]).
  split; [|split].
  - etrans; [apply strip_length|].
    assert (length (take 60 linha) ≤ 60) as Ht by (rewrite length_take; lia).
    rewrite Ep, length_app in Ht. lia.
  - intros Hin. apply Hp. by apply strip_elem_of.
  - apply strip_trimmed.
Qed.

(** ** The fingerprint as a text *)

Lemma encodable_spec (c : char) :
  is_Some (utf8_encode_char c) ↔ encodable c = true.
Proof.
  unfold utf8_encode_char, encodable.
  repeat match goal with
  | |- context [(?a <? ?b)%N] => destruct (N.ltb_spec a b)
  | |- context [(?a <=? ?b)%N] => destruct (N.leb_spec a b)
  end; simpl; split; intros Hx;
    first [lia | done | by eauto | by apply is_Some_None in Hx].
Qed.

Lemma utf8_encode_is_Some (s : pystr) :
  is_Some (utf8_encode s) ↔ Forall (fun c => encodable c = true) s.
Proof.
  induction s as [|c s IH]; simpl.
  - split; [constructor|eauto].
  - rewrite Forall_cons, <- IH, <- encodable_spec.
    destruct (utf8_encode_char c), (utf8_encode s); split;
      try (intros [[? ?] [? ?]]); try (intros [? ?]); try done; eauto.
Qed.

Lemma Forall_join (P : char → Prop) (sep : pystr) (parts : list pystr) :
  Forall P sep →
  Forall P (join sep parts) ↔ Forall (Forall P) parts.
Proof.
  intros Hsep. induction parts as [|p [|q parts] IH].
  - simpl. split; constructor.
  - simpl. split; [by repeat constructor|by intros [? _]%Forall_cons].
  - change (join sep (p :: q :: parts)) with (p ++ sep ++ join sep (q :: parts)).
    rewrite !Forall_app, IH, (Forall_cons _ p).
    split; [by intros (Hp & _ & Hq)|by intros [Hp Hq]].
Qed.

Lemma round_length (st : list N) (kw : N * N) :
  length (Sha256.round st kw) = length st.
Proof.
  unfold Sha256.round.
  destruct st as [|a [|b [|c [|d [|e [|f [|g [|h [|? ?]]]]]]]]]; reflexivity.
Qed.

Lemma compress_length (h block : list N) :
  length (Sha256.compress h block) = length h.
Proof.
  unfold Sha256.compress. rewrite length_zip_with.
  assert (∀ l st, length (fold_left Sha256.round l st) = length st) as Hf.
  { induction l as [|kw l IH]; intros st; [done|]. simpl.
    by rewrite IH, round_length. }
  rewrite Hf. lia.
Qed.

Lemma land_255_byte (x : N) : (N.land x 255 < 256)%N.
Proof.
  change 255%N with (N.ones 8). rewrite N.land_ones.
  apply N.mod_lt. discriminate.
Qed.

Lemma digest_bytes (msg : list N) :
  length (Sha256.digest msg) = 32 ∧
  Forall (fun b => (b < 256)%N) (Sha256.digest msg).
Proof.
  unfold Sha256.digest.
  set (bl := Sha256.blocks _ _).
  assert (∀ l h, length (fold_left Sha256.compress l h) = length h) as Hf.
  { induction l as [|b l IH]; intros h; [done|]. simpl.
    by rewrite IH, compress_length. }
  specialize (Hf bl Sha256.H0). revert Hf.
  generalize (fold_left Sha256.compress bl Sha256.H0). intros ws Hws.
  change (length Sha256.H0) with 8 in Hws.
  do 9 (destruct ws as [|? ws]; try done).
  split; [reflexivity|].
  simpl. repeat constructor; apply land_255_byte.
Qed.

Lemma hex_digit_is_hex (x : N) : (x < 16)%N → is_hex_char (Sha256.hex_digit x).
Proof.
  intros H. unfold Sha256.hex_digit, is_hex_char.
  destruct (N.ltb_spec x 10); lia.
Qed.

Lemma hex_of_bytes (l : list N) :
  Forall (fun b => (b < 256)%N) l →
  let hex := flat_map (fun b => [Sha256.hex_digit (N.shiftr b 4);
                                 Sha256.hex_digit (N.land b 15)]) l in
  length hex = 2 * length l ∧ Forall is_hex_char hex.
Proof.
  induction 1 as [|b l Hb _ [IH1 IH2]]; simpl.
  - split; [done|constructor].
  - split; [rewrite IH1; lia|].
    constructor; [|constructor; [|done]]; apply hex_digit_is_hex.
    + rewrite N.shiftr_div_pow2. change (2 ^ 4)%N with 16%N.
      apply N.Div0.div_lt_upper_bound. lia.
    + change 15%N with (N.ones 4). rewrite N.land_ones.
      apply N.mod_lt. discriminate.
Qed.

Lemma hexdigest_shape (msg : list N) :
  length (Sha256.hexdigest msg) = 64 ∧
  Forall is_hex_char (Sha256.hexdigest msg).
Proof.
  destruct (digest_bytes msg) as [Hlen Hb].
  destruct (hex_of_bytes _ Hb) as [H1 H2].
  unfold Sha256.hexdigest. split; [by rewrite H1, Hlen|done].
Qed.

(** X7: a fingerprint, when there is one, is a text of 64 characters, each
    one of [0-9a-f]. *)
Theorem fingerprint_is_hex (d : gmap string pystr) (h : pystr) :
  make_row_hash U d = Some h →
  length h = 64 ∧ Forall is_hex_char h.
Proof.
  rewrite make_row_hash_unfold. intros H.
  apply fmap_Some in H as (bs & _ & ->). apply hexdigest_shape.
Qed.

(** X8: a row has a fingerprint exactly when none of its ten key fields,
    once trimmed, holds a surrogate code point (or one beyond U+10FFFF);
    otherwise encoding the key raises. *)
Theorem fingerprint_defined (d : gmap string pystr) :
  is_Some (make_row_hash U d) ↔
  ∀ k, k ∈ key_field_names →
       Forall (fun c => encodable c = true) (strip U (dict_get d k [])).
Proof.
  rewrite make_row_hash_unfold, fmap_is_Some, utf8_encode_is_Some.
  rewrite Forall_join by (repeat constructor).
  rewrite Forall_fmap, Forall_forall. done.
Qed.

End Shapes.

(** * Worked examples, continued *)

Definition linha_sete : pystr :=
  py "Uso kWh 10 1,00 10,00 0,50 9,00 18% 1,62 0,90 PIS 3,3".

Definition row_surrogate : gmap string pystr :=
  list_to_map [("Cliente", [65; 55296]%N); ("Quantidade", py "100")].

Lemma rows_have_all_keys_witness :
  ∃ rows row,
    extrair_dados_fatura_bytes latin_db no_raise utf8_stdout
      (PdfPages pages_energy_fee) (py "2025-12") (py "ACME") (py "123") =
      Done rows ∧
    row ∈ rows ∧ length rows = 2 ∧
    dom row = list_to_set row_key_names.
Proof.
  destruct (energy_fee_rows utf8_stdout) as (r1 & r2 & _ & _ & _ & _ & Hrows).
  assert (r2 ∈ [r1; r2]) as Hin
    by (apply elem_of_cons; right; apply elem_of_cons; by left).
  exists [r1; r2], r2. split; [exact Hrows|]. split; [exact Hin|].
  split; [reflexivity|].
  exact (rows_have_all_keys latin_db no_raise utf8_stdout _ _ _ _ _ r2
           Hrows Hin).
Defined.

Lemma rows_carry_arguments_witness :
  ∃ rows row,
    extrair_dados_fatura_bytes latin_db no_raise utf8_stdout
      (PdfPages pages_energy_fee) (py "2025-12") (py "ACME") (py "123") =
      Done rows ∧
    row ∈ rows ∧
    row !! "Mês Ref" = Some (py "2025-12") ∧
    row !! "Cliente" = Some (py "ACME") ∧
    row !! "Cód Cliente" = Some (py "123").
Proof.
  destruct (energy_fee_rows utf8_stdout) as (r1 & r2 & _ & _ & _ & _ & Hrows).
  assert (r1 ∈ [r1; r2]) as Hin by (apply elem_of_cons; by left).
  exists [r1; r2], r1. split; [exact Hrows|]. split; [exact Hin|].
  exact (rows_carry_arguments latin_db no_raise utf8_stdout _ _ _ _ _ r1
           Hrows Hin).
Defined.

Lemma energy_row_positional_witness :
  is_energy_line (upper latin_db linha_sete) = true ∧
  energy_values latin_db linha_sete =
    [py "10"; py "1,00"; py "10,00"; py "0,50"; py "9,00"; py "1,62";
     py "0,90"] ∧
  ∃ row,
    item_step latin_db no_raise sample_doc 0 linha_sete [] =
      (Done tt, [] ++ [row]) ∧
    row !! "Itens da fatura" = Some (py "Uso") ∧
    row !! "Quantidade" = Some (py "10") ∧
    row !! "ICMS (R$)" = Some (py "1,62") ∧
    row !! "TARIFA UNIT.(R$)" = Some (py "0,90") ∧
    row !! "Alíquota ICMS(%)" = Some (py "18%") ∧
    row !! "Unid" = Some (py "kWh").
Proof.
  assert (is_energy_line (upper latin_db linha_sete) = true) as H1
    by (vm_compute; reflexivity).
  assert (energy_values latin_db linha_sete =
          [py "10"; py "1,00"; py "10,00"; py "0,50"; py "9,00"; py "1,62";
           py "0,90"]) as H2 by (vm_compute; reflexivity).
  assert (5 ≤ length (energy_values latin_db linha_sete)) as H3
    by (rewrite H2; vm_compute; lia).
  split; [exact H1|]. split; [exact H2|].
  destruct (energy_row_positional latin_db no_raise sample_doc 0 linha_sete []
              H1 H3 eq_refl eq_refl)
    as (row & Hs & Hd & Hq & _ & _ & _ & _ & Hi & Ht & Ha & Hu).
  exists row. split; [exact Hs|].
  split; [rewrite Hd; vm_compute; reflexivity|].
  split; [rewrite Hq, H2; reflexivity|].
  split; [rewrite Hi, H2; reflexivity|].
  split; [rewrite (Ht (py "1,00")) by (rewrite H2; reflexivity);
          vm_compute; reflexivity|].
  split; [rewrite Ha; vm_compute; reflexivity|].
  rewrite Hu. vm_compute. reflexivity.
Defined.

Lemma rows_in_line_order_witness :
  (∀ s j, no_raise s j = None) ∧
  read_pages pages_energy_fee [] = Done (texto_of pages_energy_fee) ∧
  extrair_dados_fatura_bytes latin_db no_raise utf8_stdout
    (PdfPages pages_energy_fee) (py "2025-12") (py "ACME") (py "123") =
    Done (omap (line_row latin_db (doc_of pages_energy_fee))
               (split_char 10%N (texto_of pages_energy_fee))) ∧
  is_Some (line_row latin_db (doc_of pages_energy_fee) linha_consumo) ∧
  ¬ is_Some (line_row latin_db (doc_of pages_energy_fee) linha_curta).
Proof.
  assert (∀ s j, no_raise s j = None) as H1 by reflexivity.
  assert (read_pages pages_energy_fee [] = Done (texto_of pages_energy_fee))
    as H2 by (vm_compute; reflexivity).
  destruct (rows_in_line_order latin_db no_raise utf8_stdout pages_energy_fee
              (py "2025-12") (py "ACME") (py "123")
              (texto_of pages_energy_fee) H1 H2) as [Hrows Hline].
  split; [exact H1|]. split; [exact H2|]. split; [exact Hrows|]. split.
  - apply Hline. left. split; [vm_compute; reflexivity|vm_compute; lia].
  - intros H. apply Hline in H as [[_ H]|[H _]].
    + vm_compute in H. lia.
    + vm_compute in H. discriminate.
Defined.

Definition erro_pagina : pystr := py "unpack requires a buffer of 4 bytes".

Lemma unreadable_page_voids_document_witness :
  ((∃ e, PdfPages [PageText linha_consumo; PageError erro_pagina] =
         PdfUnreadable e) ∨
   ∃ pages e,
     PdfPages [PageText linha_consumo; PageError erro_pagina] =
       PdfPages pages ∧
     PageError e ∈ pages) ∧
  extrair_dados_fatura_bytes latin_db no_raise utf8_stdout
    (PdfPages [PageText linha_consumo; PageError erro_pagina])
    (py "2025-12") (py "ACME") (py "123") = Done [] ∧
  ∃ e',
    extrair_dados_fatura_bytes latin_db no_raise utf8_stdout
      (PdfPages [PageText linha_consumo; PageError erro_pagina])
      (py "2025-12") [55296%N] (py "123") = Raised e'.
Proof.
  assert ((∃ e, PdfPages [PageText linha_consumo; PageError erro_pagina] =
                PdfUnreadable e) ∨
          ∃ pages e,
            PdfPages [PageText linha_consumo; PageError erro_pagina] =
              PdfPages pages ∧
            PageError e ∈ pages) as H.
  { right. eexists _, erro_pagina. split; [reflexivity|].
    apply elem_of_cons. right. apply elem_of_cons. by left. }
  assert (∀ pages e,
            PdfPages [PageText linha_consumo; PageError erro_pagina] =
              PdfPages pages →
            PageError e ∈ pages → e = erro_pagina) as Hone.
  { intros pages e Hp Hin. injection Hp as <-.
    apply elem_of_cons in Hin as [Hin|Hin]; [discriminate|].
    apply elem_of_cons in Hin as [Hin|Hin]; [|by apply elem_of_nil in Hin].
    by injection Hin. }
  split; [exact H|]. split.
  - destruct (unreadable_page_voids_document latin_db no_raise utf8_stdout
                _ (py "2025-12") (py "ACME") (py "123") H)
      as (e & [He|(pages & Hp & Hin)] & Hres); [discriminate|].
    rewrite Hres, (Hone pages e Hp Hin). vm_compute. reflexivity.
  - destruct (unreadable_page_voids_document latin_db no_raise utf8_stdout
                _ (py "2025-12") [55296%N] (py "123") H)
      as (e & [He|(pages & Hp & Hin)] & Hres); [discriminate|].
    rewrite Hres, (Hone pages e Hp Hin). vm_compute. eauto.
Defined.

Lemma energy_row_failure_skips_line_witness :
  is_energy_line (upper latin_db linha_consumo) = true ∧
  raise_energy_row_at 0 InEnergyRow 0 ≠ None ∧
  for_lines latin_db (raise_energy_row_at 0) sample_doc 0
    [linha_consumo; linha_multa] [] =
  for_lines latin_db (raise_energy_row_at 0) sample_doc 1 [linha_multa] [].
Proof.
  assert (is_energy_line (upper latin_db linha_consumo) = true) as H1
    by (vm_compute; reflexivity).
  assert (raise_energy_row_at 0 InEnergyRow 0 ≠ None) as H2 by discriminate.
  split; [exact H1|]. split; [exact H2|].
  exact (energy_row_failure_skips_line latin_db (raise_energy_row_at 0)
           sample_doc 0 linha_consumo [linha_multa] [] eq_refl H1
           (or_introl H2)).
Defined.

Lemma fee_row_shape_witness :
  is_energy_line (upper latin_db linha_multa) = false ∧
  is_fee_line (upper latin_db linha_multa) = true ∧
  fee_values latin_db linha_multa ≠ [] ∧
  ∃ row desc,
    item_step latin_db no_raise sample_doc 0 linha_multa [] =
      (Done tt, [] ++ [row]) ∧
    row !! "Valor R$" = Some (py "10,50") ∧
    row !! "Quantidade" = Some (py "-") ∧
    row !! "Itens da fatura" = Some desc ∧
    length desc ≤ 60 ∧ (ch "," ∉ desc) ∧ trimmed latin_db desc.
Proof.
  assert (is_energy_line (upper latin_db linha_multa) = false) as H1
    by (vm_compute; reflexivity).
  assert (is_fee_line (upper latin_db linha_multa) = true) as H2
    by (vm_compute; reflexivity).
  assert (fee_values latin_db linha_multa ≠ []) as H3
    by (vm_compute; discriminate).
  split; [exact H1|]. split; [exact H2|]. split; [exact H3|].
  destruct (fee_row_shape latin_db no_raise sample_doc 0 linha_multa []
              H1 H2 H3 eq_refl eq_refl)
    as (row & desc & Hs & Hv & Hq & _ & _ & _ & _ & _ & _ & _ & Hd & Hl & Hc & Ht).
  exists row, desc. split; [exact Hs|].
  split; [rewrite Hv; vm_compute; reflexivity|].
  repeat (split; [assumption|]). exact Ht.
Defined.

Lemma fingerprint_is_hex_witness :
  make_row_hash latin_db row_plain =
    Some (py "d2f2650b86b37e4d0faa920134b246512b61bd93af927113755107e0d2253cbb") ∧
  length (py "d2f2650b86b37e4d0faa920134b246512b61bd93af927113755107e0d2253cbb")
    = 64 ∧
  Forall is_hex_char
    (py "d2f2650b86b37e4d0faa920134b246512b61bd93af927113755107e0d2253cbb").
Proof.
  assert (make_row_hash latin_db row_plain =
    Some (py "d2f2650b86b37e4d0faa920134b246512b61bd93af927113755107e0d2253cbb"))
    as H by (rewrite make_row_hash_unfold; vm_compute; reflexivity).
  split; [exact H|].
  exact (fingerprint_is_hex latin_db row_plain _ H).
Defined.

Lemma fingerprint_defined_witness :
  "Cliente" ∈ key_field_names ∧
  ¬ Forall (fun c => encodable c = true)
      (strip latin_db (dict_get row_surrogate "Cliente" [])) ∧
  make_row_hash latin_db row_surrogate = None ∧
  is_Some (make_row_hash latin_db row_plain).
Proof.
  assert ("Cliente" ∈ key_field_names) as Hk
    by (apply elem_of_cons; right; apply elem_of_cons; by left).
  assert (¬ Forall (fun c => encodable c = true)
            (strip latin_db (dict_get row_surrogate "Cliente" []))) as Hs.
  { replace (strip latin_db (dict_get row_surrogate "Cliente" []))
      with [65; 55296]%N by (vm_compute; reflexivity).
    intros H. apply Forall_cons in H as [_ H].
    apply Forall_cons in H as [H _]. vm_compute in H. discriminate. }
  split; [exact Hk|]. split; [exact Hs|]. split.
  - destruct (make_row_hash latin_db row_surrogate) eqn:E; [|reflexivity].
    exfalso. apply Hs.
    apply (proj1 (fingerprint_defined latin_db row_surrogate)); [|exact Hk].
    rewrite E. eauto.
  - rewrite make_row_hash_unfold.
    assert (∃ h, Sha256.hexdigest <$>
              utf8_encode (join (py "|")
                (map (fun k => strip latin_db (dict_get row_plain k []))
                     key_field_names)) = Some h) as [h ->]; [|by eauto].
    eexists. vm_compute. reflexivity.
Defined.

(** * Sanitized lines and tariff-flag descriptions *)

(** A text free of white space, and not empty: a word of [s.split()]. *)
Definition is_word_of (U : unicode_db) (s w : pystr) : Prop :=
  w ≠ [] ∧ Forall (fun c => u_isspace U c = false) w ∧ ∀ c, c ∈ w → c ∈ s.

Section Normalized.

Variable U : unicode_db.

Lemma split_ws_aux_words (s : pystr) : ∀ (orig cur : pystr),
  (∀ c, c ∈ s → c ∈ orig) →
  Forall (fun c => u_isspace U c = false) cur →
  (∀ c, c ∈ cur → c ∈ orig) →
  Forall (is_word_of U orig) (split_ws_aux U cur s).
Proof.
  induction s as [|x s IH]; intros orig cur Hs Hcur Hin; simpl.
  - destruct cur as [|c0 cur]; [constructor|].
    apply Forall_singleton. split; [|split].
    + intros E. apply (f_equal length) in E.
      rewrite length_reverse in E. done.
    + by apply Forall_reverse.
    + intros c Hc. apply Hin. by apply elem_of_reverse.
  - assert (∀ c, c ∈ s → c ∈ orig) as Hs'
      by (intros c Hc; apply Hs; by right).
    destruct (u_isspace U x) eqn:Hx.
    + assert (Forall (is_word_of U orig) (split_ws_aux U [] s)) as Hrest
        by (apply IH; [done|constructor|by intros c Hc%elem_of_nil]).
      destruct cur as [|c0 cur]; [done|].
      constructor; [|done]. split; [|split].
      * intros E. apply (f_equal length) in E.
        rewrite length_reverse in E. done.
      * by apply Forall_reverse.
      * intros c Hc. apply Hin. by apply elem_of_reverse.
    + apply IH; [done|by constructor|].
      intros c [->|Hc]%elem_of_cons; [apply Hs; by left|by apply Hin].
Qed.

Lemma split_ws_words (s : pystr) : Forall (is_word_of U s) (split_ws U s).
Proof.
  apply split_ws_aux_words; [done|constructor|by intros c Hc%elem_of_nil].
Qed.

Lemma slice_elem_of (i j : nat) (s : pystr) (c : char) :
  c ∈ slice i j s → c ∈ s.
Proof.
  unfold slice. intros H. apply (subseteq_drop i s).
  by apply (subseteq_take (j - i)).
Qed.

Lemma sub_spans_elem_of (repl s : pystr) (ms : list rmatch_obj) : ∀ from c,
  c ∈ sub_spans repl s from ms → c ∈ s ∨ c ∈ repl.
Proof.
  induction ms as [|m ms IH]; intros from c; simpl.
  - intros H. left. by apply (subseteq_drop from s).
  - rewrite !elem_of_app. intros [H|[H|H]].
    + left. by eapply slice_elem_of.
    + by right.
    + by eapply IH.
Qed.

Lemma re_sub_elem_of (r : re) (repl s : pystr) (c : char) :
  c ∈ re_sub U r repl s → c ∈ s ∨ c ∈ repl.
Proof. apply sub_spans_elem_of. Qed.

(** X9: a sanitized line is a sequence of words separated by single
    spaces; each word is not empty, has no white space in it, and is made
    of characters of the line it comes from. *)
Theorem sanitized_line_words (line : pystr) :
  u_isspace U (ch " ") = true →
  ∃ words,
    sanitize_line_for_numbers U line = join (py " ") words ∧
    Forall (is_word_of U line) words.
Proof.
  intros Hsp. unfold sanitize_line_for_numbers.
  set (s4 := re_sub U (DATE_DM_RE U) _ _).
  exists (split_ws U s4). split; [done|].
  assert (∀ c, c ∈ s4 → c ∈ line ∨ c = ch " ") as Hs4.
  { intros c Hc. unfold s4 in Hc.
    repeat (apply re_sub_elem_of in Hc as [Hc|Hc];
            [|right; by apply list_elem_of_singleton in Hc]).
    by left. }
  eapply Forall_impl; [apply split_ws_words|].
  intros w (Hne & Hns & Hin). split; [done|]. split; [done|].
  intros c Hc. destruct (Hs4 c (Hin c Hc)) as [?| ->]; [done|].
  rewrite Forall_forall in Hns. specialize (Hns _ Hc). congruence.
Qed.

Lemma bandeira_parts_nonempty (s : pystr) (ms : list rmatch_obj) :
  Forall (fun p => p ≠ [] ∧ trimmed U p) (bandeira_parts U s ms).
Proof.
  induction ms as [|m ms IH]; simpl; [constructor|].
  destruct (strip U (slice _ _ s)) as [|c t] eqn:E; [done|].
  constructor; [|done]. split; [done|].
  rewrite <- E. apply strip_trimmed.
Qed.

(** X10: both tariff-flag sub-descriptions are free of white space at
    either end; the second is empty whenever the first is; and an empty
    descriptor gives two empty sub-descriptions. *)
Theorem split_bandeira_trimmed (bandeira_raw : pystr) :
  let '(desc1, desc2) := split_bandeira_descricao U bandeira_raw in
  trimmed U desc1 ∧ trimmed U desc2 ∧
  (desc1 = [] → desc2 = []) ∧
  (bandeira_raw = [] → desc1 = [] ∧ desc2 = []).
Proof.
  unfold split_bandeira_descricao.
  destruct bandeira_raw as [|c0 raw]; [done|].
  set (s := join _ _).
  destruct (finditer U (BANDEIRA_NAME_RE U) s) as [|m ms] eqn:E.
  - split; [apply strip_trimmed|]. done.
  - pose proof (bandeira_parts_nonempty s (m :: ms)) as Hp.
    destruct (bandeira_parts U s (m :: ms)) as [|p1 [|p2 parts]]; simpl.
    + done.
    + apply Forall_cons in Hp as [[Hne Ht] _]. done.
    + apply Forall_cons in Hp as [[Hne1 Ht1] Hp].
      apply Forall_cons in Hp as [[Hne2 Ht2] _]. done.
Qed.

End Normalized.

(** * What a match consumes

    The text between the start and the end of a match belongs to the
    language of the pattern, read without its anchors and lookahead. *)

Definition within (n : nat) (hi : option nat) : Prop :=
  match hi with
  | Some h => n ≤ h
  | None => True
  end.

Fixpoint den (r : re) (cs : pystr) : Prop :=
  match r with
  | Eps | Bol | Wordb | Ahead _ => cs = []
  | Cls p => ∃ c, cs = [c] ∧ p c = true
  | Cat a b => ∃ x y, cs = x ++ y ∧ den a x ∧ den b y
  | Alt a b => den a cs ∨ den b cs
  | Rep _ lo hi a =>
    ∃ parts, cs = concat parts ∧ Forall (den a) parts ∧
             lo ≤ length parts ∧ within (length parts) hi
  | Grp _ a => den a cs
  end.

(** Every class of the pattern, outside a lookahead, admits only
    characters with the property [P]. *)
Fixpoint classes (P : char → Prop) (r : re) : Prop :=
  match r with
  | Eps | Bol | Wordb | Ahead _ => True
  | Cls p => ∀ c, p c = true → P c
  | Cat a b | Alt a b => classes P a ∧ classes P b
  | Rep _ _ _ a | Grp _ a => classes P a
  end.

(** The least and the greatest number of characters a match can have. *)
Fixpoint minlen (r : re) : nat :=
  match r with
  | Eps | Bol | Wordb | Ahead _ => 0
  | Cls _ => 1
  | Cat a b => minlen a + minlen b
  | Alt a b => minlen a `min` minlen b
  | Rep _ lo _ a => lo * minlen a
  | Grp _ a => minlen a
  end.

Fixpoint maxlen (r : re) : option nat :=
  match r with
  | Eps | Bol | Wordb | Ahead _ => Some 0
  | Cls _ => Some 1
  | Cat a b => x ← maxlen a; y ← maxlen b; Some (x + y)
  | Alt a b => x ← maxlen a; y ← maxlen b; Some (x `max` y)
  | Rep _ _ hi a => h ← hi; x ← maxlen a; Some (h * x)
  | Grp _ a => maxlen a
  end.

(** [st'] is [st] moved forward over the text [cs]. *)
Definition moved (st : mstate) (cs : pystr) (st' : mstate) : Prop :=
  ms_rest st = cs ++ ms_rest st' ∧ ms_pos st' = ms_pos st + length cs.

(** The spans of a list of matches follow one another from [from] on. *)
Fixpoint in_order (from : nat) (ms : list rmatch_obj) : Prop :=
  match ms with
  | [] => True
  | m :: ms' => from ≤ m_start m ∧ m_start m ≤ m_end m ∧ in_order (m_end m) ms'
  end.

Section Matches.

Variable U : unicode_db.

Lemma moved_refl st : moved st [] st.
Proof. split; [done|simpl; lia]. Qed.

Lemma moved_trans st1 cs1 st2 cs2 st3 :
  moved st1 cs1 st2 → moved st2 cs2 st3 → moved st1 (cs1 ++ cs2) st3.
Proof.
  intros [H1 H2] [H3 H4]. split.
  - by rewrite H1, H3, app_assoc.
  - rewrite H4, H2, length_app. lia.
Qed.

Lemma rep_loop_sound body g lo hi a :
  (∀ k st e, body k st = Some e →
     ∃ cs st', moved st cs st' ∧ den a cs ∧ k st' = Some e) →
  ∀ fuel cnt k st e,
    within cnt hi →
    rep_loop body g lo hi k fuel cnt st = Some e →
    ∃ parts st',
      moved st (concat parts) st' ∧ Forall (den a) parts ∧
      lo ≤ cnt + length parts ∧ within (cnt + length parts) hi ∧
      k st' = Some e.
Proof.
  intros Hbody. induction fuel as [|fuel IH]; intros cnt k st e Hcnt; [done|].
  simpl.
  assert (∀ o : option mstate,
            (if lo <=? cnt then k st else None) = o → o = Some e →
            ∃ parts st',
              moved st (concat parts) st' ∧ Forall (den a) parts ∧
              lo ≤ cnt + length parts ∧ within (cnt + length parts) hi ∧
              k st' = Some e) as Hleave.
  { intros o <- Ho. destruct (lo <=? cnt) eqn:E; [|done].
    apply Nat.leb_le in E. exists [], st. simpl.
    rewrite Nat.add_0_r. split; [apply moved_refl|].
    split; [constructor|]. split; [lia|]. by split. }
  assert (∀ o : option mstate,
            (if below cnt hi
             then body (fun st' => if ms_pos st <? ms_pos st'
                                   then rep_loop body g lo hi k fuel (S cnt) st'
                                   else None) st
             else None) = o → o = Some e →
            ∃ parts st',
              moved st (concat parts) st' ∧ Forall (den a) parts ∧
              lo ≤ cnt + length parts ∧ within (cnt + length parts) hi ∧
              k st' = Some e) as Hagain.
  { intros o <- Ho. destruct (below cnt hi) eqn:E; [|done].
    apply Hbody in Ho as (cs & st1 & Hm & Hd & Hk).
    destruct (ms_pos st <? ms_pos st1); [|done].
    apply IH in Hk as (parts & st2 & Hm2 & Hds & Hlo & Hhi & Hk).
    - exists (cs :: parts), st2. simpl. split; [by eapply moved_trans|].
      split; [by constructor|].
      replace (cnt + S (length parts)) with (S cnt + length parts) by lia.
      done.
    - destruct hi as [h|]; [|done]. simpl in *. apply Nat.ltb_lt in E. lia. }
  destruct g.
  - destruct (if below cnt hi then _ else None) as [x|] eqn:E1.
    + intros [= ->]. by eapply Hagain.
    + intros H. by eapply Hleave.
  - destruct (if lo <=? cnt then k st else None) as [x|] eqn:E1.
    + intros [= ->]. by eapply Hleave.
    + intros H. by eapply Hagain.
Qed.

(** Soundness of the matcher. *)
Lemma rmatch_sound r : ∀ k st e,
  rmatch U r k st = Some e →
  ∃ cs st', moved st cs st' ∧ den r cs ∧ k st' = Some e.
Proof.
  induction r as [|p|a IHa b IHb|a IHa b IHb|g lo hi a IHa|n a IHa| | |a IHa];
    intros k st e; cbn [rmatch].
  - intros H. exists [], st. split; [apply moved_refl|done].
  - destruct (ms_rest st) as [|c t] eqn:E; [done|].
    destruct (p c) eqn:Hp; [|done]. intros H.
    exists [c], (MState (S (ms_pos st)) (Some c) t (ms_caps st)).
    split; [split; simpl; [done|lia]|]. split; [by exists c|done].
  - intros H. apply IHa in H as (x & st1 & Hm1 & Hx & H).
    apply IHb in H as (y & st2 & Hm2 & Hy & H).
    exists (x ++ y), st2. split; [by eapply moved_trans|].
    split; [by exists x, y|done].
  - destruct (rmatch U a k st) as [x|] eqn:E.
    + intros [= ->]. apply IHa in E as (cs & st' & ? & ? & ?).
      exists cs, st'. simpl. auto.
    + intros H. apply IHb in H as (cs & st' & ? & ? & ?).
      exists cs, st'. simpl. auto.
  - intros H. apply (rep_loop_sound _ g lo hi a IHa) in H
      as (parts & st' & Hm & Hd & Hlo & Hhi & Hk).
    + exists (concat parts), st'. split; [done|]. split; [|done].
      by exists parts.
    + destruct hi; simpl; [lia|done].
  - intros H. apply IHa in H as (cs & st' & [Hm1 Hm2] & Hd & Hk).
    eexists cs, _. split; [|split; [exact Hd|exact Hk]]. by split.
  - destruct (ms_pos st =? 0); [|done]. intros H.
    exists [], st. split; [apply moved_refl|done].
  - destruct (xorb _ _); [|done]. intros H.
    exists [], st. split; [apply moved_refl|done].
  - destruct (rmatch U a Some st); [|done]. intros H.
    exists [], st. split; [apply moved_refl|done].
Qed.

Lemma den_classes (P : char → Prop) r : ∀ cs,
  classes P r → den r cs → Forall P cs.
Proof.
  induction r as [|p|a IHa b IHb|a IHa b IHb|g lo hi a IHa|n a IHa| | |a IHa];
    intros cs Hc; simpl in *; try (intros ->; constructor).
  - intros (c & -> & Hp). apply Forall_singleton. by apply Hc.
  - intros (x & y & -> & Hx & Hy). destruct Hc as [Ha Hb].
    apply Forall_app. split; [by apply IHa|by apply IHb].
  - destruct Hc as [Ha Hb]. intros [Hd|Hd]; [by apply IHa|by apply IHb].
  - intros (parts & -> & Hd & _). apply Forall_concat.
    eapply Forall_impl; [exact Hd|]. intros x Hx. by apply IHa.
  - by apply IHa.
Qed.

Lemma den_minlen r : ∀ cs, den r cs → minlen r ≤ length cs.
Proof.
  induction r as [|p|a IHa b IHb|a IHa b IHb|g lo hi a IHa|n a IHa| | |a IHa];
    intros cs; simpl; try (intros ->; simpl; lia).
  - intros (c & -> & _). simpl. lia.
  - intros (x & y & -> & Hx & Hy). rewrite length_app.
    specialize (IHa _ Hx). specialize (IHb _ Hy). lia.
  - intros [H|H]; [specialize (IHa _ H)|specialize (IHb _ H)]; lia.
  - intros (parts & -> & Hd & Hlo & _). clear hi g. revert lo Hlo.
    induction Hd as [|x parts Hx _ IH]; intros lo Hlo; simpl in *.
    + assert (lo = 0) as -> by lia. simpl. lia.
    + rewrite length_app. specialize (IHa _ Hx).
      destruct lo as [|lo]; [simpl; lia|].
      specialize (IH lo ltac:(lia)). simpl. lia.
  - apply IHa.
Qed.

Lemma den_maxlen r : ∀ cs n, maxlen r = Some n → den r cs → length cs ≤ n.
Proof.
  induction r as [|p|a IHa b IHb|a IHa b IHb|g lo hi a IHa|n0 a IHa| | |a IHa];
    intros cs n; simpl; try (intros [= <-] ->; simpl; lia).
  - intros [= <-] (c & -> & _). simpl. lia.
  - intros H (x & y & -> & Hx & Hy).
    apply bind_Some in H as (n1 & E1 & H).
    apply bind_Some in H as (n2 & E2 & [= <-]).
    rewrite length_app. specialize (IHa _ _ E1 Hx).
    specialize (IHb _ _ E2 Hy). lia.
  - intros H Hd.
    apply bind_Some in H as (n1 & E1 & H).
    apply bind_Some in H as (n2 & E2 & [= <-]).
    destruct Hd as [Hd|Hd];
      [specialize (IHa _ _ E1 Hd)|specialize (IHb _ _ E2 Hd)]; lia.
  - intros H (parts & -> & Hd & _ & Hhi).
    apply bind_Some in H as (h & -> & H).
    apply bind_Some in H as (x & Ex & [= <-]). simpl in Hhi.
    assert (length (concat parts) ≤ length parts * x) as Hlen.
    { clear Hhi. induction Hd as [|p parts Hp _ IH]; simpl; [lia|].
      rewrite length_app. specialize (IHa _ _ Ex Hp). lia. }
    nia.
  - apply IHa.
Qed.

End Matches.

(** * Where the matches are *)

(** The characters a numeric token can be made of. *)
Definition number_char (U : unicode_db) (c : char) : Prop :=
  u_isdecimal U c = true ∨ c = ch "-" ∨ c = ch "." ∨ c = ch ",".

Section Spans.

Variable U : unicode_db.

Lemma match_at_spec r st m :
  match_at U r st = Some m →
  m_start m = ms_pos st ∧
  ∃ cs, moved st cs (m_after m) ∧ m_end m = ms_pos st + length cs ∧
        ms_pos (m_after m) = m_end m ∧ den r cs.
Proof.
  unfold match_at. destruct (rmatch U r Some st) as [e|] eqn:E; [|done].
  intros [= <-]. simpl. split; [done|].
  apply rmatch_sound in E as (cs & st' & Hm & Hd & [= ->]).
  exists cs. destruct Hm as [H1 H2]. repeat split; done.
Qed.

(** A successful scan is a match at some position further on. *)
Lemma scan_found r rest : ∀ pos prev m,
  scan U r pos prev rest = Some m →
  ∃ skip prev' rest',
    rest = skip ++ rest' ∧
    match_at U r (MState (pos + length skip) prev' rest' []) = Some m.
Proof.
  induction rest as [|c t IH]; intros pos prev m; cbn [scan].
  - destruct (match_at U r _) as [m'|] eqn:E; [|done]. intros [= ->].
    exists [], prev, []. simpl. by rewrite Nat.add_0_r.
  - destruct (match_at U r _) as [m'|] eqn:E.
    + intros [= ->]. exists [], prev, (c :: t). simpl. by rewrite Nat.add_0_r.
    + intros H. apply IH in H as (skip & prev' & rest' & -> & H).
      exists (c :: skip), prev', rest'. split; [done|].
      simpl. by replace (pos + S (length skip)) with (S pos + length skip) by lia.
Qed.

Lemma scan_spec r rest pos prev m :
  scan U r pos prev rest = Some m →
  ∃ skip cs,
    rest = skip ++ cs ++ ms_rest (m_after m) ∧
    m_start m = pos + length skip ∧ m_end m = m_start m + length cs ∧
    ms_pos (m_after m) = m_end m ∧ den r cs.
Proof.
  intros H. apply scan_found in H as (skip & prev' & rest' & -> & H).
  apply match_at_spec in H as (Hs & cs & [Hm _] & He & Hp & Hd).
  simpl in *. exists skip, cs. rewrite Hs. by rewrite <- Hm.
Qed.

Lemma in_order_weaken (a b : nat) (ms : list rmatch_obj) :
  a ≤ b → in_order b ms → in_order a ms.
Proof.
  destruct ms as [|m ms]; simpl; [done|]. intros Hab (?&?&?).
  split; [lia|done].
Qed.

(** Every match of an iteration lies in the text given and has the text
    of its span in the language of the pattern; the matches follow one
    another. *)
Lemma finditer_from_spec r : ∀ fuel pos prev rest,
  in_order pos (finditer_from U fuel r pos prev rest) ∧
  ∀ m, m ∈ finditer_from U fuel r pos prev rest →
    ∃ pre cs post,
      rest = pre ++ cs ++ post ∧ m_start m = pos + length pre ∧
      m_end m = m_start m + length cs ∧ den r cs.
Proof.
  induction fuel as [|fuel IH]; intros pos prev rest; cbn [finditer_from].
  - split; [done|]. by intros m Hm%elem_of_nil.
  - destruct (scan U r pos prev rest) as [m0|] eqn:E;
      [|split; [done|by intros m Hm%elem_of_nil]].
    destruct (scan_spec _ _ _ _ _ E) as (skip & cs & Hrest & Hs & He & Hp & Hd).
    set (e := m_after m0) in *.
    set (next := if m_start m0 <? m_end m0 then _ else _).
    assert ((∃ n' p' r' pre',
               ms_rest e = pre' ++ r' ∧ n' = ms_pos e + length pre' ∧
               next = finditer_from U fuel r n' p' r') ∨ next = []) as Hnext.
    { unfold next. destruct (m_start m0 <? m_end m0).
      - left. exists (ms_pos e), (ms_prev e), (ms_rest e), [].
        simpl. by rewrite Nat.add_0_r.
      - destruct (ms_rest e) as [|c t]; [by right|].
        left. exists (S (ms_pos e)), (Some c), t, [c].
        simpl. repeat split; [lia]. }
    clearbody next.
    destruct Hnext as [(n' & p' & r' & pre' & Hr' & Hn' & ->)| ->].
    + destruct (IH n' p' r') as [IHo IHm]. split.
      * simpl. split; [lia|]. split; [lia|].
        eapply in_order_weaken; [|exact IHo]. lia.
      * intros m [->|Hm]%elem_of_cons.
        -- exists skip, cs, (ms_rest e). done.
        -- apply IHm in Hm as (pre & cs' & post & -> & Hs' & He' & Hd').
           exists (skip ++ cs ++ pre' ++ pre), cs', post.
           split; [rewrite Hrest, Hr'; by rewrite <- !app_assoc|].
           split; [|done]. rewrite Hs', Hn', Hp, He, Hs, !length_app. lia.
    + split; [simpl; lia|].
      intros m [->|Hm]%elem_of_cons; [|by apply elem_of_nil in Hm].
      exists skip, cs, (ms_rest e). done.
Qed.

Lemma slice_middle (pre cs post : pystr) :
  slice (length pre) (length pre + length cs) (pre ++ cs ++ post) = cs.
Proof.
  unfold slice. rewrite drop_app_length.
  replace (length pre + length cs - length pre) with (length cs) by lia.
  by rewrite take_app_length.
Qed.

(** The text of a match found by [finditer] is in the language of the
    pattern, and the match lies in the subject. *)
Lemma finditer_group0 r s m :
  m ∈ finditer U r s →
  den r (group0 s m) ∧ m_start m ≤ m_end m ∧ m_end m ≤ length s ∧
  length (group0 s m) = m_end m - m_start m.
Proof.
  intros Hm. unfold finditer in Hm.
  apply (proj2 (finditer_from_spec r _ _ _ _)) in Hm
    as (pre & cs & post & -> & Hs & He & Hd).
  simpl in Hs. unfold group0. rewrite He, Hs, slice_middle.
  split; [done|]. rewrite !length_app. lia.
Qed.

Lemma in_order_filter (P : rmatch_obj → Prop) `{∀ m, Decision (P m)}
  (ms : list rmatch_obj) : ∀ from,
  in_order from ms → in_order from (filter P ms).
Proof.
  induction ms as [|m ms IH]; intros from; [done|]. simpl.
  intros (H1 & H2 & H3). rewrite filter_cons. case_decide.
  - simpl. repeat split; [done..|]. by apply IH.
  - apply IH. eapply in_order_weaken; [|done]. lia.
Qed.

Lemma NUM_RE_classes : classes (number_char U) (NUM_RE U).
Proof.
  unfold number_char.
  cbv [NUM_RE cats opt times star plus lit digit classes].
  repeat split; intros c Hc; try (by left);
    apply N.eqb_eq in Hc; subst; auto.
Qed.

(** X11: every token the tokenizer returns is a text of at least one
    character, each of them a decimal digit, a minus sign, a dot or a
    comma. *)
Theorem tokens_are_numeric (line tok : pystr) :
  tok ∈ extract_numbers_ignoring_percent_and_codes U line →
  tok ≠ [] ∧ Forall (number_char U) tok.
Proof.
  unfold extract_numbers_ignoring_percent_and_codes, kept_numbers.
  intros (m & -> & Hm)%list_elem_of_fmap.
  apply list_elem_of_filter in Hm as [_ Hm].
  apply finditer_group0 in Hm as (Hd & _).
  split.
  - apply den_minlen in Hd. change (minlen (NUM_RE U)) with 1 in Hd.
    intros E. rewrite E in Hd. simpl in Hd. lia.
  - eapply den_classes; [apply NUM_RE_classes|done].
Qed.

(** X12: the matches the tokenizer keeps come in the order of the line
    and do not overlap; each lies within the line and is not empty. *)
Theorem tokens_in_line_order (line : pystr) :
  in_order 0 (kept_numbers U line) ∧
  ∀ m, m ∈ kept_numbers U line →
       m_start m < m_end m ∧ m_end m ≤ length line.
Proof.
  unfold kept_numbers. split.
  - apply in_order_filter. unfold finditer.
    apply (proj1 (finditer_from_spec _ _ _ _ _)).
  - intros m Hm. apply list_elem_of_filter in Hm as [_ Hm].
    apply finditer_group0 in Hm as (Hd & H1 & H2 & H3).
    apply den_minlen in Hd. change (minlen (NUM_RE U)) with 1 in Hd. lia.
Qed.

End Spans.

(** * Worked examples: sanitized lines, descriptions and tokens *)

Definition linha_datas : pystr :=
  py "Consumo  01/02/2024 a 12/2024   10/01 - 09/02 x 3/4 100,00".

Lemma sanitized_line_words_witness :
  u_isspace latin_db (ch " ") = true ∧
  sanitize_line_for_numbers latin_db linha_datas = py "Consumo a x 100,00" ∧
  ∃ words,
    sanitize_line_for_numbers latin_db linha_datas = join (py " ") words ∧
    Forall (is_word_of latin_db linha_datas) words.
Proof.
  assert (u_isspace latin_db (ch " ") = true) as H by (vm_compute; reflexivity).
  split; [exact H|]. split; [vm_compute; reflexivity|].
  exact (sanitized_line_words latin_db linha_datas H).
Defined.

Lemma split_bandeira_trimmed_witness :
  split_bandeira_descricao latin_db (py " Vermelha  Patamar 1 Amarela ") =
    (py "Vermelha Patamar 1", py "Amarela") ∧
  trimmed latin_db (py "Vermelha Patamar 1") ∧ trimmed latin_db (py "Amarela") ∧
  (py "Vermelha Patamar 1" = [] → py "Amarela" = []).
Proof.
  assert (split_bandeira_descricao latin_db (py " Vermelha  Patamar 1 Amarela ") =
          (py "Vermelha Patamar 1", py "Amarela")) as E
    by (vm_compute; reflexivity).
  split; [exact E|].
  pose proof (split_bandeira_trimmed latin_db
                (py " Vermelha  Patamar 1 Amarela ")) as H.
  rewrite E in H. destruct H as (H1 & H2 & H3 & _).
  split; [exact H1|]. split; [exact H2|exact H3].
Defined.

Lemma tokens_are_numeric_witness :
  py "100" ∈ extract_numbers_ignoring_percent_and_codes latin_db linha_tokens ∧
  py "100" ≠ [] ∧ Forall (number_char latin_db) (py "100").
Proof.
  assert (py "100" ∈
          extract_numbers_ignoring_percent_and_codes latin_db linha_tokens) as H.
  { replace (extract_numbers_ignoring_percent_and_codes latin_db linha_tokens)
      with [py "100"] by (vm_compute; reflexivity).
    by apply list_elem_of_singleton. }
  split; [exact H|].
  exact (tokens_are_numeric latin_db linha_tokens (py "100") H).
Defined.

Lemma tokens_in_line_order_witness :
  ∃ m,
    m ∈ kept_numbers latin_db linha_tokens ∧
    m_start m = 8 ∧ m_end m = 11 ∧
    in_order 0 (kept_numbers latin_db linha_tokens) ∧
    m_start m < m_end m ∧ m_end m ≤ length linha_tokens.
Proof.
  assert (∃ m ms, kept_numbers latin_db linha_tokens = m :: ms ∧
                  m_start m = 8 ∧ m_end m = 11) as (m & ms & E & Hs & He).
  { destruct (kept_numbers latin_db linha_tokens) as [|m ms] eqn:E;
      [vm_compute in E; discriminate|].
    exists m, ms. split; [reflexivity|].
    vm_compute in E. injection E as <- _. split; reflexivity. }
  assert (m ∈ kept_numbers latin_db linha_tokens) as Hin
    by (rewrite E; apply elem_of_cons; by left).
  destruct (tokens_in_line_order latin_db linha_tokens) as [Ho Hm].
  exists m. split; [exact Hin|]. split; [exact Hs|]. split; [exact He|].
  split; [exact Ho|]. exact (Hm m Hin).
Defined.

(** * The texts the patterns capture *)

(** A due date as the header pattern captures it, a total, a balance. *)
Definition date_char (U : unicode_db) (c : char) : Prop :=
  u_isdecimal U c = true ∨ c = ch "/".

Definition amount_char (U : unicode_db) (c : char) : Prop :=
  u_isdecimal U c = true ∨ c = ch "." ∨ c = ch ",".

Definition digits_or_zero (U : unicode_db) (v : pystr) : Prop :=
  v = py "0" ∨ (v ≠ [] ∧ Forall (fun c => u_isdecimal U c = true) v).

Section Captures.

Variable U : unicode_db.

(** A position of the subject [s]. *)
Definition at_subject (s : pystr) (st : mstate) : Prop :=
  ms_rest st = drop (ms_pos st) s.

Lemma moved_at_subject s st cs st' :
  at_subject s st → moved st cs st' →
  at_subject s st' ∧ slice (ms_pos st) (ms_pos st') s = cs.
Proof.
  unfold at_subject, slice. intros Hst [H1 H2]. split.
  - rewrite H2, <- drop_drop, <- Hst, H1. by rewrite drop_app_length.
  - rewrite H2, <- Hst, H1.
    replace (ms_pos st + length cs - ms_pos st) with (length cs) by lia.
    by rewrite take_app_length.
Qed.

Lemma rmatch_cats_last l g :
  last l = Some g → ∀ k st e,
  rmatch U (cats l) k st = Some e →
  ∃ cs st1, moved st cs st1 ∧ rmatch U g k st1 = Some e.
Proof.
  induction l as [|r [|r2 l] IH]; intros Hlast k st e; [done| |].
  - injection Hlast as <-. simpl. intros H. exists [], st.
    split; [apply moved_refl|done].
  - change (cats (r :: r2 :: l)) with (Cat r (cats (r2 :: l))).
    cbn [rmatch]. intros H.
    apply rmatch_sound in H as (cs & st' & Hm & _ & H).
    apply IH in H as (cs2 & st1 & Hm2 & H); [|done].
    exists (cs ++ cs2), st1. split; [by eapply moved_trans|done].
Qed.

(** The text of a group that closes the pattern. *)
Lemma closing_group_text l n b s st m :
  last l = Some (Grp n b) → at_subject s st →
  match_at U (cats l) st = Some m →
  den b (group n s m).
Proof.
  intros Hlast Hst. unfold match_at.
  destruct (rmatch U (cats l) Some st) as [e|] eqn:E; [|done].
  intros [= <-]. unfold group. simpl.
  apply (rmatch_cats_last _ _ Hlast) in E as (cs & st1 & Hm & E).
  cbn [rmatch] in E.
  apply rmatch_sound in E as (cs2 & st2 & Hm2 & Hd & [= <-]). simpl.
  rewrite Nat.eqb_refl.
  destruct (moved_at_subject s st cs st1 Hst Hm) as [Hst1 _].
  destruct (moved_at_subject s st1 cs2 st2 Hst1 Hm2) as [_ ->]. done.
Qed.

Lemma search_closing_group l n b s m :
  last l = Some (Grp n b) →
  search U (cats l) s = Some m → den b (group n s m).
Proof.
  intros Hlast H. unfold search in H.
  apply scan_found in H as (skip & prev' & rest' & -> & H).
  eapply closing_group_text; [done| |done].
  unfold at_subject. simpl. by rewrite drop_app_length.
Qed.

Lemma saldo_of_digits label texto :
  digits_or_zero U (saldo_of U (saldo_re U label) texto).
Proof.
  unfold saldo_of.
  destruct (search U (saldo_re U label) texto) as [m|] eqn:E; [|by left].
  right. unfold saldo_re in E.
  apply (search_closing_group _ 1 (plus (digit U))) in E.
  - split.
    + apply den_minlen in E. change (minlen (plus (digit U))) with 1 in E.
      intros H. rewrite H in E. simpl in E. lia.
    + eapply (den_classes (fun c => u_isdecimal U c = true)); [|exact E].
      simpl. done.
  - rewrite last_app. reflexivity.
Qed.

(** X13: each of the three balances of a document is the text 0 or a
    non-empty text of decimal digits. *)
Theorem balances_are_digits mes nome cod texto linhas :
  let doc := document_fields U mes nome cod texto linhas in
  digits_or_zero U (saldo_mes doc) ∧
  digits_or_zero U (saldo_acumulado doc) ∧
  digits_or_zero U (saldo_expirar doc).
Proof. simpl. repeat split; apply saldo_of_digits. Qed.

(** The whole match under a group that wraps the pattern. *)
Lemma wrapped_group_text n r s m :
  m ∈ finditer U (Grp n r) s → group n s m = group0 s m.
Proof.
  intros Hm. unfold finditer in Hm.
  assert (∀ fuel pos prev rest m,
            m ∈ finditer_from U fuel (Grp n r) pos prev rest →
            cap_lookup n (m_caps m) = Some (m_start m, m_end m)) as Hall.
  { clear. induction fuel as [|fuel IH]; intros pos prev rest m;
      cbn [finditer_from]; [by intros ?%elem_of_nil|].
    destruct (scan U (Grp n r) pos prev rest) as [m0|] eqn:E;
      [|by intros ?%elem_of_nil].
    intros [->|Hm]%elem_of_cons.
    - apply scan_found in E as (skip & prev' & rest' & _ & E).
      unfold match_at in E. cbn [rmatch] in E.
      destruct (rmatch U r _ _) as [e|] eqn:Er; [|done].
      injection E as <-. simpl.
      apply rmatch_sound in Er as (cs & st' & _ & _ & [= <-]). simpl.
      by rewrite Nat.eqb_refl.
    - destruct (m_start m0 <? m_end m0); [by eapply IH|].
      destruct (ms_rest (m_after m0)); [by apply elem_of_nil in Hm|].
      by eapply IH. }
  unfold group, group0. by rewrite (Hall _ _ _ _ _ Hm).
Qed.

Lemma findall1_den r s x : x ∈ findall1 U (Grp 1 r) s → den r x.
Proof.
  unfold findall1. intros (m & -> & Hm)%list_elem_of_fmap.
  rewrite (wrapped_group_text _ _ _ _ Hm).
  by apply finditer_group0 in Hm as [Hd _].
Qed.

Lemma header_scan_from linhas : ∀ v t,
  (fst (header_scan U linhas v t) = v ∨
   ∃ linha, fst (header_scan U linhas v t) ∈
            findall1 U (Grp 1 (HDR_DATE_RE U)) linha) ∧
  (snd (header_scan U linhas v t) = t ∨
   ∃ linha, snd (header_scan U linhas v t) ∈
            findall1 U (Grp 1 (HDR_VALUE_RE U)) linha).
Proof.
  induction linhas as [|linha rest IH]; intros v t; simpl; [by split; left|].
  destruct (is_header_line U linha); [|apply IH]. simpl. split.
  - destruct (last (findall1 U (Grp 1 (HDR_DATE_RE U)) linha)) as [d|] eqn:E;
      [|by left].
    right. exists linha. simpl. apply last_Some in E as [l' ->].
    apply elem_of_app. right. by apply list_elem_of_singleton.
  - destruct (last (findall1 U (Grp 1 (HDR_VALUE_RE U)) linha)) as [d|] eqn:E;
      [|by left].
    right. exists linha. simpl. apply last_Some in E as [l' ->].
    apply elem_of_app. right. by apply list_elem_of_singleton.
Qed.

(** X14: the due date of a document is N/A or a text of exactly ten
    characters, digits and slashes; its total is 0,00 or a text of at
    least four characters, digits, dots and commas. *)
Theorem header_field_shapes linhas :
  (fst (header_fields U linhas) = py "N/A" ∨
   (length (fst (header_fields U linhas)) = 10 ∧
    Forall (date_char U) (fst (header_fields U linhas)))) ∧
  (snd (header_fields U linhas) = py "0,00" ∨
   (4 ≤ length (snd (header_fields U linhas)) ∧
    Forall (amount_char U) (snd (header_fields U linhas)))).
Proof.
  unfold header_fields.
  destruct (header_scan_from (take 25 linhas) (py "N/A") (py "0,00"))
    as [[Hv|[l Hv]] [Ht|[l' Ht]]].
  - by split; left.
  - split; [by left|right]. apply findall1_den in Ht. split.
    + apply den_minlen in Ht. exact Ht.
    + eapply den_classes; [|exact Ht]. unfold amount_char.
      cbv [HDR_VALUE_RE cats times star lit digit classes].
      repeat split; intros c Hc; try (by left);
        apply N.eqb_eq in Hc; subst; auto.
  - split; [right|by left]. apply findall1_den in Hv. split.
    + apply Nat.le_antisymm.
      * by apply (den_maxlen (HDR_DATE_RE U)).
      * by apply (den_minlen (HDR_DATE_RE U)).
    + eapply den_classes; [|exact Hv]. unfold date_char.
      cbv [HDR_DATE_RE cats times lit digit classes].
      repeat split; intros c Hc; try (by left);
        apply N.eqb_eq in Hc; subst; auto.
  - split; right.
    + apply findall1_den in Hv. split.
      * apply Nat.le_antisymm.
        -- by apply (den_maxlen (HDR_DATE_RE U)).
        -- by apply (den_minlen (HDR_DATE_RE U)).
      * eapply den_classes; [|exact Hv]. unfold date_char.
        cbv [HDR_DATE_RE cats times lit digit classes].
        repeat split; intros c Hc; try (by left);
          apply N.eqb_eq in Hc; subst; auto.
    + apply findall1_den in Ht. split.
      * apply den_minlen in Ht. exact Ht.
      * eapply den_classes; [|exact Ht]. unfold amount_char.
        cbv [HDR_VALUE_RE cats times star lit digit classes].
        repeat split; intros c Hc; try (by left);
          apply N.eqb_eq in Hc; subst; auto.
Qed.

End Captures.

(** * The rows sent to the table

    [to_supabase_rows] renames the keys of every row and adds its
    fingerprint.  A value of the new dictionary is [r.get(key)], which is
    [None] when the row lacks the key. *)

Definition to_supabase_row (U : unicode_db) (r : gmap string pystr)
  : option (gmap string (option pystr)) :=
  rh ← make_row_hash U r;
  Some (list_to_map
    [("mes_ref", r !! "Mês Ref");
     ("cliente", r !! "Cliente");
     ("cod_cliente", r !! "Cód Cliente");
     ("vencimento", r !! "Vencimento");
     ("total_pagar", r !! "Total a Pagar (R$)");
     ("item_fatura", r !! "Itens da fatura");
     ("unid", r !! "Unid");
     ("quantidade", r !! "Quantidade");
     ("preco_unit_com_trib", r !! "Preço Unit com Trib(RS)");
     ("valor_rs", r !! "Valor R$");
     ("pis_confins", r !! "PIS/CONFINS(R$)");
     ("base_calc_icms", r !! "BASE CALC ICMS(R$)");
     ("aliquota_icms", r !! "Alíquota ICMS(%)");
     ("icms_valor", r !! "ICMS (R$)");
     ("tarifa_unit", r !! "TARIFA UNIT.(R$)");
     ("bandeira_desc_1", r !! "Bandeira Tarifária 1 (descrição)");
     ("bandeira_desc_2", r !! "Bandeira Tarifária 2 (descrição)");
     ("saldo_mes", r !! "Saldo Mes (kWh)");
     ("saldo_acumulado", r !! "Saldo Acumulado (kWh)");
     ("saldo_expirar", r !! "Saldo a Expirar (kWh)");
     ("row_hash", Some rh)]).

(** [to_supabase_rows]; [None] is the [UnicodeEncodeError] of the first
    row that has no fingerprint, which leaves the function with no list. *)
Fixpoint to_supabase_rows (U : unicode_db) (rows : list (gmap string pystr))
  : option (list (gmap string (option pystr))) :=
  match rows with
  | [] => Some []
  | r :: rest =>
    row ← to_supabase_row U r;
    out ← to_supabase_rows U rest;
    Some (row :: out)
  end.

(** The columns that are copied from a row, each with the key it is
    copied from. *)
Definition copied_columns : list (string * string) :=
  [("mes_ref", "Mês Ref"); ("cliente", "Cliente");
   ("cod_cliente", "Cód Cliente"); ("vencimento", "Vencimento");
   ("total_pagar", "Total a Pagar (R$)"); ("item_fatura", "Itens da fatura");
   ("unid", "Unid"); ("quantidade", "Quantidade");
   ("preco_unit_com_trib", "Preço Unit com Trib(RS)");
   ("valor_rs", "Valor R$"); ("pis_confins", "PIS/CONFINS(R$)");
   ("base_calc_icms", "BASE CALC ICMS(R$)");
   ("aliquota_icms", "Alíquota ICMS(%)"); ("icms_valor", "ICMS (R$)");
   ("tarifa_unit", "TARIFA UNIT.(R$)");
   ("bandeira_desc_1", "Bandeira Tarifária 1 (descrição)");
   ("bandeira_desc_2", "Bandeira Tarifária 2 (descrição)");
   ("saldo_mes", "Saldo Mes (kWh)");
   ("saldo_acumulado", "Saldo Acumulado (kWh)");
   ("saldo_expirar", "Saldo a Expirar (kWh)")].

(** What a row of the table is to the row [r] it was made from. *)
Definition table_row_of (U : unicode_db) (r : gmap string pystr)
  (o : gmap string (option pystr)) : Prop :=
  dom o = list_to_set ("row_hash" :: copied_columns.*1) ∧
  o !! "row_hash" = Some (make_row_hash U r) ∧
  ∀ c k, (c, k) ∈ copied_columns → o !! c = Some (r !! k).

Section Table.

Variable U : unicode_db.
Variable raises : region → nat → option pystr.
Variable stdout : pystr → option pystr.

Lemma to_supabase_row_spec r o :
  to_supabase_row U r = Some o → table_row_of U r o.
Proof.
  unfold to_supabase_row. intros H.
  apply bind_Some in H as (rh & Hrh & H). apply (inj Some) in H.
  rewrite <- H. split; [|split].
  - rewrite dom_list_to_map_L. reflexivity.
  - rewrite Hrh. reflexivity.
  - intros c k Hin. unfold copied_columns in Hin.
    repeat (apply elem_of_cons in Hin as [Hin|Hin];
            [injection Hin as -> ->; reflexivity|]).
    by apply elem_of_nil in Hin.
Qed.

(** X16: when [to_supabase_rows] returns, it returns one table row for
    each row it was given, in the same order; a table row has the
    fingerprint of its row under [row_hash], under each of the twenty
    other columns the value the row has under the corresponding key (or
    [None] when it has none), and no other column. *)
Theorem to_supabase_rows_columns rows out :
  to_supabase_rows U rows = Some out →
  Forall2 (table_row_of U) rows out.
Proof.
  revert out. induction rows as [|r rest IH]; intros out H; simpl in H.
  - injection H as <-. constructor.
  - apply bind_Some in H as (o & Ho & H).
    apply bind_Some in H as (out' & Hout & H). injection H as <-.
    constructor; [by apply to_supabase_row_spec|by apply IH].
Qed.

Lemma to_supabase_row_hash r o :
  to_supabase_row U r = Some o → is_Some (make_row_hash U r).
Proof.
  unfold to_supabase_row. intros H.
  apply bind_Some in H as (rh & Hrh & _). eauto.
Qed.

Lemma to_supabase_rows_spec_in rows out o :
  to_supabase_rows U rows = Some out → o ∈ out →
  ∃ r, r ∈ rows ∧ table_row_of U r o ∧ is_Some (make_row_hash U r).
Proof.
  revert out. induction rows as [|r rest IH]; intros out H Ho; simpl in H.
  - injection H as <-. by apply elem_of_nil in Ho.
  - apply bind_Some in H as (o' & Ho' & H).
    apply bind_Some in H as (out' & Hout & H). injection H as <-.
    apply elem_of_cons in Ho as [->|Ho].
    + exists r. split; [by apply elem_of_cons; left|]. split.
      * by apply to_supabase_row_spec.
      * by eapply to_supabase_row_hash.
    + destruct (IH out' Hout Ho) as (r' & Hr' & Hs).
      exists r'. split; [by apply elem_of_cons; right|done].
Qed.

(** X17: [to_supabase_rows] returns exactly when every row has a
    fingerprint; a single row without one makes the whole call raise. *)
Theorem to_supabase_rows_defined rows :
  is_Some (to_supabase_rows U rows) ↔
  Forall (fun r => is_Some (make_row_hash U r)) rows.
Proof.
  induction rows as [|r rest IH]; simpl.
  - split; [constructor|eauto].
  - rewrite Forall_cons, <- IH. unfold to_supabase_row.
    destruct (make_row_hash U r) as [rh|]; simpl.
    + destruct (to_supabase_rows U rest); simpl; split.
      * eauto.
      * eauto.
      * intros [? ?]. done.
      * intros [_ [? ?]]. done.
    + split; [intros [? ?]; done|intros [[? ?] _]; done].
Qed.

(** X18: no column of a table row made from a row of the extractor is
    [None]. *)
Theorem extracted_rows_have_no_null pdf mes nome cod rows out o c :
  extrair_dados_fatura_bytes U raises stdout pdf mes nome cod = Done rows →
  to_supabase_rows U rows = Some out →
  o ∈ out → c ∈ "row_hash" :: copied_columns.*1 →
  ∃ v, o !! c = Some (Some v).
Proof.
  intros Hrows Hout Ho Hc.
  destruct (to_supabase_rows_spec_in rows out o Hout Ho)
    as (r & Hr & (_ & Hh & Hcols) & [h Hhash]).
  assert (dom r = list_to_set row_key_names) as Hdom.
  { destruct (extrair_rows U raises stdout
                (fun _ r => dom r = list_to_set row_key_names)
                pdf mes nome cod rows) as [->|(pages & texto & _ & _ & HF)];
      [intros; by eapply energy_row_keys|intros; by eapply fee_row_keys
      |done| |].
    - by apply elem_of_nil in Hr.
    - rewrite Forall_forall in HF. by apply HF. }
  apply elem_of_cons in Hc as [->|Hc].
  - exists h. by rewrite Hh, Hhash.
  - apply list_elem_of_fmap in Hc as ([c' k] & -> & Hin). simpl.
    rewrite (Hcols c' k Hin).
    assert (k ∈ row_key_names) as Hk.
    { unfold copied_columns in Hin.
      repeat (apply elem_of_cons in Hin as [Hin|Hin];
              [injection Hin as -> ->; vm_compute;
               repeat first [by apply list_elem_of_here
                            |apply list_elem_of_further]|]).
      by apply elem_of_nil in Hin. }
    assert (k ∈ dom r) as Hkd by (rewrite Hdom; by apply elem_of_list_to_set).
    apply elem_of_dom in Hkd as [v Hv]. exists v. by rewrite Hv.
Qed.

End Table.

(** * The upsert

    [supabase_upsert] posts the rows in batches.  [requests.post] either
    raises (no connection, time out) or gives a response, of which the
    function reads the status code and the text. *)

Inductive post_result : Type :=
| PostError (e : pystr)
| Response (status_code : nat) (text : pystr).

(** [s.rstrip(c)] for a one-character [c] *)
Fixpoint rstrip_char (c : char) (s : pystr) : pystr :=
  match s with
  | [] => []
  | x :: t =>
    match rstrip_char c t with
    | [] => if (x =? c)%N then [] else [x]
    | t' => x :: t'
    end
  end.

(** [range(0, stop, step)] for a positive [step]; an index moves on by at
    least one, so that [stop] turns are enough. *)
Fixpoint range_from (fuel i stop step : nat) : list nat :=
  match fuel with
  | O => []
  | S fuel' =>
    if i <? stop then i :: range_from fuel' (i + step) stop step else []
  end.

(** [range(0, stop, step)]; [None] is the [ValueError] of a zero step. *)
Definition range0 (stop : nat) (step : Z) : option (list nat) :=
  if (step =? 0)%Z then None
  else if (step <? 0)%Z then Some []
  else Some (range_from stop 0 stop (Z.to_nat step)).

Section Upsert.

(** The rows are dictionaries; the function reads only their number. *)
Variable row : Type.

(** [sys.stdout], by what [print] does with each text. *)
Variable stdout : pystr → option pystr.

(** [post n batch]: what the call number [n] of [requests.post] gives,
    when it is made with [batch]. *)
Variable post : nat → list row → post_result.

Definition say (verbose : bool) (s : pystr) : option pystr :=
  if verbose then stdout s else None.

(** Lines 414-429, the body of the loop for the index [i]: the state is
    [total] and the batches posted so far. *)
Definition upsert_batch (endpoint : pystr) (rows : list row)
  (batch_size : nat) (verbose : bool) (i total : nat)
  (posts : list (list row)) : outcome nat * list (list row) :=
  let batch := take batch_size (drop i rows) in
  match say verbose
          (py "[SUPA] POST " ++ endpoint ++ py " batch=" ++
           decimal (length batch) ++ py " (" ++ decimal (i + 1) ++ py "-" ++
           decimal (i + length batch) ++ py " de " ++
           decimal (length rows) ++ py ")") with
  | Some e => (Raised e, posts)
  | None =>
    match post (length posts) batch with
    | PostError e => (Raised e, posts ++ [batch])
    | Response status_code text =>
      match say verbose (py "[SUPA] status=" ++ decimal status_code) with
      | Some e => (Raised e, posts ++ [batch])
      | None =>
        if (200 <=? status_code) && (status_code <? 300)
        then (Done (total + length batch), posts ++ [batch])
        else (Raised (py "Falha no upsert (HTTP " ++ decimal status_code ++
                      py "): " ++ take 800 text),
              posts ++ [batch])
      end
    end
  end.

Fixpoint upsert_loop (endpoint : pystr) (rows : list row) (batch_size : nat)
  (verbose : bool) (indices : list nat) (total : nat)
  (posts : list (list row)) : outcome nat * list (list row) :=
  match indices with
  | [] => (Done total, posts)
  | i :: rest =>
    match upsert_batch endpoint rows batch_size verbose i total posts with
    | (Done total', posts') =>
      upsert_loop endpoint rows batch_size verbose rest total' posts'
    | (Raised e, posts') => (Raised e, posts')
    end
  end.

(** [supabase_upsert]: what it returns or raises, and the batches it has
    posted by then. *)
Definition supabase_upsert (table : pystr) (rows : list row) (url key : pystr)
  (batch_size : Z) (verbose : bool) : outcome nat * list (list row) :=
  let endpoint := rstrip_char (ch "/") url ++ py "/rest/v1/" ++ table in
  match range0 (length rows) batch_size with
  | None => (Raised (py "range() arg 3 must not be zero"), [])
  | Some indices =>
    upsert_loop endpoint rows (Z.to_nat batch_size) verbose indices 0 []
  end.

(** The server accepts every batch. *)
Definition accepts_all : Prop :=
  ∀ n batch, ∃ status_code text,
    post n batch = Response status_code text ∧ 200 ≤ status_code < 300.

(** Nothing raises in [print]: the function is not verbose, or the stream
    takes every text. *)
Definition prints_all (verbose : bool) : Prop :=
  verbose = false ∨ ∀ s, stdout s = None.

(** A batch: not empty, and of at most [batch_size] rows. *)
Definition batch_of (batch_size : Z) (batch : list row) : Prop :=
  1 ≤ length batch ∧ (Z.of_nat (length batch) ≤ batch_size)%Z.

Lemma range_from_batches (rows : list row) (step : nat) :
  1 ≤ step → ∀ fuel i,
  length rows ≤ fuel + i →
  concat (map (fun j => take step (drop j rows))
              (range_from fuel i (length rows) step)) = drop i rows.
Proof.
  intros Hstep. induction fuel as [|fuel IH]; intros i Hfuel.
  - simpl. by rewrite drop_ge by lia.
  - simpl. destruct (Nat.ltb_spec i (length rows)) as [Hi|Hi].
    + simpl. rewrite IH by lia.
      rewrite <- drop_drop. apply take_drop.
    + simpl. by rewrite drop_ge by lia.
Qed.

Lemma range_from_below (stop step : nat) : ∀ fuel i,
  Forall (fun j => j < stop) (range_from fuel i stop step).
Proof.
  induction fuel as [|fuel IH]; intros i; simpl; [constructor|].
  destruct (Nat.ltb_spec i stop); [|constructor].
  constructor; [done|apply IH].
Qed.

Lemma say_prints_all verbose s : prints_all verbose → say verbose s = None.
Proof. intros [->|H]; [done|]. unfold say. destruct verbose; auto. Qed.

(** What the loop has posted is what it had posted before followed by the
    batches of a first part of its indices, all of them when it returns. *)
Lemma upsert_loop_posts endpoint rows b verbose : ∀ indices total posts,
  let run := upsert_loop endpoint rows b verbose indices total posts in
  (∃ done_ rest,
     indices = done_ ++ rest ∧
     snd run = posts ++ map (fun j => take b (drop j rows)) done_ ∧
     (∀ total', fst run = Done total' →
        rest = [] ∧
        total' = total +
                 length (concat (map (fun j => take b (drop j rows)) done_)))).
Proof.
  induction indices as [|i indices IH]; intros total posts; simpl.
  - exists [], []. split; [done|]. split; [by rewrite app_nil_r|].
    intros total' [= <-]. simpl. split; [done|lia].
  - unfold upsert_batch.
    set (batch := take b (drop i rows)).
    destruct (say verbose _) as [e|].
    { exists [], (i :: indices). split; [done|].
      split; [by rewrite app_nil_r|]. intros ? [=]. }
    destruct (post (length posts) batch) as [e|code text].
    { exists [i], indices. split; [done|]. split; [done|]. intros ? [=]. }
    destruct (say verbose _) as [e|].
    { exists [i], indices. split; [done|]. split; [done|]. intros ? [=]. }
    destruct ((200 <=? code) && (code <? 300)).
    + destruct (IH (total + length batch) (posts ++ [batch]))
        as (done_ & rest & -> & Hposts & Hdone).
      exists (i :: done_), rest. split; [done|]. split.
      * rewrite Hposts. simpl. by rewrite <- app_assoc.
      * intros total' Ht. destruct (Hdone total' Ht) as [-> ->].
        split; [done|]. simpl. rewrite length_app. fold batch. lia.
    + exists [i], indices. split; [done|]. split; [done|]. intros ? [=].
Qed.

Lemma upsert_loop_accepted endpoint rows b verbose :
  accepts_all → prints_all verbose → ∀ indices total posts,
  upsert_loop endpoint rows b verbose indices total posts =
  (Done (total +
         length (concat (map (fun j => take b (drop j rows)) indices))),
   posts ++ map (fun j => take b (drop j rows)) indices).
Proof.
  intros Hacc Hpr. induction indices as [|i indices IH]; intros total posts.
  - simpl. by rewrite Nat.add_0_r, app_nil_r.
  - simpl. unfold upsert_batch.
    set (batch := take b (drop i rows)).
    rewrite say_prints_all by done.
    destruct (Hacc (length posts) batch) as (code & text & -> & Hcode).
    rewrite say_prints_all by done.
    replace ((200 <=? code) && (code <? 300)) with true.
    + rewrite IH. rewrite length_app, <- app_assoc. fold batch.
      f_equal. f_equal. lia.
    + symmetry. apply andb_true_iff.
      split; [apply Nat.leb_le|apply Nat.ltb_lt]; lia.
Qed.

(** X19: whatever the server and the standard output do, the batches the
    function has posted are, in order, consecutive parts of the rows,
    starting with the first row, each batch with at least one row and at
    most [batch_size]; and when the function returns for a positive
    [batch_size], it has posted all the rows and returns their number. *)
Theorem supabase_upsert_posts_in_order table rows url key batch_size verbose :
  let run := supabase_upsert table rows url key batch_size verbose in
  (∃ rest, rows = concat (snd run) ++ rest) ∧
  Forall (batch_of batch_size) (snd run) ∧
  (∀ total, (0 < batch_size)%Z → fst run = Done total →
     concat (snd run) = rows ∧ total = length rows).
Proof.
  unfold supabase_upsert, range0.
  destruct (Z.eqb_spec batch_size 0) as [->|Hz]; simpl.
  { split; [by exists rows|]. split; [constructor|]. intros; lia. }
  destruct (Z.ltb_spec batch_size 0) as [Hneg|Hpos]; simpl.
  { split; [by exists rows|]. split; [constructor|]. intros; lia. }
  set (b := Z.to_nat batch_size). assert (1 ≤ b) as Hb by lia.
  set (endpoint := rstrip_char _ _ ++ _).
  set (indices := range_from _ _ _ _).
  destruct (upsert_loop_posts endpoint rows b verbose indices 0 [])
    as (done_ & rest & Hind & Hposts & Hdone).
  simpl in Hposts. rewrite Hposts.
  pose proof (range_from_batches rows b Hb (length rows) 0 ltac:(lia)) as Hall.
  fold indices in Hall. rewrite Hind, map_app, concat_app in Hall.
  simpl in Hall. split; [|split].
  - eexists. symmetry. exact Hall.
  - pose proof (range_from_below (length rows) b (length rows) 0) as Hlt.
    fold indices in Hlt. rewrite Hind in Hlt.
    apply Forall_app in Hlt as [Hlt _].
    apply Forall_fmap. eapply Forall_impl; [exact Hlt|].
    intros j Hj. unfold batch_of. simpl.
    rewrite length_take, length_drop. subst b. simpl in Hj. lia.
  - intros total _ Ht. destruct (Hdone total Ht) as [-> ->].
    simpl in Hall. rewrite app_nil_r in Hall. rewrite Hall. done.
Qed.

(** X20: a [batch_size] of zero makes the function raise before anything
    is posted, and a negative one makes it return 0 with nothing posted,
    however many rows there are. *)
Theorem supabase_upsert_without_batches table rows url key batch_size verbose :
  (batch_size ≤ 0)%Z →
  supabase_upsert table rows url key batch_size verbose =
  (if (batch_size =? 0)%Z
   then Raised (py "range() arg 3 must not be zero")
   else Done 0, []).
Proof.
  intros H. unfold supabase_upsert, range0.
  destruct (Z.eqb_spec batch_size 0); [done|].
  destruct (Z.ltb_spec batch_size 0); [done|lia].
Qed.

(** X21: when the server accepts every batch and no [print] raises, the
    function returns the number of rows, for every positive
    [batch_size], and what it has posted is all the rows. *)
Theorem supabase_upsert_accepted table rows url key batch_size verbose :
  (0 < batch_size)%Z → accepts_all → prints_all verbose →
  ∃ posts,
    supabase_upsert table rows url key batch_size verbose =
      (Done (length rows), posts) ∧
    concat posts = rows.
Proof.
  intros Hpos Hacc Hpr. unfold supabase_upsert, range0.
  destruct (Z.eqb_spec batch_size 0); [lia|].
  destruct (Z.ltb_spec batch_size 0); [lia|].
  rewrite upsert_loop_accepted by done. simpl.
  rewrite range_from_batches by lia. rewrite drop_0.
  eexists. split; [reflexivity|].
  rewrite range_from_batches by lia. by rewrite drop_0.
Qed.

End Upsert.

(** * Worked examples: the table *)

Lemma to_supabase_rows_columns_witness :
  ∃ out,
    to_supabase_rows latin_db [row_plain] = Some out ∧
    Forall2 (table_row_of latin_db) [row_plain] out.
Proof.
  assert (∃ h, make_row_hash latin_db row_plain = Some h) as [h Hh]
    by (vm_compute; eauto).
  assert (∃ out, to_supabase_rows latin_db [row_plain] = Some out)
    as [out Hout].
  { cbn [to_supabase_rows]. unfold to_supabase_row. rewrite Hh.
    cbn [mbind option_bind]. eauto. }
  exists out. split; [exact Hout|].
  exact (to_supabase_rows_columns latin_db [row_plain] out Hout).
Defined.

Lemma to_supabase_rows_defined_witness :
  make_row_hash latin_db row_surrogate = None ∧
  to_supabase_rows latin_db [row_plain; row_surrogate] = None.
Proof.
  assert (make_row_hash latin_db row_surrogate = None) as Hn
    by (vm_compute; reflexivity).
  split; [exact Hn|].
  destruct (to_supabase_rows latin_db [row_plain; row_surrogate]) as [out|]
    eqn:E; [|reflexivity].
  assert (is_Some (to_supabase_rows latin_db [row_plain; row_surrogate]))
    as Hs by (rewrite E; eauto).
  apply (to_supabase_rows_defined latin_db) in Hs.
  apply Forall_cons in Hs as [_ Hs]. apply Forall_cons in Hs as [[h Hs] _].
  rewrite Hn in Hs. discriminate.
Defined.

Lemma extracted_rows_have_no_null_witness :
  ∃ rows out o,
    extrair_dados_fatura_bytes latin_db no_raise utf8_stdout
      (PdfPages pages_energy_fee) (py "2025-12") (py "ACME") (py "123") =
      Done rows ∧
    to_supabase_rows latin_db rows = Some out ∧
    o ∈ out ∧ "valor_rs" ∈ "row_hash" :: copied_columns.*1 ∧
    ∃ v, o !! "valor_rs" = Some (Some v).
Proof.
  destruct (energy_fee_rows utf8_stdout)
    as (r1 & r2 & _ & _ & Hr1 & Hr2 & Hrows).
  assert (∃ h, make_row_hash latin_db r1 = Some h) as [h1 Hh1].
  { assert (∃ h,
      (r ← energy_row latin_db (doc_of pages_energy_fee) linha_consumo
             (upper latin_db linha_consumo) (energy_desc latin_db linha_consumo)
             (upper latin_db (energy_desc latin_db linha_consumo))
             (energy_values latin_db linha_consumo);
       make_row_hash latin_db r) = Some h) as [h Hh] by (vm_compute; eauto).
    rewrite Hr1 in Hh. by exists h. }
  assert (∃ h, make_row_hash latin_db r2 = Some h) as [h2 Hh2].
  { assert (∃ h,
      (r ← fee_row latin_db (doc_of pages_energy_fee) linha_multa
             (fee_values latin_db linha_multa);
       make_row_hash latin_db r) = Some h) as [h Hh] by (vm_compute; eauto).
    rewrite Hr2 in Hh. by exists h. }
  assert (∃ out o, to_supabase_rows latin_db [r1; r2] = Some out ∧ o ∈ out)
    as (out & o & Hout & Ho).
  { cbn [to_supabase_rows]. unfold to_supabase_row. rewrite Hh1, Hh2.
    cbn [mbind option_bind]. eexists _, _. split; [reflexivity|].
    apply list_elem_of_here. }
  assert ("valor_rs" ∈ "row_hash" :: copied_columns.*1) as Hc
    by (vm_compute;
        repeat first [apply list_elem_of_here|apply list_elem_of_further]).
  exists [r1; r2], out, o. split; [exact Hrows|]. split; [exact Hout|].
  split; [exact Ho|]. split; [exact Hc|].
  exact (extracted_rows_have_no_null latin_db no_raise utf8_stdout _ _ _ _
           _ out o "valor_rs" Hrows Hout Ho Hc).
Defined.

(** A server that accepts every batch, and one that refuses the second. *)
Definition post_created : nat → list nat → post_result :=
  fun _ _ => Response 201 [].

Definition post_refuses_second : nat → list nat → post_result :=
  fun n _ => if n =? 1 then Response 500 (py "no") else Response 201 [].

Lemma supabase_upsert_posts_in_order_witness :
  supabase_upsert nat utf8_stdout post_created (py "itens") [1; 2; 3]
    (py "https://x.supabase.co/") (py "k") 2 true =
    (Done 3, [[1; 2]; [3]]) ∧
  supabase_upsert nat utf8_stdout post_refuses_second (py "itens")
    [1; 2; 3; 4; 5] (py "https://x.supabase.co/") (py "k") 2 true =
    (Raised (py "Falha no upsert (HTTP 500): no"), [[1; 2]; [3; 4]]) ∧
  concat (snd (supabase_upsert nat utf8_stdout post_created (py "itens")
                 [1; 2; 3] (py "https://x.supabase.co/") (py "k") 2 true)) =
    [1; 2; 3] ∧
  3 = length [1; 2; 3].
Proof.
  split; [vm_compute; reflexivity|]. split; [vm_compute; reflexivity|].
  destruct (supabase_upsert_posts_in_order nat utf8_stdout post_created
              (py "itens") [1; 2; 3] (py "https://x.supabase.co/") (py "k")
              2 true) as (_ & _ & H).
  apply (H 3); [lia|vm_compute; reflexivity].
Defined.

Lemma supabase_upsert_without_batches_witness :
  supabase_upsert nat utf8_stdout post_created (py "itens") [1; 2; 3]
    (py "https://x.supabase.co/") (py "k") (-500) true = (Done 0, []) ∧
  supabase_upsert nat utf8_stdout post_created (py "itens") [1; 2; 3]
    (py "https://x.supabase.co/") (py "k") 0 true =
    (Raised (py "range() arg 3 must not be zero"), []).
Proof.
  split.
  - exact (supabase_upsert_without_batches nat utf8_stdout post_created
             (py "itens") [1; 2; 3] (py "https://x.supabase.co/") (py "k")
             (-500) true ltac:(lia)).
  - exact (supabase_upsert_without_batches nat utf8_stdout post_created
             (py "itens") [1; 2; 3] (py "https://x.supabase.co/") (py "k")
             0 true ltac:(lia)).
Defined.

Lemma supabase_upsert_accepted_witness :
  accepts_all nat post_created ∧ prints_all lenient_stdout true ∧
  ∃ posts,
    supabase_upsert nat lenient_stdout post_created (py "itens") [1; 2; 3]
      (py "https://x.supabase.co/") (py "k") 500 true =
      (Done (length [1; 2; 3]), posts) ∧
    concat posts = [1; 2; 3].
Proof.
  assert (accepts_all nat post_created) as H1.
  { intros n batch. exists 201, []. split; [reflexivity|lia]. }
  assert (prints_all lenient_stdout true) as H2 by (right; reflexivity).
  split; [exact H1|]. split; [exact H2|].
  exact (supabase_upsert_accepted nat lenient_stdout post_created (py "itens")
           [1; 2; 3] (py "https://x.supabase.co/") (py "k") 500 true
           ltac:(lia) H1 H2).
Defined.
